(** * Referral backend: a shallow embedding of the Go sources

    The development follows the package layout of the repository:
    [utils] (referral codes and bearer tokens), [models], [repository]
    (the relational store behind parameterised queries), [services],
    [middleware] (rate limiting) and [handlers].  Go strings are byte
    strings and are modelled by [string]; [int], [int64] and instants
    are [Z]; [uuid.UUID] is a 128-bit number, modelled by [N]. *)

From Stdlib Require Import ZArith Ascii String.
From stdpp Require Import base option list gmap strings fin_maps pretty.

#[local] Open Scope string_scope.
#[local] Open Scope Z_scope.

Abbreviation UUID := N.

(** ** Third-party functions the sources call

    These belong to libraries outside the repository (google/uuid,
    go-playground/validator, unicode tables of the Go runtime) or to the
    password file of [utils], which only its test accompanies.  They are
    taken as an interface; nothing below depends on how they compute. *)

Class External := {
  (** [uuid.Parse]: [None] stands for a returned error. *)
  uuid_Parse : string → option UUID;
  (** the [email] tag of the validator *)
  validator_email : string → bool;
  (** [utf8.RuneCountInString], used by the [min=] tag on strings *)
  RuneCountInString : string → nat;
  (** [utils.CheckPassword plaintext hash] *)
  CheckPassword : string → string → bool;
  (** [strings.Map(unicode.ToUpper, s)], the non-ASCII path of [strings.ToUpper] *)
  unicode_ToUpper : string → string
}.

(** ** Errors and results

    The sentinel errors of the packages, compared with [==] or
    [errors.Is] by their callers.  [ErrDriver] stands for every other
    error value (database driver, constraint violation, entropy). *)

Inductive error :=
  | ErrInvalidToken | ErrExpiredToken
  | ErrUserNotFound | ErrUserExists | ErrReferralCodeExists
  | ErrReferralNotFound | ErrPayoutNotFound
  | ErrTokenNotFound | ErrTokenExpired
  | ErrInvalidCredentials | ErrEmailAlreadyExists | ErrUserBlocked
  | ErrDriver (msg : string).

#[global] Instance error_eq_dec : EqDecision error.
Proof. solve_decision. Defined.

Inductive result (A : Type) :=
  | Ok (a : A)
  | Err (e : error).
Arguments Ok {A} a.
Arguments Err {A} e.

(** ** Byte-string helpers *)

Fixpoint string_map (f : ascii → ascii) (s : string) : string :=
  match s with
  | EmptyString => EmptyString
  | String c r => String (f c) (string_map f r)
  end.

Fixpoint string_forallb (p : ascii → bool) (s : string) : bool :=
  match s with
  | EmptyString => true
  | String c r => p c && string_forallb p r
  end.

(** Go's [s[:n]] for [n <= len(s)]; the callers below guard the bound. *)
Definition slice_to (n : nat) (s : string) : string := substring 0 n s.

Definition is_ascii_byte (c : ascii) : bool := (N_of_ascii c <? 128)%N.

Definition is_lower (c : ascii) : bool :=
  (97 <=? N_of_ascii c)%N && (N_of_ascii c <=? 122)%N.

Definition is_upper_hex (c : ascii) : bool :=
  ((48 <=? N_of_ascii c)%N && (N_of_ascii c <=? 57)%N)
  || ((65 <=? N_of_ascii c)%N && (N_of_ascii c <=? 70)%N).

(** [c -= 'a' - 'A'] on the lower-case letters, identity elsewhere *)
Definition upper_byte (c : ascii) : ascii :=
  if is_lower c then ascii_of_N (N_of_ascii c - 32) else c.

(** Two's-complement wrap-around of the 64-bit [int] and [int64] *)
Definition wrap64 (z : Z) : Z := (z + 2 ^ 63) mod 2 ^ 64 - 2 ^ 63.

(** The double-quote character, for JSON written out by hand *)
Definition dq : string := String (ascii_of_N 34) EmptyString.

(** [{"error": "<message>"}] as the middleware writes it *)
Definition error_json (message : string) : string :=
  "{" +:+ dq +:+ "error" +:+ dq +:+ ": " +:+ dq +:+ message +:+ dq +:+ "}".

(** ** Time (package [time])

    Instants are nanoseconds since the epoch and durations are
    nanoseconds. *)
Module time.

Definition Second : Z := 1000000000.
Definition Minute : Z := 60 * Second.
Definition Hour : Z := 60 * Minute.

(** [t.Truncate(time.Second)] *)
Definition Truncate_Second (t : Z) : Z := t / Second * Second.

End time.

Module utils.

(** *** [strings.ToUpper]: byte-wise on ASCII input, the Unicode mapping
    otherwise *)
Definition ToUpper `{External} (s : string) : string :=
  if string_forallb is_ascii_byte s then string_map upper_byte s
  else unicode_ToUpper s.

(** *** [hex.EncodeToString] *)
Definition hextable : string := "0123456789abcdef".

Definition hex_digit (n : N) : ascii :=
  match String.get (N.to_nat n) hextable with
  | Some c => c
  | None => "0"%char
  end.

Fixpoint EncodeToString (bs : list Byte.byte) : string :=
  match bs with
  | [] => EmptyString
  | b :: r =>
      String (hex_digit (Byte.to_N b / 16))
        (String (hex_digit (Byte.to_N b mod 16)) (EncodeToString r))
  end.

(** [bytes := make([]byte, n); rand.Read(bytes)]: a zeroed buffer of [n]
    bytes overwritten by what the entropy source [rnd] delivers. *)
Definition rand_Read (rnd : list Byte.byte) (n : nat) : list Byte.byte :=
  take n (rnd ++ replicate n Byte.x00).

(** *** [GenerateReferralCode] *)
Definition referral_prefix `{External} (name : string) : string :=
  let prefix := ToUpper name in
  if (3 <? String.length prefix)%nat then slice_to 3 prefix else prefix.

Definition referral_suffix `{External} (rnd : list Byte.byte) : string :=
  let bytes := rand_Read rnd 4 in
  slice_to 6 (ToUpper (EncodeToString bytes)).

Definition GenerateReferralCode `{External} (rnd : list Byte.byte) (name : string) : string :=
  referral_prefix name +:+ "-" +:+ referral_suffix rnd.

(** *** Bearer tokens (jwt.go) *)

Definition TokenType := string.
Definition AccessToken : TokenType := "access".
Definition RefreshToken : TokenType := "refresh".

(** [Claims], with the registered claims the validator of the JWT
    library looks at. *)
Record Claims := {
  UserID : UUID;
  Email : string;
  Role : string;
  Type_ : TokenType;
  ExpiresAt : option Z;
  NotBefore : option Z;
  IssuedAt : option Z;
  Issuer : string
}.

Inductive SigningMethod :=
  | SigningMethodHMAC (name : string)
  | SigningMethodRSA (name : string)
  | SigningMethodRSAPSS (name : string)
  | SigningMethodECDSA (name : string)
  | SigningMethodEd25519
  | SigningMethodNone.

Definition SigningMethodHS256 : SigningMethod := SigningMethodHMAC "HS256".

(** What a token string is, up to base64 and JSON: either it has no
    three-segment structure with a decodable header and claims, or its
    header names no signing method the library knows, or it carries a
    method, claims and a signature segment.  The signature is symbolic:
    [mac_key] is the key under which the segment is the MAC of the first
    two segments, if there is one. *)
Inductive TokenString :=
  | Unparsable (raw : string)
  | UnknownAlg (alg : string) (claims : Claims)
  | JWS (alg : SigningMethod) (claims : Claims) (mac_key : option string).

(** Sentinels of golang-jwt/v5 that [errors.Is] can find in a parse
    error; an error is the list of sentinels joined in it. *)
Inductive jwt_sentinel :=
  | ErrTokenMalformed | ErrTokenUnverifiable | ErrTokenSignatureInvalid
  | ErrTokenInvalidClaims | jwt_ErrTokenExpired | ErrTokenNotValidYet
  | Wrapped (e : error).

#[global] Instance jwt_sentinel_eq_dec : EqDecision jwt_sentinel.
Proof. solve_decision. Defined.

Definition errors_Is (err : list jwt_sentinel) (target : jwt_sentinel) : bool :=
  bool_decide (target ∈ err).

Record Token := {
  Method : SigningMethod;
  TokenClaims : Claims;
  Valid : bool
}.

(** [Method.Verify] of the HMAC family *)
Definition Verify (alg : SigningMethod) (mac_key : option string) (key : string) : bool :=
  match alg with
  | SigningMethodHMAC _ => bool_decide (mac_key = Some key)
  | _ => false
  end.

(** The claims validator of the library with its default options:
    expiry and not-before are checked when present, no leeway; the
    failures are joined. *)
Definition expired (c : Claims) (now : Z) : bool :=
  match ExpiresAt c with
  | Some exp => negb (now <? exp)
  | None => false
  end.

Definition not_valid_yet (c : Claims) (now : Z) : bool :=
  match NotBefore c with
  | Some nbf => now <? nbf
  | None => false
  end.

Definition Validate (c : Claims) (now : Z) : list jwt_sentinel :=
  (if expired c now then [jwt_ErrTokenExpired] else [])
  ++ (if not_valid_yet c now then [ErrTokenNotValidYet] else []).

(** [jwt.ParseWithClaims]: structure, key lookup, signature, claims, in
    this order, returning at the first stage that fails. *)
Definition ParseWithClaims (tokenString : TokenString)
    (keyFunc : SigningMethod → result string) (now : Z)
    : option Token * list jwt_sentinel :=
  match tokenString with
  | Unparsable _ => (None, [ErrTokenMalformed])
  | UnknownAlg _ _ => (None, [ErrTokenUnverifiable])
  | JWS alg claims mac_key =>
      let token := {| Method := alg; TokenClaims := claims; Valid := false |} in
      match keyFunc alg with
      | Err e => (Some token, [ErrTokenUnverifiable; Wrapped e])
      | Ok key =>
          if Verify alg mac_key key then
            match Validate claims now with
            | [] => (Some {| Method := alg; TokenClaims := claims; Valid := true |}, [])
            | errs => (Some token, ErrTokenInvalidClaims :: errs)
            end
          else (Some token, [ErrTokenSignatureInvalid])
      end
  end.

Record JWTManager := {
  accessSecret : string;
  refreshSecret : string;
  accessExpiry : Z;
  refreshExpiry : Z
}.

Definition NewJWTManager (accessSecret refreshSecret : string)
    (accessExpiry refreshExpiry : Z) : JWTManager :=
  {| accessSecret := accessSecret; refreshSecret := refreshSecret;
     accessExpiry := accessExpiry; refreshExpiry := refreshExpiry |}.

(** [jwt.NewNumericDate]: the instant cut to the precision of a second *)
Definition NewNumericDate (t : Z) : Z := time.Truncate_Second t.

Definition SignedString (alg : SigningMethod) (claims : Claims) (key : string) : TokenString :=
  JWS alg claims (Some key).

Definition GenerateAccessToken (j : JWTManager) (now : Z)
    (userID : UUID) (email role : string) : TokenString :=
  let claims := {| UserID := userID; Email := email; Role := role;
                   Type_ := AccessToken;
                   ExpiresAt := Some (NewNumericDate (now + accessExpiry j));
                   NotBefore := None;
                   IssuedAt := Some (NewNumericDate now);
                   Issuer := "cirvee-referral" |} in
  SignedString SigningMethodHS256 claims (accessSecret j).

Definition GenerateRefreshToken (j : JWTManager) (now : Z)
    (userID : UUID) (email role : string) : TokenString :=
  let claims := {| UserID := userID; Email := email; Role := role;
                   Type_ := RefreshToken;
                   ExpiresAt := Some (NewNumericDate (now + refreshExpiry j));
                   NotBefore := None;
                   IssuedAt := Some (NewNumericDate now);
                   Issuer := "cirvee-referral" |} in
  SignedString SigningMethodHS256 claims (refreshSecret j).

Definition hmac_keyFunc (secret : string) (alg : SigningMethod) : result string :=
  match alg with
  | SigningMethodHMAC _ => Ok secret
  | _ => Err ErrInvalidToken
  end.

Definition validateToken (now : Z) (tokenString : TokenString)
    (secret : string) (expectedType : TokenType) : result Claims :=
  match ParseWithClaims tokenString (hmac_keyFunc secret) now with
  | (_, (_ :: _) as err) =>
      if errors_Is err jwt_ErrTokenExpired then Err ErrExpiredToken
      else Err ErrInvalidToken
  | (None, []) => Err ErrInvalidToken
  | (Some token, []) =>
      if negb (Valid token) then Err ErrInvalidToken
      else if negb (bool_decide (Type_ (TokenClaims token) = expectedType))
      then Err ErrInvalidToken
      else Ok (TokenClaims token)
  end.

Definition ValidateAccessToken (j : JWTManager) (now : Z) (tokenString : TokenString)
    : result Claims :=
  validateToken now tokenString (accessSecret j) AccessToken.

Definition ValidateRefreshToken (j : JWTManager) (now : Z) (tokenString : TokenString)
    : result Claims :=
  validateToken now tokenString (refreshSecret j) RefreshToken.

End utils.

Module models.

Definition Role := string.
Definition RoleAdmin : Role := "admin".
Definition RoleUser : Role := "user".

Record User := {
  ID : UUID;
  Email : string;
  PasswordHash : string;
  Name : string;
  Phone : string;
  UserRole : Role;
  BankName : string;
  AccountNumber : string;
  AccountName : string;
  ReferralCode : string;
  IsBlocked : bool;
  CreatedAt : Z;
  UpdatedAt : Z
}.

Record Referral := {
  RefID : UUID;
  ReferrerID : option UUID;
  ReferrerName : string;
  ReferredName : string;
  ReferredEmail : string;
  ReferredPhone : string;
  Course : string;
  CoursePrice : Z;
  Earnings : Z;
  Status : string;
  RefCreatedAt : Z
}.

Definition PayoutStatus := string.
Definition PayoutStatusPending : PayoutStatus := "pending".

Record Payout := {
  PayoutID : UUID;
  PayoutUserID : UUID;
  Amount : Z;
  PStatus : PayoutStatus;
  ApprovedBy : option UUID;
  PayoutCreatedAt : Z;
  PaidAt : option Z
}.

(** Request and response DTOs *)
Record LoginRequest := {
  LoginEmail : string;
  LoginPassword : string
}.

Record AuthResponse := {
  AccessToken : utils.TokenString;
  RefreshToken : utils.TokenString;
  AuthUser : User
}.

Record UpdatePayoutStatusRequest := { NewPayoutStatus : PayoutStatus }.

Record UpdateReferralStatusRequest := { NewStatus : string }.

Record StudentRegistrationRequest := {
  StudentName : string;
  StudentEmail : string;
  StudentPhone : string;
  StudentCourse : string;
  StudentReferralCode : string
}.

Record ForgotPasswordRequest := { ForgotEmail : string }.

Record BlockUserRequest := { ReqIsBlocked : bool }.

End models.

Module repository.
Import models.

Record PasswordResetToken := {
  TokID : UUID;
  TokUserID : UUID;
  TokenValue : string;
  TokExpiresAt : Z;
  TokCreatedAt : Z
}.

(** The relational store as the queries see it: one list of rows per
    table, in insertion order.  [up] is false when the pool cannot serve
    a statement, and [clock] is what [NOW()] and [time.Now()] read. *)
Record DB := {
  up : bool;
  clock : Z;
  users : list User;
  referrals : list Referral;
  payouts : list Payout;
  password_reset_tokens : list PasswordResetToken;
  dashboard_cached : bool
}.

Definition with_users (d : DB) (us : list User) : DB :=
  {| up := up d; clock := clock d; users := us; referrals := referrals d;
     payouts := payouts d; password_reset_tokens := password_reset_tokens d;
     dashboard_cached := dashboard_cached d |}.

Definition with_referrals (d : DB) (rs : list Referral) : DB :=
  {| up := up d; clock := clock d; users := users d; referrals := rs;
     payouts := payouts d; password_reset_tokens := password_reset_tokens d;
     dashboard_cached := dashboard_cached d |}.

Definition with_payouts (d : DB) (ps : list Payout) : DB :=
  {| up := up d; clock := clock d; users := users d; referrals := referrals d;
     payouts := ps; password_reset_tokens := password_reset_tokens d;
     dashboard_cached := dashboard_cached d |}.

Definition with_tokens (d : DB) (ts : list PasswordResetToken) : DB :=
  {| up := up d; clock := clock d; users := users d; referrals := referrals d;
     payouts := payouts d; password_reset_tokens := ts;
     dashboard_cached := dashboard_cached d |}.

Definition with_dashboard_cached (d : DB) (b : bool) : DB :=
  {| up := up d; clock := clock d; users := users d; referrals := referrals d;
     payouts := payouts d; password_reset_tokens := password_reset_tokens d;
     dashboard_cached := b |}.

Definition unavailable : error := ErrDriver "connection unavailable".
Definition violation (constraint : string) : error := ErrDriver constraint.

(** Constraints of the migrations: the [CHECK]s on the two status
    columns (000001 and 000005), primary keys, and the foreign key of
    [payouts.approved_by].

    Modelled from the spec: migrations 000003 and 000004 are not among
    the sources.  The columns and tables the queries use beyond 000001
    ([users.is_blocked], [password_reset_tokens]) are as the models have
    them, and [referrals.referrer_id] is nullable, as the spec's data
    model says (null for a direct signup). *)
Definition referrals_status_check (status : string) : bool :=
  bool_decide (status ∈ ["pending"; "paid"; "rejected"]).

Definition payouts_status_check (status : PayoutStatus) : bool :=
  bool_decide (status ∈ ["pending"; "approved"; "rejected"]).

Definition user_exists (d : DB) (id : UUID) : bool :=
  existsb (λ u, bool_decide (ID u = id)) (users d).

(** *** Users *)

Definition set_blocked (now : Z) (isBlocked : bool) (u : User) : User :=
  {| ID := ID u; Email := Email u; PasswordHash := PasswordHash u;
     Name := Name u; Phone := Phone u; UserRole := UserRole u;
     BankName := BankName u; AccountNumber := AccountNumber u;
     AccountName := AccountName u; ReferralCode := ReferralCode u;
     IsBlocked := isBlocked; CreatedAt := CreatedAt u; UpdatedAt := now |}.

Module UserRepository.

Definition GetByEmail (d : DB) (email : string) : result User :=
  if negb (up d) then Err unavailable
  else match find (λ u, bool_decide (Email u = email)) (users d) with
       | Some u => Ok u
       | None => Err ErrUserNotFound
       end.

Definition GetByReferralCode (d : DB) (code : string) : result User :=
  if negb (up d) then Err unavailable
  else match find (λ u, bool_decide (ReferralCode u = code)) (users d) with
       | Some u => Ok u
       | None => Err ErrUserNotFound
       end.

(** [UPDATE users SET is_blocked = $2, updated_at = NOW() WHERE id = $1] *)
Definition UpdateStatus (d : DB) (userID : UUID) (isBlocked : bool)
    : option error * DB :=
  if negb (up d) then (Some unavailable, d)
  else if negb (user_exists d userID) then (Some ErrUserNotFound, d)
  else (None,
        with_users d
          (fmap (λ u, if bool_decide (ID u = userID)
                     then set_blocked (clock d) isBlocked u else u)
               (users d))).

End UserRepository.

(** *** Referrals *)

Definition set_created (r : Referral) (now : Z) : Referral :=
  {| RefID := RefID r; ReferrerID := ReferrerID r; ReferrerName := ReferrerName r;
     ReferredName := ReferredName r; ReferredEmail := ReferredEmail r;
     ReferredPhone := ReferredPhone r; Course := Course r;
     CoursePrice := CoursePrice r; Earnings := Earnings r;
     Status := Status r; RefCreatedAt := now |}.

Definition set_status (status : string) (r : Referral) : Referral :=
  {| RefID := RefID r; ReferrerID := ReferrerID r; ReferrerName := ReferrerName r;
     ReferredName := ReferredName r; ReferredEmail := ReferredEmail r;
     ReferredPhone := ReferredPhone r; Course := Course r;
     CoursePrice := CoursePrice r; Earnings := Earnings r;
     Status := status; RefCreatedAt := RefCreatedAt r |}.

Definition referral_exists (d : DB) (id : UUID) : bool :=
  existsb (λ r, bool_decide (RefID r = id)) (referrals d).

Module ReferralRepository.

(** [INSERT INTO referrals ... RETURNING created_at] *)
Definition Create (d : DB) (referral : Referral) : result Referral * DB :=
  if negb (up d) then (Err unavailable, d)
  else if referral_exists d (RefID referral) then (Err (violation "referrals_pkey"), d)
  else if negb (referrals_status_check (Status referral))
  then (Err (violation "referrals_status_check"), d)
  else let row := set_created referral (clock d) in
       (Ok row, with_referrals d (referrals d ++ [row])).

(** [UPDATE referrals SET status = $2 WHERE id = $1] *)
Definition UpdateStatus (d : DB) (id : UUID) (status : string) : option error * DB :=
  if negb (up d) then (Some unavailable, d)
  else if negb (referral_exists d id) then (Some ErrReferralNotFound, d)
  else if negb (referrals_status_check status)
  then (Some (violation "referrals_status_check"), d)
  else (None,
        with_referrals d
          (fmap (λ r, if bool_decide (RefID r = id) then set_status status r else r)
               (referrals d))).

(** [UPDATE referrals SET status = 'paid'
     WHERE referrer_id = $1 AND status = 'pending'] *)
Definition MarkReferralsAsPaid (d : DB) (referrerID : UUID) : option error * DB :=
  if negb (up d) then (Some unavailable, d)
  else (None,
        with_referrals d
          (fmap (λ r, if bool_decide (ReferrerID r = Some referrerID)
                        && bool_decide (Status r = "pending")
                     then set_status "paid" r else r)
               (referrals d))).

Definition MarkReferralAsPaid (d : DB) (id : UUID) : option error * DB :=
  UpdateStatus d id "paid".

(** Modelled from the spec: [InvalidateDashboardCache] is called by the
    student handler, but the version of this file that defines it is not
    among the sources; the spec has it drop the cached dashboard
    aggregate. *)
Definition InvalidateDashboardCache (d : DB) : option error * DB :=
  (None, with_dashboard_cached d false).

End ReferralRepository.

(** *** Payouts *)

Definition payout_exists (d : DB) (id : UUID) : bool :=
  existsb (λ p, bool_decide (PayoutID p = id)) (payouts d).

Definition set_payout_status (now : Z) (status : PayoutStatus) (approvedBy : UUID)
    (p : Payout) : Payout :=
  {| PayoutID := PayoutID p; PayoutUserID := PayoutUserID p; Amount := Amount p;
     PStatus := status; ApprovedBy := Some approvedBy;
     PayoutCreatedAt := PayoutCreatedAt p;
     PaidAt := if bool_decide (status = "approved") then Some now else PaidAt p |}.

Module PayoutRepository.

(** [UPDATE payouts SET status = $2, approved_by = $3,
     paid_at = CASE WHEN $2 = 'approved' THEN NOW() ELSE paid_at END
     WHERE id = $1] *)
Definition UpdateStatus (d : DB) (id : UUID) (status : PayoutStatus)
    (approvedBy : UUID) : option error * DB :=
  if negb (up d) then (Some unavailable, d)
  else if negb (payout_exists d id) then (Some ErrPayoutNotFound, d)
  else if negb (payouts_status_check status)
  then (Some (violation "payouts_status_check"), d)
  else if negb (user_exists d approvedBy)
  then (Some (violation "payouts_approved_by_fkey"), d)
  else (None,
        with_payouts d
          (fmap (λ p, if bool_decide (PayoutID p = id)
                     then set_payout_status (clock d) status approvedBy p else p)
               (payouts d))).

End PayoutRepository.

(** *** Password reset tokens *)

(** [GenerateToken]: 32 bytes of entropy in hexadecimal; [None] is a
    failing [rand.Read]. *)
Definition GenerateToken (rnd : option (list Byte.byte)) : result string :=
  match rnd with
  | Some bs => Ok (utils.EncodeToString (utils.rand_Read bs 32))
  | None => Err (ErrDriver "entropy")
  end.

Definition token_exists (d : DB) (id : UUID) : bool :=
  existsb (λ t, bool_decide (TokID t = id)) (password_reset_tokens d).

Module ResetTokenRepository.

(** [Create]: earlier tokens of the user are deleted (the outcome of the
    DELETE is discarded), then the new one is inserted. *)
Definition Create (d : DB) (newID : UUID) (rnd : option (list Byte.byte))
    (userID : UUID) (expiry : Z) : result PasswordResetToken * DB :=
  let d1 := if up d
            then with_tokens d
                   (filter (λ t, TokUserID t ≠ userID) (password_reset_tokens d))
            else d in
  match GenerateToken rnd with
  | Err e => (Err e, d1)
  | Ok token =>
      let resetToken := {| TokID := newID; TokUserID := userID; TokenValue := token;
                           TokExpiresAt := clock d1 + expiry;
                           TokCreatedAt := clock d1 |} in
      if negb (up d1) then (Err unavailable, d1)
      else if token_exists d1 newID
      then (Err (violation "password_reset_tokens_pkey"), d1)
      else (Ok resetToken,
            with_tokens d1 (password_reset_tokens d1 ++ [resetToken]))
  end.

End ResetTokenRepository.

End repository.

Module services.
Import models repository.

Module AuthService.

Definition Login `{External} (j : utils.JWTManager) (d : DB) (req : LoginRequest)
    : result AuthResponse :=
  match UserRepository.GetByEmail d (LoginEmail req) with
  | Err e =>
      if bool_decide (e = ErrUserNotFound) then Err ErrInvalidCredentials else Err e
  | Ok user =>
      if IsBlocked user then Err ErrUserBlocked
      else if negb (CheckPassword (LoginPassword req) (PasswordHash user))
      then Err ErrInvalidCredentials
      else
        let accessToken :=
          utils.GenerateAccessToken j (clock d) (ID user) (Email user) (UserRole user) in
        let refreshToken :=
          utils.GenerateRefreshToken j (clock d) (ID user) (Email user) (UserRole user) in
        Ok {| AccessToken := accessToken; RefreshToken := refreshToken;
              AuthUser := user |}
  end.

End AuthService.

End services.

Module handlers.
Import models repository.

(** *** Responses

    [respondJSON] and [respondError] write a status and a JSON document;
    a handler that dereferences missing claims panics instead. *)
Inductive Body :=
  | JSONObject (fields : list (string * string))
  | JSONAuthResponse (r : AuthResponse)
  | PlainText (text : string).

Inductive Response :=
  | Respond (code : Z) (body : Body)
  | Panic.

Definition StatusOK : Z := 200.
Definition StatusCreated : Z := 201.
Definition StatusBadRequest : Z := 400.
Definition StatusUnauthorized : Z := 401.
Definition StatusForbidden : Z := 403.
Definition StatusNotFound : Z := 404.
Definition StatusInternalServerError : Z := 500.

Definition respondJSON (status : Z) (data : list (string * string)) : Response :=
  Respond status (JSONObject data).

Definition respondError (status : Z) (message : string) : Response :=
  Respond status (JSONObject [("error", message)]).

(** Notification goroutines a handler starts and never joins. *)
Inductive Task :=
  | SendStudentConfirmation (email name course : string)
  | SendReferralNotification (referrerEmail referrerName studentName course : string)
      (earnings : Z)
  | SendAdminNewStudentAlert (adminEmail name email course referrer : string)
  | SendPasswordResetEmail (email token : string).

Record Outcome := {
  response : Response;
  spawned : list Task;
  store : DB
}.

Definition reply (r : Response) (d : DB) : Outcome :=
  {| response := r; spawned := []; store := d |}.

(** *** Validation (validator tags and [formatValidationError]) *)
Record FieldError := { Field : string; Tag : string; Param : string }.

Definition required (field value : string) : option FieldError :=
  if bool_decide (value = "") then Some {| Field := field; Tag := "required"; Param := "" |}
  else None.

Definition email `{External} (field value : string) : option FieldError :=
  if validator_email value then None
  else Some {| Field := field; Tag := "email"; Param := "" |}.

Definition min2 `{External} (field value : string) : option FieldError :=
  if (RuneCountInString value <? 2)%nat
  then Some {| Field := field; Tag := "min"; Param := "2" |}
  else None.

(** The tags of one field are tried in order; the first failure is reported. *)
Definition first_failure (checks : list (option FieldError)) : list FieldError :=
  match omap id checks with
  | e :: _ => [e]
  | [] => []
  end.

Definition validate_LoginRequest `{External} (req : LoginRequest) : list FieldError :=
  first_failure [required "Email" (LoginEmail req); email "Email" (LoginEmail req)]
  ++ first_failure [required "Password" (LoginPassword req)].

Definition validate_ForgotPasswordRequest `{External} (req : ForgotPasswordRequest)
    : list FieldError :=
  first_failure [required "Email" (ForgotEmail req); email "Email" (ForgotEmail req)].

Definition validate_StudentRegistrationRequest `{External}
    (req : StudentRegistrationRequest) : list FieldError :=
  first_failure [required "Name" (StudentName req); min2 "Name" (StudentName req)]
  ++ first_failure [required "Email" (StudentEmail req); email "Email" (StudentEmail req)]
  ++ first_failure [required "Phone" (StudentPhone req)]
  ++ first_failure [required "Course" (StudentCourse req)].

Definition message_of (e : FieldError) : string :=
  if bool_decide (Tag e = "required") then Field e +:+ " is required"
  else if bool_decide (Tag e = "email") then Field e +:+ " must be a valid email"
  else if bool_decide (Tag e = "min")
  then Field e +:+ " must be at least " +:+ Param e +:+ " characters"
  else if bool_decide (Tag e = "oneof") then Field e +:+ " must be one of: " +:+ Param e
  else Field e +:+ " is invalid".

Fixpoint Join (elems : list string) (sep : string) : string :=
  match elems with
  | [] => ""
  | [e] => e
  | e :: rest => e +:+ sep +:+ Join rest sep
  end.

Definition formatValidationError (errs : list FieldError) : string :=
  Join (map message_of errs) ", ".

(** *** AuthHandler *)
Module AuthHandler.

Definition Login `{External} (j : utils.JWTManager) (d : DB)
    (body : option LoginRequest) : Outcome :=
  match body with
  | None => reply (respondError StatusBadRequest "invalid request body") d
  | Some req =>
      match validate_LoginRequest req with
      | _ :: _ as errs => reply (respondError StatusBadRequest (formatValidationError errs)) d
      | [] =>
          match services.AuthService.Login j d req with
          | Err e =>
              if bool_decide (e = ErrInvalidCredentials)
              then reply (respondError StatusUnauthorized "invalid credentials") d
              else if bool_decide (e = ErrUserBlocked)
              then reply (respondError StatusForbidden "user account is blocked") d
              else reply (respondError StatusInternalServerError "failed to login") d
          | Ok resp => reply (Respond StatusOK (JSONAuthResponse resp)) d
          end
      end
  end.

Definition ForgotPassword `{External} (d : DB) (newID : UUID)
    (rnd : option (list Byte.byte)) (body : option ForgotPasswordRequest) : Outcome :=
  match body with
  | None => reply (respondError StatusBadRequest "invalid request body") d
  | Some req =>
      match validate_ForgotPasswordRequest req with
      | _ :: _ as errs => reply (respondError StatusBadRequest (formatValidationError errs)) d
      | [] =>
          match UserRepository.GetByEmail d (ForgotEmail req) with
          | Err _ =>
              reply (respondJSON StatusOK
                [("message", "If the email exists, a password reset link will be sent")]) d
          | Ok user =>
              match ResetTokenRepository.Create d newID rnd (ID user) time.Hour with
              | (Err _, d') =>
                  reply (respondError StatusInternalServerError
                           "failed to create reset token") d'
              | (Ok token, d') =>
                  {| response := respondJSON StatusOK
                       [("message", "If the email exists, a password reset link will be sent")];
                     spawned := [SendPasswordResetEmail (Email user) (TokenValue token)];
                     store := d' |}
              end
          end
      end
  end.

End AuthHandler.

(** *** AdminHandler

    [ctx] is what [middleware.GetUserFromContext] finds in the request
    context; the handlers discard its [ok] flag and dereference the
    claims. *)
Module AdminHandler.

Definition UpdatePayoutStatus `{External} (d : DB) (ctx : option utils.Claims)
    (id : string) (body : option UpdatePayoutStatusRequest) : Outcome :=
  match uuid_Parse id with
  | None => reply (respondError StatusBadRequest "invalid payout ID") d
  | Some payoutID =>
      match body with
      | None => reply (respondError StatusBadRequest "invalid request body") d
      | Some req =>
          match ctx with
          | None => reply Panic d
          | Some claims =>
              match PayoutRepository.UpdateStatus d payoutID (NewPayoutStatus req)
                      (utils.UserID claims) with
              | (Some e, d') =>
                  if bool_decide (e = ErrPayoutNotFound)
                  then reply (respondError StatusNotFound "payout not found") d'
                  else reply (respondError StatusInternalServerError
                                "failed to update payout") d'
              | (None, d') =>
                  reply (respondJSON StatusOK [("message", "payout status updated")]) d'
              end
          end
      end
  end.

Definition MarkReferrerPaid `{External} (d : DB) (id : string) : Outcome :=
  match uuid_Parse id with
  | None => reply (respondError StatusBadRequest "invalid referrer ID") d
  | Some referrerID =>
      match ReferralRepository.MarkReferralsAsPaid d referrerID with
      | (Some _, d') =>
          reply (respondError StatusInternalServerError
                   "failed to mark referrals as paid") d'
      | (None, d') =>
          reply (respondJSON StatusOK [("message", "referrals marked as paid")]) d'
      end
  end.

Definition BlockUser `{External} (d : DB) (ctx : option utils.Claims)
    (id : string) (body : option BlockUserRequest) : Outcome :=
  match uuid_Parse id with
  | None => reply (respondError StatusBadRequest "invalid user ID") d
  | Some userID =>
      match body with
      | None => reply (respondError StatusBadRequest "invalid request body") d
      | Some req =>
          match ctx with
          | None => reply Panic d
          | Some claims =>
              if bool_decide (utils.UserID claims = userID)
              then reply (respondError StatusBadRequest "cannot block yourself") d
              else
                match UserRepository.UpdateStatus d userID (ReqIsBlocked req) with
                | (Some e, d') =>
                    if bool_decide (e = ErrUserNotFound)
                    then reply (respondError StatusNotFound "user not found") d'
                    else reply (respondError StatusInternalServerError
                                  "failed to update user status") d'
                | (None, d') =>
                    let action := if negb (ReqIsBlocked req) then "unblocked" else "blocked" in
                    reply (respondJSON StatusOK [("message", "user " +:+ action)]) d'
                end
          end
      end
  end.

Definition UpdateReferralStatus `{External} (d : DB) (id : string)
    (body : option UpdateReferralStatusRequest) : Outcome :=
  match uuid_Parse id with
  | None => reply (respondError StatusBadRequest "invalid referral ID") d
  | Some referralID =>
      match body with
      | None => reply (respondError StatusBadRequest "invalid request body") d
      | Some req =>
          match ReferralRepository.UpdateStatus d referralID (NewStatus req) with
          | (Some e, d') =>
              if bool_decide (e = ErrReferralNotFound)
              then reply (respondError StatusNotFound "referral not found") d'
              else reply (respondError StatusInternalServerError
                            "failed to update referral status") d'
          | (None, d') =>
              reply (respondJSON StatusOK [("message", "referral status updated")]) d'
          end
      end
  end.

Definition MarkReferralPaid `{External} (d : DB) (id : string) : Outcome :=
  match uuid_Parse id with
  | None => reply (respondError StatusBadRequest "invalid referral ID") d
  | Some referralID =>
      match ReferralRepository.MarkReferralAsPaid d referralID with
      | (Some e, d') =>
          if bool_decide (e = ErrReferralNotFound)
          then reply (respondError StatusNotFound "referral not found or already paid") d'
          else reply (respondError StatusInternalServerError
                        "failed to mark referral as paid") d'
      | (None, d') =>
          reply (respondJSON StatusOK [("message", "referral marked as paid")]) d'
      end
  end.

End AdminHandler.

(** *** StudentHandler

    The sources hold two copies of the handler file.  They differ in the
    price table, in the commission (a flat amount against a percentage
    of the price) and in the cache invalidation after the insert. *)

Module flat.

Definition coursePrices : gmap string Z :=
  list_to_map [
    ("Web Development", 750000);
    ("Data Science", 400000);
    ("Mobile Development", 400000);
    ("UI/UX Design", 350000);
    ("Digital Marketing", 100000);
    ("Cybersecurity", 400000);
    ("Cloud Computing", 400000);
    ("Machine Learning", 400000)].

Definition referralCommission : Z := 10000.

Definition RegisterStudent `{External} (adminEmail : string) (d : DB) (newID : UUID)
    (body : option StudentRegistrationRequest) : Outcome :=
  match body with
  | None => reply (respondError StatusBadRequest "invalid request body") d
  | Some req =>
      match validate_StudentRegistrationRequest req with
      | _ :: _ as errs => reply (respondError StatusBadRequest (formatValidationError errs)) d
      | [] =>
          let coursePrice :=
            match coursePrices !! StudentCourse req with
            | Some p => p
            | None => 100000
            end in
          (* referrerID, earnings, referrerName, referrerEmail; [None] is
             the early return on a failing lookup *)
          let resolved : option (option UUID * Z * string * string) :=
            if bool_decide (StudentReferralCode req ≠ "") then
              match UserRepository.GetByReferralCode d (StudentReferralCode req) with
              | Err e =>
                  if bool_decide (e ≠ ErrUserNotFound) then None
                  else Some (None, 0, "", "")
              | Ok referrer =>
                  Some (Some (ID referrer), referralCommission, Name referrer, Email referrer)
              end
            else Some (None, 0, "", "") in
          match resolved with
          | None =>
              reply (respondError StatusInternalServerError
                       "failed to verify referral code") d
          | Some (referrerID, earnings, referrerName, referrerEmail) =>
              let referral :=
                {| RefID := newID; ReferrerID := referrerID; ReferrerName := "";
                   ReferredName := StudentName req; ReferredEmail := StudentEmail req;
                   ReferredPhone := StudentPhone req; Course := StudentCourse req;
                   CoursePrice := coursePrice; Earnings := earnings;
                   Status := "pending"; RefCreatedAt := 0 |} in
              match ReferralRepository.Create d referral with
              | (Err _, d1) =>
                  reply (respondError StatusInternalServerError
                           "failed to create referral record") d1
              | (Ok _, d1) =>
                  let d2 := snd (ReferralRepository.InvalidateDashboardCache d1) in
                  let confirmation :=
                    SendStudentConfirmation (StudentEmail req) (StudentName req)
                      (StudentCourse req) in
                  match referrerID with
                  | Some _ =>
                      {| response := respondJSON StatusCreated
                           [("message", "Student registered successfully");
                            ("referral", "applied");
                            ("referrer", referrerName)];
                         spawned :=
                           [confirmation;
                            SendReferralNotification referrerEmail referrerName
                              (StudentName req) (StudentCourse req) earnings;
                            SendAdminNewStudentAlert adminEmail (StudentName req)
                              (StudentEmail req) (StudentCourse req) referrerName];
                         store := d2 |}
                  | None =>
                      {| response := respondJSON StatusCreated
                           [("message", "Student registered successfully")];
                         spawned :=
                           [confirmation;
                            SendAdminNewStudentAlert adminEmail (StudentName req)
                              (StudentEmail req) (StudentCourse req) "Direct Sign-up"];
                         store := d2 |}
                  end
              end
          end
      end
  end.

End flat.

Module percentage.

Definition coursePrices : gmap string Z :=
  list_to_map [
    ("Web Development", 150000);
    ("Data Science", 180000);
    ("Mobile Development", 160000);
    ("UI/UX Design", 120000);
    ("Digital Marketing", 100000);
    ("Cybersecurity", 200000);
    ("Cloud Computing", 170000);
    ("Machine Learning", 190000)].

Definition earningsPercentage : Z := 10.

Definition RegisterStudent `{External} (adminEmail : string) (d : DB) (newID : UUID)
    (body : option StudentRegistrationRequest) : Outcome :=
  match body with
  | None => reply (respondError StatusBadRequest "invalid request body") d
  | Some req =>
      match validate_StudentRegistrationRequest req with
      | _ :: _ as errs => reply (respondError StatusBadRequest (formatValidationError errs)) d
      | [] =>
          let coursePrice :=
            match coursePrices !! StudentCourse req with
            | Some p => p
            | None => 100000
            end in
          let resolved : option (option UUID * Z * string * string) :=
            if bool_decide (StudentReferralCode req ≠ "") then
              match UserRepository.GetByReferralCode d (StudentReferralCode req) with
              | Err e =>
                  if bool_decide (e ≠ ErrUserNotFound) then None
                  else Some (None, 0, "", "")
              | Ok referrer =>
                  Some (Some (ID referrer),
                        Z.quot (wrap64 (coursePrice * earningsPercentage)) 100,
                        Name referrer, Email referrer)
              end
            else Some (None, 0, "", "") in
          match resolved with
          | None =>
              reply (respondError StatusInternalServerError
                       "failed to verify referral code") d
          | Some (referrerID, earnings, referrerName, referrerEmail) =>
              let referral :=
                {| RefID := newID; ReferrerID := referrerID; ReferrerName := "";
                   ReferredName := StudentName req; ReferredEmail := StudentEmail req;
                   ReferredPhone := StudentPhone req; Course := StudentCourse req;
                   CoursePrice := coursePrice; Earnings := earnings;
                   Status := "pending"; RefCreatedAt := 0 |} in
              match ReferralRepository.Create d referral with
              | (Err _, d1) =>
                  reply (respondError StatusInternalServerError
                           "failed to create referral record") d1
              | (Ok _, d1) =>
                  let confirmation :=
                    SendStudentConfirmation (StudentEmail req) (StudentName req)
                      (StudentCourse req) in
                  match referrerID with
                  | Some _ =>
                      {| response := respondJSON StatusCreated
                           [("message", "Student registered successfully");
                            ("referral", "applied");
                            ("referrer", referrerName)];
                         spawned :=
                           [confirmation;
                            SendReferralNotification referrerEmail referrerName
                              (StudentName req) (StudentCourse req) earnings;
                            SendAdminNewStudentAlert adminEmail (StudentName req)
                              (StudentEmail req) (StudentCourse req) referrerName];
                         store := d1 |}
                  | None =>
                      {| response := respondJSON StatusCreated
                           [("message", "Student registered successfully")];
                         spawned :=
                           [confirmation;
                            SendAdminNewStudentAlert adminEmail (StudentName req)
                              (StudentEmail req) (StudentCourse req) "Direct Sign-up"];
                         store := d1 |}
                  end
              end
          end
      end
  end.

End percentage.

End handlers.

Module cache.

(** Modelled from the spec: the cache package ([Incr], [Expire]) is not
    among the sources.  The spec describes a key-value store with an
    atomic increment of a counter key (a missing key counts from zero)
    and a time-to-live per key, which may be unreachable.  Counters are
    64-bit; an increment past the largest value is refused. *)
Record Cache := {
  reachable : bool;
  counters : gmap string Z;
  ttl : gmap string Z
}.

Definition unreachable : error := ErrDriver "cache unreachable".

Definition Incr (c : Cache) (key : string) : result Z * Cache :=
  if negb (reachable c) then (Err unreachable, c)
  else
    let old := default 0 (counters c !! key) in
    if 2 ^ 63 - 1 <=? old then (Err (ErrDriver "increment would overflow"), c)
    else (Ok (old + 1),
          {| reachable := reachable c;
             counters := <[key := old + 1]> (counters c);
             ttl := ttl c |}).

Definition Expire (c : Cache) (key : string) (expiration : Z) : option error * Cache :=
  if negb (reachable c) then (Some unreachable, c)
  else (None,
        {| reachable := reachable c; counters := counters c;
           ttl := <[key := expiration]> (ttl c) |}).

End cache.

Module middleware.
Import cache.

Record Request := {
  RemoteAddr : string;
  Header : gmap string string;
  URLPath : string
}.

(** [r.Header.Get]: the empty string when the header is absent *)
Definition Header_Get (r : Request) (name : string) : string :=
  default "" (Header r !! name).

(** What the middleware does with a request: hand it to the next
    handler with the response headers set so far, or answer itself. *)
Inductive Verdict :=
  | Next (headers : list (string * string))
  | Answer (code : Z) (headers : list (string * string)) (body : string).

Definition StatusTooManyRequests : Z := 429.

Definition round_half_even (num den : Z) : Z :=
  let q := num / den in
  let r := num mod den in
  if 2 * r <? den then q
  else if den <? 2 * r then q + 1
  else if Z.even q then q else q + 1.

(** [fmt.Sprintf("%.0f", window.Seconds())]: the seconds rounded to the
    nearest integer, ties to even.  The rendering goes through a
    [float64]; this integer account of it is exact for whole seconds and
    for every window shorter than 2^20 seconds. *)
Definition Seconds_fmt (window : Z) : string :=
  let n := round_half_even window time.Second in
  if (window <? 0) && (n =? 0) then "-0" else pretty n.

(** [http.Error] *)
Definition http_Error (headers : list (string * string)) (msg : string) (code : Z) : Verdict :=
  Answer code
    (headers ++ [("Content-Type", "text/plain; charset=utf-8");
                 ("X-Content-Type-Options", "nosniff")])
    (msg +:+ String (ascii_of_N 10) EmptyString).

Definition clientIP (r : Request) : string :=
  let forwarded := Header_Get r "X-Forwarded-For" in
  if bool_decide (forwarded ≠ "") then forwarded else RemoteAddr r.

(** *** The global limiter (ratelimit.go) *)
Record RateLimiter := {
  requests : Z;
  window : Z
}.

Definition rate_key (r : Request) : string := "rate_limit:" +:+ clientIP r.

Module RateLimiter.

Definition Limit (rl : RateLimiter) (r : Request) (c : Cache) : Verdict * Cache :=
  let key := rate_key r in
  match Incr c key with
  | (Err _, c1) => (Next [], c1)
  | (Ok count, c1) =>
      let c2 := if count =? 1 then snd (Expire c1 key (window rl)) else c1 in
      if requests rl <? count
      then (http_Error [("Retry-After", Seconds_fmt (window rl))]
              (error_json "rate limit exceeded") StatusTooManyRequests, c2)
      else (Next [("X-RateLimit-Limit", pretty (requests rl));
                  ("X-RateLimit-Remaining", pretty (wrap64 (requests rl - count)))],
            c2)
  end.

End RateLimiter.

(** *** The limiter of the authentication routes *)
Record AuthRateLimiter := {
  auth_requests : Z;
  auth_window : Z
}.

Definition auth_rate_key (r : Request) : string :=
  "auth_rate_limit:" +:+ URLPath r +:+ ":" +:+ clientIP r.

Module AuthRateLimiter.

Definition Limit (rl : AuthRateLimiter) (r : Request) (c : Cache) : Verdict * Cache :=
  let key := auth_rate_key r in
  match Incr c key with
  | (Err _, c1) => (Next [], c1)
  | (Ok count, c1) =>
      let c2 := if count =? 1 then snd (Expire c1 key (auth_window rl)) else c1 in
      if auth_requests rl <? count
      then (Answer StatusTooManyRequests
              [("Retry-After", Seconds_fmt (auth_window rl));
               ("Content-Type", "application/json")]
              (error_json "too many authentication attempts, please try again later"),
            c2)
      else (Next [("X-RateLimit-Limit", pretty (auth_requests rl));
                  ("X-RateLimit-Remaining",
                   pretty (wrap64 (auth_requests rl - count)))],
            c2)
  end.

End AuthRateLimiter.

(** *** Role check (auth.go)

    [RequireRole] reads the claims that [Authenticate] stored in the
    request context and lets the request through on an exact match. *)
Definition plain_error (code : Z) (message : string) : handlers.Response :=
  handlers.Respond code
    (handlers.PlainText (error_json message +:+ String (ascii_of_N 10) EmptyString)).

Definition RequireRole (role : models.Role) (ctx : option utils.Claims)
    (d : repository.DB) (next : handlers.Outcome) : handlers.Outcome :=
  match ctx with
  | None => handlers.reply (plain_error handlers.StatusUnauthorized "unauthorized") d
  | Some claims =>
      if bool_decide (utils.Role claims ≠ role)
      then handlers.reply (plain_error handlers.StatusForbidden "forbidden") d
      else next
  end.

End middleware.

(** ** The admin routes as mounted in main.go: every handler of the
    group runs behind [RequireRole(models.RoleAdmin)]. *)
Module router.
Import models repository handlers.

Section admin.
Context `{External}.
Variable ctx : option utils.Claims.

Definition admin (d : DB) (h : Outcome) : Outcome :=
  middleware.RequireRole RoleAdmin ctx d h.

(** POST /admin/users/{id}/block *)
Definition post_users_block (d : DB) (id : string) (body : option BlockUserRequest) :=
  admin d (AdminHandler.BlockUser d ctx id body).

(** POST /admin/referrals/{id}/paid *)
Definition post_referrals_paid (d : DB) (id : string) :=
  admin d (AdminHandler.MarkReferralPaid d id).

(** PATCH /admin/referrals/{id}/status *)
Definition patch_referrals_status (d : DB) (id : string)
    (body : option UpdateReferralStatusRequest) :=
  admin d (AdminHandler.UpdateReferralStatus d id body).

(** POST /admin/referrers/{id}/paid *)
Definition post_referrers_paid (d : DB) (id : string) :=
  admin d (AdminHandler.MarkReferrerPaid d id).

(** PATCH /admin/payouts/{id} *)
Definition patch_payouts (d : DB) (id : string) (body : option UpdatePayoutStatusRequest) :=
  admin d (AdminHandler.UpdatePayoutStatus d ctx id body).

End admin.

(** The requests an administrator can send to change a referral. *)
Inductive ReferralOp :=
  | OpUpdateStatus (id : string) (body : option UpdateReferralStatusRequest)
  | OpMarkReferralPaid (id : string)
  | OpMarkReferrerPaid (id : string).

Definition run_referral_op `{External} (ctx : option utils.Claims) (d : DB)
    (op : ReferralOp) : Outcome :=
  match op with
  | OpUpdateStatus id body => patch_referrals_status ctx d id body
  | OpMarkReferralPaid id => post_referrals_paid ctx d id
  | OpMarkReferrerPaid id => post_referrers_paid ctx d id
  end.

End router.

(** * Further functions of the packages

    The functions of the same files that the statements of the first
    part do not reach, with what they call.  They are gathered in one
    module, by receiver as in the sources. *)

(** Three more things the sources take from outside: the password hash
    (its file is not among the sources) with the salt it draws, the
    reading of a compact token string, and the order in which the store
    returns rows for [ORDER BY created_at DESC]. *)
Class Runtime := {
  HashPassword : list Byte.byte → string → result string;
  token_of_string : string → utils.TokenString;
  by_created_desc : list models.Referral → list models.Referral
}.

Module pkg.

(** *** utils *)

(** [GenerateRandomString]: [None] is the panic of [make] on a negative
    length. *)
Definition GenerateRandomString (rnd : list Byte.byte) (length : Z) : option string :=
  if length <? 0 then None
  else
    let n := Z.to_nat length in
    Some (slice_to n (utils.EncodeToString (utils.rand_Read rnd n))).

(** *** AuthMiddleware (auth.go) *)

(** [strings.Split(s, " ")] *)
Fixpoint Split_space (s : string) : list string :=
  match s with
  | EmptyString => [EmptyString]
  | String c r =>
      if bool_decide (c = " "%char) then EmptyString :: Split_space r
      else match Split_space r with
           | h :: t => String c h :: t
           | [] => [String c EmptyString]
           end
  end.

(** What a middleware stage does: answer itself, or call the next
    handler with the claims in the request context. *)
Inductive Stage :=
  | Denied (r : handlers.Response)
  | Passed (claims : utils.Claims).

Module AuthMiddleware.

Definition Authenticate `{Runtime} (j : utils.JWTManager) (now : Z) (authHeader : string)
    : Stage :=
  if bool_decide (authHeader = "")
  then Denied (middleware.plain_error handlers.StatusUnauthorized
                 "missing authorization header")
  else
    let parts := Split_space authHeader in
    match parts with
    | [scheme; token] =>
        if bool_decide (scheme ≠ "Bearer")
        then Denied (middleware.plain_error handlers.StatusUnauthorized
                       "invalid authorization format")
        else
          match utils.ValidateAccessToken j now (token_of_string token) with
          | Err e =>
              if bool_decide (e = ErrExpiredToken)
              then Denied (middleware.plain_error handlers.StatusUnauthorized
                             "token expired")
              else Denied (middleware.plain_error handlers.StatusUnauthorized
                             "invalid token")
          | Ok claims => Passed claims
          end
    | _ => Denied (middleware.plain_error handlers.StatusUnauthorized
                     "invalid authorization format")
    end.

(** A route group with [r.Use(Authenticate)] and [r.Use(RequireRole(role))]
    in front of its handlers. *)
Definition guarded `{Runtime} (j : utils.JWTManager) (role : models.Role)
    (authHeader : string) (d : repository.DB)
    (next : utils.Claims → handlers.Outcome) : handlers.Outcome :=
  match Authenticate j (repository.clock d) authHeader with
  | Denied r => handlers.reply r d
  | Passed claims => middleware.RequireRole role (Some claims) d (next claims)
  end.

End AuthMiddleware.

Definition is_lower_hex (c : ascii) : bool :=
  ((48 <=? N_of_ascii c)%N && (N_of_ascii c <=? 57)%N)
  || ((97 <=? N_of_ascii c)%N && (N_of_ascii c <=? 102)%N).

Definition no_space (s : string) : bool :=
  string_forallb (λ c, negb (bool_decide (c = " "%char))) s.

(** *** Text values as PostgreSQL takes them

    A text parameter is refused at bind time unless its bytes are
    well-formed UTF-8 without a NUL byte (the encoding of the
    database).  A value assigned to a [VARCHAR(n)] column is refused
    when it has more than [n] characters, unless the excess is spaces
    only, which are then cut off. *)

(** [need] continuation bytes are still due, the next one within
    [lo..hi]. *)
Fixpoint utf8_from (need : nat) (lo hi : N) (s : string) : bool :=
  match s with
  | EmptyString => bool_decide (need = O)
  | String c rest =>
      let b := N_of_ascii c in
      match need with
      | O =>
          if (b =? 0)%N then false
          else if (b <? 128)%N then utf8_from 0 128 191 rest
          else if (b <? 194)%N then false
          else if (b <? 224)%N then utf8_from 1 128 191 rest
          else if (b =? 224)%N then utf8_from 2 160 191 rest
          else if (b =? 237)%N then utf8_from 2 128 159 rest
          else if (b <? 240)%N then utf8_from 2 128 191 rest
          else if (b =? 240)%N then utf8_from 3 144 191 rest
          else if (b <? 244)%N then utf8_from 3 128 191 rest
          else if (b =? 244)%N then utf8_from 3 128 143 rest
          else false
      | S k =>
          if (lo <=? b)%N && (b <=? hi)%N then utf8_from k 128 191 rest else false
      end
  end.

Definition pg_text (s : string) : bool := utf8_from 0 128 191 s.

Fixpoint strip_spaces (s : string) : string :=
  match s with
  | EmptyString => EmptyString
  | String c rest =>
      let rest' := strip_spaces rest in
      if bool_decide (c = " "%char) && bool_decide (rest' = EmptyString)
      then EmptyString else String c rest'
  end.

Fixpoint spaces (n : nat) : string :=
  match n with
  | O => EmptyString
  | S k => String " " (spaces k)
  end.

(** What a statement stores, or the message it is refused with. *)
Inductive coerced (A : Type) :=
  | Stored (a : A)
  | Refused (msg : string).
Arguments Stored {A} a.
Arguments Refused {A} msg.

#[export] Instance coerced_ret : MRet coerced := λ A a, Stored a.
#[export] Instance coerced_bind : MBind coerced := λ A B f x,
  match x with
  | Stored a => f a
  | Refused msg => Refused msg
  end.

(** The messages of the driver; the server appends the offending bytes
    to the first one, which are left out here. *)
Definition invalid_byte_sequence : string :=
  "ERROR: invalid byte sequence for encoding " +:+ dq +:+ "UTF8" +:+ dq
  +:+ " (SQLSTATE 22021)".

Definition value_too_long (n : nat) : string :=
  "ERROR: value too long for type character varying(" +:+ pretty n +:+ ") (SQLSTATE 22001)".

(** Assignment to a [VARCHAR(n)] column; characters are counted as
    [utf8.RuneCountInString] counts them. *)
Definition varchar `{External} (n : nat) (s : string) : coerced string :=
  if (RuneCountInString s <=? n)%nat then Stored s
  else
    let kept := strip_spaces s in
    if (RuneCountInString kept <=? n)%nat
    then Stored (kept +:+ spaces (n - RuneCountInString kept))
    else Refused (value_too_long n).

(** The users row an [INSERT] stores for [u] (000001: the widths of
    the columns). *)
Definition users_row `{External} (u : models.User) : coerced models.User :=
  if negb (forallb pg_text
             [models.Email u; models.PasswordHash u; models.Name u; models.Phone u;
              models.UserRole u; models.BankName u; models.AccountNumber u;
              models.AccountName u; models.ReferralCode u])
  then Refused invalid_byte_sequence
  else
    email ← varchar 255 (models.Email u);
    passwordHash ← varchar 255 (models.PasswordHash u);
    name ← varchar 255 (models.Name u);
    phone ← varchar 50 (models.Phone u);
    role ← varchar 20 (models.UserRole u);
    bankName ← varchar 100 (models.BankName u);
    accountNumber ← varchar 20 (models.AccountNumber u);
    accountName ← varchar 255 (models.AccountName u);
    referralCode ← varchar 50 (models.ReferralCode u);
    mret {| models.ID := models.ID u; models.Email := email;
            models.PasswordHash := passwordHash; models.Name := name;
            models.Phone := phone; models.UserRole := role;
            models.BankName := bankName; models.AccountNumber := accountNumber;
            models.AccountName := accountName; models.ReferralCode := referralCode;
            models.IsBlocked := models.IsBlocked u;
            models.CreatedAt := models.CreatedAt u;
            models.UpdatedAt := models.UpdatedAt u |}.

(** The profile columns an [UPDATE] stores for [u]. *)
Definition profile_row `{External} (u : models.User) : coerced models.User :=
  if negb (forallb pg_text
             [models.Name u; models.Phone u; models.BankName u; models.AccountNumber u;
              models.AccountName u])
  then Refused invalid_byte_sequence
  else
    name ← varchar 255 (models.Name u);
    phone ← varchar 50 (models.Phone u);
    bankName ← varchar 100 (models.BankName u);
    accountNumber ← varchar 20 (models.AccountNumber u);
    accountName ← varchar 255 (models.AccountName u);
    mret {| models.ID := models.ID u; models.Email := models.Email u;
            models.PasswordHash := models.PasswordHash u; models.Name := name;
            models.Phone := phone; models.UserRole := models.UserRole u;
            models.BankName := bankName; models.AccountNumber := accountNumber;
            models.AccountName := accountName;
            models.ReferralCode := models.ReferralCode u;
            models.IsBlocked := models.IsBlocked u;
            models.CreatedAt := models.CreatedAt u;
            models.UpdatedAt := models.UpdatedAt u |}.

(** *** UserRepository (user.go) *)

(** [for i := 0; i <= len(s)-len(substr); i++ { if s[i:i+len(substr)] == substr ... }] *)
Fixpoint containsHelper_loop (s substr : string) (i steps : nat) : bool :=
  match steps with
  | O => false
  | S k =>
      if bool_decide (substring i (String.length substr) s = substr) then true
      else containsHelper_loop s substr (S i) k
  end.

Definition containsHelper (s substr : string) : bool :=
  let last := Z.of_nat (String.length s) - Z.of_nat (String.length substr) in
  if last <? 0 then false
  else containsHelper_loop s substr 0 (Z.to_nat last + 1).

Definition contains (s substr : string) : bool :=
  (String.length substr <=? String.length s)%nat
  && (bool_decide (s = substr)
      || ((0 <? String.length s)%nat && containsHelper s substr)).

(** [err] is [err.Error()], [None] a nil error. *)
Definition isDuplicateKeyError (err : option string) : bool :=
  match err with
  | None => false
  | Some msg =>
      bool_decide (msg = "ERROR: duplicate key value violates unique constraint")
      || contains msg "duplicate key"
      || contains msg "unique constraint"
  end.

(** The messages of the driver for the violations the users table can
    raise (000001: primary key, unique e-mail, unique referral code,
    CHECK on the role). *)
Definition unique_violation (constraint : string) : string :=
  "ERROR: duplicate key value violates unique constraint " +:+ dq +:+ constraint +:+ dq
  +:+ " (SQLSTATE 23505)".

Definition check_violation (table constraint : string) : string :=
  "ERROR: new row for relation " +:+ dq +:+ table +:+ dq
  +:+ " violates check constraint " +:+ dq +:+ constraint +:+ dq +:+ " (SQLSTATE 23514)".

Definition users_role_check (role : models.Role) : bool :=
  bool_decide (role ∈ ["admin"; "user"]).

Definition set_user_times (u : models.User) (now : Z) : models.User :=
  {| models.ID := models.ID u; models.Email := models.Email u;
     models.PasswordHash := models.PasswordHash u; models.Name := models.Name u;
     models.Phone := models.Phone u; models.UserRole := models.UserRole u;
     models.BankName := models.BankName u; models.AccountNumber := models.AccountNumber u;
     models.AccountName := models.AccountName u;
     models.ReferralCode := models.ReferralCode u; models.IsBlocked := models.IsBlocked u;
     models.CreatedAt := now; models.UpdatedAt := now |}.

Definition set_profile (now : Z) (src u : models.User) : models.User :=
  {| models.ID := models.ID u; models.Email := models.Email u;
     models.PasswordHash := models.PasswordHash u; models.Name := models.Name src;
     models.Phone := models.Phone src; models.UserRole := models.UserRole u;
     models.BankName := models.BankName src;
     models.AccountNumber := models.AccountNumber src;
     models.AccountName := models.AccountName src;
     models.ReferralCode := models.ReferralCode u; models.IsBlocked := models.IsBlocked u;
     models.CreatedAt := models.CreatedAt u; models.UpdatedAt := now |}.

Definition set_password (now : Z) (hash : string) (u : models.User) : models.User :=
  {| models.ID := models.ID u; models.Email := models.Email u;
     models.PasswordHash := hash; models.Name := models.Name u;
     models.Phone := models.Phone u; models.UserRole := models.UserRole u;
     models.BankName := models.BankName u; models.AccountNumber := models.AccountNumber u;
     models.AccountName := models.AccountName u;
     models.ReferralCode := models.ReferralCode u; models.IsBlocked := models.IsBlocked u;
     models.CreatedAt := models.CreatedAt u; models.UpdatedAt := now |}.

Module UserRepository.
Import repository.

(** [INSERT INTO users ... RETURNING created_at, updated_at]; a driver
    error that looks like a duplicate key becomes [ErrUserExists].  The
    caller's struct receives the two timestamps and nothing else. *)
Definition Create `{External} (d : DB) (user : models.User) : result models.User * DB :=
  let failed (msg : string) : result models.User * DB :=
    if isDuplicateKeyError (Some msg) then (Err ErrUserExists, d)
    else (Err (ErrDriver msg), d) in
  if negb (up d) then failed "connection unavailable"
  else
    match users_row user with
    | Refused msg => failed msg
    | Stored row =>
        if negb (users_role_check (models.UserRole row))
        then failed (check_violation "users" "users_role_check")
        else if user_exists d (models.ID row) then failed (unique_violation "users_pkey")
        else if existsb (λ u, bool_decide (models.Email u = models.Email row)) (users d)
        then failed (unique_violation "users_email_key")
        else if existsb (λ u, bool_decide (models.ReferralCode u = models.ReferralCode row))
                  (users d)
        then failed (unique_violation "users_referral_code_key")
        else
          (Ok (set_user_times user (clock d)),
           with_users d (users d ++ [set_user_times row (clock d)]))
    end.

Definition GetByID (d : DB) (id : UUID) : result models.User :=
  if negb (up d) then Err unavailable
  else match find (λ u, bool_decide (models.ID u = id)) (users d) with
       | Some u => Ok u
       | None => Err ErrUserNotFound
       end.

(** [UPDATE users SET name = $2, phone = $3, bank_name = $4,
     account_number = $5, account_name = $6, updated_at = NOW()
     WHERE id = $1 RETURNING updated_at]; the caller's struct receives
    the new timestamp.  (A value that does not fit its column is
    reported here also when no row has the id; the server may instead
    report no row then, depending on the plan it uses.) *)
Definition Update `{External} (d : DB) (user : models.User) : result models.User * DB :=
  if negb (up d) then (Err unavailable, d)
  else
    match profile_row user with
    | Refused msg => (Err (ErrDriver msg), d)
    | Stored row =>
        if negb (user_exists d (models.ID user)) then (Err ErrUserNotFound, d)
        else
          (Ok {| models.ID := models.ID user; models.Email := models.Email user;
                 models.PasswordHash := models.PasswordHash user;
                 models.Name := models.Name user; models.Phone := models.Phone user;
                 models.UserRole := models.UserRole user;
                 models.BankName := models.BankName user;
                 models.AccountNumber := models.AccountNumber user;
                 models.AccountName := models.AccountName user;
                 models.ReferralCode := models.ReferralCode user;
                 models.IsBlocked := models.IsBlocked user;
                 models.CreatedAt := models.CreatedAt user;
                 models.UpdatedAt := clock d |},
           with_users d
             (fmap (λ u, if bool_decide (models.ID u = models.ID user)
                         then set_profile (clock d) row u else u)
                (users d)))
    end.

Definition ExistsByEmail (d : DB) (email : string) : result bool :=
  if negb (up d) then Err unavailable
  else if negb (pg_text email) then Err (ErrDriver invalid_byte_sequence)
  else Ok (existsb (λ u, bool_decide (models.Email u = email)) (users d)).

Definition ExistsByReferralCode (d : DB) (code : string) : result bool :=
  if negb (up d) then Err unavailable
  else if negb (pg_text code) then Err (ErrDriver invalid_byte_sequence)
  else Ok (existsb (λ u, bool_decide (models.ReferralCode u = code)) (users d)).

(** [UPDATE users SET password_hash = $2, updated_at = NOW() WHERE id = $1]
    (for a hash that does not fit, see [Update]). *)
Definition UpdatePassword `{External} (d : DB) (userID : UUID) (passwordHash : string)
    : option error * DB :=
  if negb (up d) then (Some unavailable, d)
  else if negb (pg_text passwordHash) then (Some (ErrDriver invalid_byte_sequence), d)
  else
    match varchar 255 passwordHash with
    | Refused msg => (Some (ErrDriver msg), d)
    | Stored hash =>
        if negb (user_exists d userID) then (Some ErrUserNotFound, d)
        else (None,
              with_users d
                (fmap (λ u, if bool_decide (models.ID u = userID)
                            then set_password (clock d) hash u else u)
                   (users d)))
    end.

End UserRepository.

(** *** AuthService (auth_service.go) *)

Record RegisterRequest := {
  RegEmail : string;
  RegPassword : string;
  RegName : string;
  RegPhone : string;
  RegBankName : string;
  RegAccountNumber : string;
  RegAccountName : string
}.

Module AuthService.
Import repository.

(** The loop that looks for a referral code no user carries:
    [referralCode] is the candidate at hand and [samples] what the
    entropy source delivers to the candidates after it.  [None] is a
    loop that has used up [samples] and goes on. *)
Fixpoint unique_code `{External} (d : DB) (name referralCode : string)
    (samples : list (list Byte.byte)) : option (result string) :=
  match UserRepository.ExistsByReferralCode d referralCode with
  | Err e => Some (Err e)
  | Ok false => Some (Ok referralCode)
  | Ok true =>
      match samples with
      | [] => None
      | rnd :: rest => unique_code d name (utils.GenerateReferralCode rnd name) rest
      end
  end.

(** [salt] is what the hash draws, [rnd] and [samples] what the
    referral codes draw, [newID] the result of [uuid.New()]. *)
Definition Register `{External} `{Runtime} (j : utils.JWTManager) (d : DB)
    (salt rnd : list Byte.byte) (samples : list (list Byte.byte)) (newID : UUID)
    (req : RegisterRequest) : option (result models.AuthResponse * DB) :=
  match UserRepository.ExistsByEmail d (RegEmail req) with
  | Err e => Some (Err e, d)
  | Ok true => Some (Err ErrEmailAlreadyExists, d)
  | Ok false =>
      match HashPassword salt (RegPassword req) with
      | Err e => Some (Err e, d)
      | Ok passwordHash =>
          match unique_code d (RegName req)
                  (utils.GenerateReferralCode rnd (RegName req)) samples with
          | None => None
          | Some (Err e) => Some (Err e, d)
          | Some (Ok referralCode) =>
              let user :=
                {| models.ID := newID; models.Email := RegEmail req;
                   models.PasswordHash := passwordHash; models.Name := RegName req;
                   models.Phone := RegPhone req; models.UserRole := models.RoleUser;
                   models.BankName := RegBankName req;
                   models.AccountNumber := RegAccountNumber req;
                   models.AccountName := RegAccountName req;
                   models.ReferralCode := referralCode; models.IsBlocked := false;
                   models.CreatedAt := 0; models.UpdatedAt := 0 |} in
              match UserRepository.Create d user with
              | (Err e, d') => Some (Err e, d')
              | (Ok user, d') =>
                  let accessToken :=
                    utils.GenerateAccessToken j (clock d') (models.ID user)
                      (models.Email user) (models.UserRole user) in
                  let refreshToken :=
                    utils.GenerateRefreshToken j (clock d') (models.ID user)
                      (models.Email user) (models.UserRole user) in
                  Some (Ok {| models.AccessToken := accessToken;
                              models.RefreshToken := refreshToken;
                              models.AuthUser := user |}, d')
              end
          end
      end
  end.

Definition RefreshToken (j : utils.JWTManager) (d : DB) (refreshToken : utils.TokenString)
    : result models.AuthResponse :=
  match utils.ValidateRefreshToken j (clock d) refreshToken with
  | Err e => Err e
  | Ok claims =>
      match UserRepository.GetByID d (utils.UserID claims) with
      | Err e => Err e
      | Ok user =>
          let newAccessToken :=
            utils.GenerateAccessToken j (clock d) (models.ID user) (models.Email user)
              (models.UserRole user) in
          let newRefreshToken :=
            utils.GenerateRefreshToken j (clock d) (models.ID user) (models.Email user)
              (models.UserRole user) in
          Ok {| models.AccessToken := newAccessToken;
                models.RefreshToken := newRefreshToken;
                models.AuthUser := user |}
      end
  end.

Definition CreateAdmin `{External} `{Runtime} (d : DB) (salt rnd : list Byte.byte)
    (newID : UUID) (email password name : string) : result models.User * DB :=
  match UserRepository.ExistsByEmail d email with
  | Err e => (Err e, d)
  | Ok true => (Err ErrEmailAlreadyExists, d)
  | Ok false =>
      match HashPassword salt password with
      | Err e => (Err e, d)
      | Ok passwordHash =>
          let referralCode := utils.GenerateReferralCode rnd name in
          UserRepository.Create d
            {| models.ID := newID; models.Email := email;
               models.PasswordHash := passwordHash; models.Name := name;
               models.Phone := ""; models.UserRole := models.RoleAdmin;
               models.BankName := ""; models.AccountNumber := "";
               models.AccountName := ""; models.ReferralCode := referralCode;
               models.IsBlocked := false; models.CreatedAt := 0; models.UpdatedAt := 0 |}
      end
  end.

Definition UpdatePassword `{External} `{Runtime} (d : DB) (salt : list Byte.byte)
    (userID : UUID) (newPassword : string) : option error * DB :=
  match HashPassword salt newPassword with
  | Err e => (Some e, d)
  | Ok passwordHash => UserRepository.UpdatePassword d userID passwordHash
  end.

End AuthService.

(** *** main.go: the administrator seeded at start-up *)
Record AdminConfig := {
  AdminEmail : string;
  AdminPassword : string;
  AdminName : string
}.

Definition ensureAdminExists `{External} `{Runtime} (d : repository.DB)
    (salt rnd : list Byte.byte) (newID : UUID) (cfg : AdminConfig) : repository.DB :=
  if bool_decide (AdminEmail cfg = "") || bool_decide (AdminPassword cfg = "") then d
  else
    match UserRepository.ExistsByEmail d (AdminEmail cfg) with
    | Err _ => d
    | Ok true => d
    | Ok false =>
        (AuthService.CreateAdmin d salt rnd newID (AdminEmail cfg) (AdminPassword cfg)
           (AdminName cfg)).2
    end.

(** *** ResetTokenRepository (reset_token.go) *)
Module ResetTokenRepository.
Import repository.

Definition GetByToken (d : DB) (token : string) : result PasswordResetToken :=
  if negb (up d) then Err unavailable
  else if negb (pg_text token) then Err (ErrDriver invalid_byte_sequence)
  else match find (λ t, bool_decide (TokenValue t = token)) (password_reset_tokens d) with
       | None => Err ErrTokenNotFound
       | Some t =>
           (* time.Now().After(t.ExpiresAt) *)
           if TokExpiresAt t <? clock d then Err ErrTokenExpired else Ok t
       end.

(** [DELETE FROM password_reset_tokens WHERE token = $1] *)
Definition DeleteByToken (d : DB) (token : string) : option error * DB :=
  if negb (up d) then (Some unavailable, d)
  else if negb (pg_text token) then (Some (ErrDriver invalid_byte_sequence), d)
  else (None,
        with_tokens d (filter (λ t, TokenValue t ≠ token) (password_reset_tokens d))).

(** [DELETE FROM password_reset_tokens WHERE user_id = $1] *)
Definition DeleteByUserID (d : DB) (userID : UUID) : option error * DB :=
  if negb (up d) then (Some unavailable, d)
  else (None,
        with_tokens d (filter (λ t, TokUserID t ≠ userID) (password_reset_tokens d))).

(** [DELETE FROM password_reset_tokens WHERE expires_at < NOW()] *)
Definition CleanupExpired (d : DB) : option error * DB :=
  if negb (up d) then (Some unavailable, d)
  else (None,
        with_tokens d
          (filter (λ t, ¬ (TokExpiresAt t < clock d)) (password_reset_tokens d))).

End ResetTokenRepository.

(** *** Handlers: what they write *)

Record DashboardStats := {
  TotalEarnings : Z;
  PendingBalance : Z;
  TotalPaidEarnings : Z;
  PaidCount : Z;
  TotalReferrals : Z;
  TotalClicks : Z;
  TotalPayouts : Z;
  ActiveCodes : Z;
  TotalCodes : Z;
  TotalStudents : Z;
  TotalUniqueCourses : Z;
  MonthlyRevenue : Z
}.

Record PaginatedResponse := {
  Data : list models.Referral;
  Page : Z;
  PerPage : Z;
  Total : Z;
  TotalPages : Z
}.

(** The JSON document of a response. *)
Inductive Payload :=
  | ErrorMessage (message : string)
  | Message (message : string)
  | Auth (r : models.AuthResponse)
  | Profile (u : models.User)
  | Stats (s : DashboardStats)
  | Listing (p : PaginatedResponse).

Record Reply := {
  Code : Z;
  Content : Payload
}.

Definition respondError (status : Z) (message : string) : Reply :=
  {| Code := status; Content := ErrorMessage message |}.

Inductive Task :=
  | SendWelcomeEmail (email name : string).

Record Result := {
  reply : Reply;
  tasks : list Task;
  db : repository.DB
}.

Definition answer (r : Reply) (d : repository.DB) : Result :=
  {| reply := r; tasks := []; db := d |}.

Definition StatusConflict : Z := 409.

(** *** AuthHandler (auth_handler.go) *)

Record RefreshRequest := { RefreshTokenString : string }.

Record ResetPasswordRequest := {
  ResetToken : string;
  NewPassword : string
}.

Definition min8 `{External} (field value : string) : option handlers.FieldError :=
  if (RuneCountInString value <? 8)%nat
  then Some {| handlers.Field := field; handlers.Tag := "min"; handlers.Param := "8" |}
  else None.

Definition validate_RegisterRequest `{External} (req : RegisterRequest)
    : list handlers.FieldError :=
  handlers.first_failure [handlers.required "Email" (RegEmail req);
                          handlers.email "Email" (RegEmail req)]
  ++ handlers.first_failure [handlers.required "Password" (RegPassword req);
                             min8 "Password" (RegPassword req)]
  ++ handlers.first_failure [handlers.required "Name" (RegName req);
                             handlers.min2 "Name" (RegName req)]
  ++ handlers.first_failure [handlers.required "Phone" (RegPhone req)].

Definition validate_RefreshRequest (req : RefreshRequest) : list handlers.FieldError :=
  handlers.first_failure [handlers.required "RefreshToken" (RefreshTokenString req)].

Definition validate_ResetPasswordRequest `{External} (req : ResetPasswordRequest)
    : list handlers.FieldError :=
  handlers.first_failure [handlers.required "Token" (ResetToken req)]
  ++ handlers.first_failure [handlers.required "NewPassword" (NewPassword req);
                             min8 "NewPassword" (NewPassword req)].

Module AuthHandler.
Import repository.

(** [None] is a request that never returns (see [unique_code]). *)
Definition Register `{External} `{Runtime} (j : utils.JWTManager) (d : DB)
    (salt rnd : list Byte.byte) (samples : list (list Byte.byte)) (newID : UUID)
    (body : option RegisterRequest) : option Result :=
  match body with
  | None => Some (answer (respondError handlers.StatusBadRequest "invalid request body") d)
  | Some req =>
      match validate_RegisterRequest req with
      | _ :: _ as errs =>
          Some (answer (respondError handlers.StatusBadRequest
                          (handlers.formatValidationError errs)) d)
      | [] =>
          match AuthService.Register j d salt rnd samples newID req with
          | None => None
          | Some (Err e, d') =>
              if bool_decide (e = ErrEmailAlreadyExists)
              then Some (answer (respondError StatusConflict "email already exists") d')
              else Some (answer (respondError handlers.StatusInternalServerError
                                   "failed to register user") d')
          | Some (Ok response, d') =>
              Some {| reply := {| Code := handlers.StatusCreated; Content := Auth response |};
                      tasks := [SendWelcomeEmail (models.Email (models.AuthUser response))
                                  (models.Name (models.AuthUser response))];
                      db := d' |}
          end
      end
  end.

Definition RefreshToken `{External} `{Runtime} (j : utils.JWTManager) (d : DB)
    (body : option RefreshRequest) : Result :=
  match body with
  | None => answer (respondError handlers.StatusBadRequest "invalid request body") d
  | Some req =>
      match validate_RefreshRequest req with
      | _ :: _ as errs =>
          answer (respondError handlers.StatusBadRequest
                    (handlers.formatValidationError errs)) d
      | [] =>
          match AuthService.RefreshToken j d (token_of_string (RefreshTokenString req)) with
          | Err _ =>
              answer (respondError handlers.StatusUnauthorized
                        "invalid or expired refresh token") d
          | Ok response =>
              answer {| Code := handlers.StatusOK; Content := Auth response |} d
          end
      end
  end.

Definition ResetPassword `{External} `{Runtime} (d : DB) (salt : list Byte.byte)
    (body : option ResetPasswordRequest) : Result :=
  match body with
  | None => answer (respondError handlers.StatusBadRequest "invalid request body") d
  | Some req =>
      match validate_ResetPasswordRequest req with
      | _ :: _ as errs =>
          answer (respondError handlers.StatusBadRequest
                    (handlers.formatValidationError errs)) d
      | [] =>
          match ResetTokenRepository.GetByToken d (ResetToken req) with
          | Err e =>
              if bool_decide (e = ErrTokenNotFound) || bool_decide (e = ErrTokenExpired)
              then answer (respondError handlers.StatusBadRequest
                             "invalid or expired reset token") d
              else answer (respondError handlers.StatusInternalServerError
                             "failed to validate token") d
          | Ok resetToken =>
              match AuthService.UpdatePassword d salt (TokUserID resetToken)
                      (NewPassword req) with
              | (Some _, d1) =>
                  answer (respondError handlers.StatusInternalServerError
                            "failed to update password") d1
              | (None, d1) =>
                  let d2 := (ResetTokenRepository.DeleteByToken d1 (ResetToken req)).2 in
                  answer {| Code := handlers.StatusOK;
                            Content := Message "Password has been reset successfully" |} d2
              end
          end
      end
  end.

End AuthHandler.

(** *** Predicates over the accounts *)

Definition code_taken (d : repository.DB) (code : string) : bool :=
  existsb (λ u, bool_decide (models.ReferralCode u = code)) (repository.users d).

(** The referral codes [Register] tries, in order. *)
Definition candidates `{External} (name : string) (rnd : list Byte.byte)
    (samples : list (list Byte.byte)) : list string :=
  (λ r, utils.GenerateReferralCode r name) <$> (rnd :: samples).

(** What the users table guarantees (000001): primary key, unique
    e-mail, unique referral code, and the CHECK on the role. *)
Definition users_keys_unique (d : repository.DB) : Prop :=
  NoDup (models.ID <$> repository.users d)
  ∧ NoDup (models.Email <$> repository.users d)
  ∧ NoDup (models.ReferralCode <$> repository.users d)
  ∧ Forall (λ u, models.UserRole u = models.RoleAdmin ∨ models.UserRole u = models.RoleUser)
      (repository.users d).

(** The row of a self-registered account. *)
Definition new_account (req : RegisterRequest) (newID : UUID)
    (passwordHash referralCode : string) (now : Z) : models.User :=
  {| models.ID := newID; models.Email := RegEmail req;
     models.PasswordHash := passwordHash; models.Name := RegName req;
     models.Phone := RegPhone req; models.UserRole := models.RoleUser;
     models.BankName := RegBankName req;
     models.AccountNumber := RegAccountNumber req;
     models.AccountName := RegAccountName req;
     models.ReferralCode := referralCode; models.IsBlocked := false;
     models.CreatedAt := now; models.UpdatedAt := now |}.


(** A candidate at which the search for a referral code ends: one no
    account carries, or one the store refuses as text. *)
Definition code_stops (d : repository.DB) (code : string) : bool :=
  negb (pkg.pg_text code) || negb (pkg.code_taken d code).

(** *** ClickRepository (click.go)

    The rows of [referral_clicks] (000002); the key and the time stamp
    are the defaults of the table. *)
Record ReferralClick := {
  ClickReferralCode : string;
  ClickUserID : option UUID;
  ClickIPAddress : string;
  ClickUserAgent : string;
  ClickCreatedAt : Z
}.

(** [pgx.ErrNoRows] *)
Definition ErrNoRows : error := ErrDriver "no rows in result set".

Definition click_count (clicks : list ReferralClick) (referralCode : string) : Z :=
  Z.of_nat (length (filter (λ c, ClickReferralCode c = referralCode) clicks)).

Module ClickRepository.
Import repository.

(** [INSERT INTO referral_clicks (referral_code, user_id, ip_address,
     user_agent) VALUES ($1, $2, $3, $4)] *)
Definition RecordClick `{External} (d : DB) (clicks : list ReferralClick)
    (referralCode ipAddress userAgent : string) (userID : option UUID)
    : option error * list ReferralClick :=
  if negb (up d) then (Some unavailable, clicks)
  else if negb (forallb pkg.pg_text [referralCode; ipAddress; userAgent])
  then (Some (ErrDriver pkg.invalid_byte_sequence), clicks)
  else
    match pkg.varchar 50 referralCode, pkg.varchar 45 ipAddress with
    | pkg.Refused msg, _ => (Some (ErrDriver msg), clicks)
    | pkg.Stored _, pkg.Refused msg => (Some (ErrDriver msg), clicks)
    | pkg.Stored code, pkg.Stored ip =>
        if match userID with
           | Some id => negb (user_exists d id)
           | None => false
           end
        then (Some (violation "referral_clicks_user_id_fkey"), clicks)
        else (None,
              (clicks ++ [{| ClickReferralCode := code; ClickUserID := userID;
                             ClickIPAddress := ip; ClickUserAgent := userAgent;
                             ClickCreatedAt := clock d |}])%list)
    end.

Definition GetClickCountByUserID (d : DB) (clicks : list ReferralClick) (userID : UUID)
    : result Z :=
  if negb (up d) then Err unavailable
  else match find (λ u, bool_decide (models.ID u = userID)) (users d) with
       | None => Err ErrNoRows
       | Some u => Ok (click_count clicks (models.ReferralCode u))
       end.

Definition GetClickCountByReferralCode (d : DB) (clicks : list ReferralClick)
    (referralCode : string) : result Z :=
  if negb (up d) then Err unavailable
  else if negb (pkg.pg_text referralCode) then Err (ErrDriver pkg.invalid_byte_sequence)
  else Ok (click_count clicks referralCode).

End ClickRepository.

(** *** ReferralRepository: the queries of the dashboards and lists *)

Definition in_int64 (z : Z) : bool := (- 2 ^ 63 <=? z) && (z <? 2 ^ 63).

(** [SUM(CASE WHEN status = ... THEN earnings ELSE 0 END)] *)
Definition earnings_in (status : string) (rows : list models.Referral) : Z :=
  foldr (λ r acc, (if bool_decide (models.Status r = status)
                   then models.Earnings r else 0) + acc) 0 rows.

Definition referred_by (referrerID : UUID) (rows : list models.Referral)
    : list models.Referral :=
  filter (λ r, models.ReferrerID r = Some referrerID) rows.

(** The update of the bulk payment, row by row. *)
Definition settle (referrerID : UUID) (r : models.Referral) : models.Referral :=
  if bool_decide (models.ReferrerID r = Some referrerID)
     && bool_decide (models.Status r = "pending")
  then repository.set_status "paid" r else r.


Module ReferralRepository.
Import repository.

(** The three sums are of type numeric; one that does not fit an int64
    fails the scan. *)
Definition GetStatsByReferrer (d : DB) (referrerID : UUID) : result (Z * Z * Z) :=
  if negb (up d) then Err unavailable
  else
    let rows := referred_by referrerID (referrals d) in
    let totalEarnings := earnings_in "paid" rows in
    let pendingEarnings := earnings_in "pending" rows in
    if in_int64 totalEarnings && in_int64 pendingEarnings
    then Ok (Z.of_nat (length rows), totalEarnings, pendingEarnings)
    else Err (ErrDriver "numeric value out of range for int64").


End ReferralRepository.

(** *** [strconv.Atoi] *)

Fixpoint digits_value (acc : Z) (s : string) : option Z :=
  match s with
  | EmptyString => Some acc
  | String c rest =>
      let n := N_of_ascii c in
      if (48 <=? n)%N && (n <=? 57)%N
      then digits_value (10 * acc + Z.of_N (n - 48)) rest
      else None
  end.

(** The digits after the sign: none or a byte that is no digit is a
    syntax error with value 0, a number outside the range of int a
    range error with the nearest bound. *)
Definition Atoi_digits (negative : bool) (digits : string) : Z * bool :=
  match digits with
  | EmptyString => (0, false)
  | _ =>
      match digits_value 0 digits with
      | None => (0, false)
      | Some n =>
          let v := if negative then - n else n in
          if 2 ^ 63 <=? v then (2 ^ 63 - 1, false)
          else if v <? - 2 ^ 63 then (- 2 ^ 63, false)
          else (v, true)
      end
  end.

(** The value and whether the error is nil. *)
Definition Atoi (s : string) : Z * bool :=
  match s with
  | String "-" rest => Atoi_digits true rest
  | String "+" rest => Atoi_digits false rest
  | _ => Atoi_digits false s
  end.

(** [getQueryInt], over the value [r.URL.Query().Get(key)] *)
Definition getQueryInt (val : string) (defaultVal : Z) : Z :=
  if bool_decide (val = "") then defaultVal
  else let '(result, ok) := Atoi val in
       if ok then result else defaultVal.

(** *** UserHandler (user_handler.go) *)

Record UpdateProfileRequest := {
  NewName : string;
  NewPhone : string;
  NewBankName : string;
  NewAccountNumber : string;
  NewAccountName : string
}.

(** [validate:"omitempty,min=2"] on the name *)
Definition validate_UpdateProfileRequest `{External} (req : UpdateProfileRequest)
    : list handlers.FieldError :=
  if bool_decide (NewName req = "") then []
  else handlers.first_failure [handlers.min2 "Name" (NewName req)].

(** [user.Name = req.Name] and so on, for the fields that are not empty *)
Definition merge_profile (req : UpdateProfileRequest) (user : models.User) : models.User :=
  let pick (new old : string) := if bool_decide (new ≠ "") then new else old in
  {| models.ID := models.ID user; models.Email := models.Email user;
     models.PasswordHash := models.PasswordHash user;
     models.Name := pick (NewName req) (models.Name user);
     models.Phone := pick (NewPhone req) (models.Phone user);
     models.UserRole := models.UserRole user;
     models.BankName := pick (NewBankName req) (models.BankName user);
     models.AccountNumber := pick (NewAccountNumber req) (models.AccountNumber user);
     models.AccountName := pick (NewAccountName req) (models.AccountName user);
     models.ReferralCode := models.ReferralCode user;
     models.IsBlocked := models.IsBlocked user;
     models.CreatedAt := models.CreatedAt user;
     models.UpdatedAt := models.UpdatedAt user |}.

Definition zero_stats : pkg.DashboardStats :=
  {| pkg.TotalEarnings := 0; pkg.PendingBalance := 0; pkg.TotalPaidEarnings := 0;
     pkg.PaidCount := 0; pkg.TotalReferrals := 0; pkg.TotalClicks := 0;
     pkg.TotalPayouts := 0; pkg.ActiveCodes := 0; pkg.TotalCodes := 0;
     pkg.TotalStudents := 0; pkg.TotalUniqueCourses := 0; pkg.MonthlyRevenue := 0 |}.

Module UserHandler.
Import repository.

(** [ctx] is what [middleware.GetUserFromContext] finds; these handlers
    test its [ok] flag. *)
Definition GetDashboard (d : DB) (clicks : list ReferralClick) (ctx : option utils.Claims)
    : pkg.Reply :=
  match ctx with
  | None => pkg.respondError handlers.StatusUnauthorized "unauthorized"
  | Some claims =>
      match ReferralRepository.GetStatsByReferrer d (utils.UserID claims) with
      | Err _ => pkg.respondError handlers.StatusInternalServerError "failed to get stats"
      | Ok (totalCount, totalEarnings, pendingEarnings) =>
          let clickCount :=
            match ClickRepository.GetClickCountByUserID d clicks (utils.UserID claims) with
            | Ok n => n
            | Err _ => 0
            end in
          {| pkg.Code := handlers.StatusOK;
             pkg.Content :=
               pkg.Stats
                 {| pkg.TotalEarnings := totalEarnings;
                    pkg.PendingBalance := pendingEarnings;
                    pkg.TotalPaidEarnings := 0; pkg.PaidCount := 0;
                    pkg.TotalReferrals := totalCount; pkg.TotalClicks := clickCount;
                    pkg.TotalPayouts := 0; pkg.ActiveCodes := 0; pkg.TotalCodes := 0;
                    pkg.TotalStudents := 0; pkg.TotalUniqueCourses := 0;
                    pkg.MonthlyRevenue := 0 |} |}
      end
  end.


Definition GetProfile (d : DB) (ctx : option utils.Claims) : pkg.Reply :=
  match ctx with
  | None => pkg.respondError handlers.StatusUnauthorized "unauthorized"
  | Some claims =>
      match pkg.UserRepository.GetByID d (utils.UserID claims) with
      | Err _ =>
          pkg.respondError handlers.StatusInternalServerError "failed to get profile"
      | Ok user => {| pkg.Code := handlers.StatusOK; pkg.Content := pkg.Profile user |}
      end
  end.

Definition UpdateProfile `{External} (d : DB) (ctx : option utils.Claims)
    (body : option UpdateProfileRequest) : pkg.Reply * DB :=
  match ctx with
  | None => (pkg.respondError handlers.StatusUnauthorized "unauthorized", d)
  | Some claims =>
      match body with
      | None => (pkg.respondError handlers.StatusBadRequest "invalid request body", d)
      | Some req =>
          match validate_UpdateProfileRequest req with
          | _ :: _ as errs =>
              (pkg.respondError handlers.StatusBadRequest
                 (handlers.formatValidationError errs), d)
          | [] =>
              match pkg.UserRepository.GetByID d (utils.UserID claims) with
              | Err _ =>
                  (pkg.respondError handlers.StatusInternalServerError
                     "failed to get profile", d)
              | Ok user =>
                  match pkg.UserRepository.Update d (merge_profile req user) with
                  | (Err _, d') =>
                      (pkg.respondError handlers.StatusInternalServerError
                         "failed to update profile", d')
                  | (Ok user, d') =>
                      ({| pkg.Code := handlers.StatusOK; pkg.Content := pkg.Profile user |},
                       d')
                  end
              end
          end
      end
  end.

End UserHandler.

(** *** StudentHandler.TrackClick (both copies of student_handler.go) *)
Module StudentHandler.
Import repository.

(** [body] is the referral code of the decoded body, [None] a body that
    does not decode. *)
Definition TrackClick `{External} (d : DB) (clicks : list ReferralClick)
    (r : middleware.Request) (body : option string) : pkg.Reply * list ReferralClick :=
  match body with
  | None => (pkg.respondError handlers.StatusBadRequest "invalid request body", clicks)
  | Some referralCode =>
      if bool_decide (referralCode = "")
      then (pkg.respondError handlers.StatusBadRequest "referral_code is required", clicks)
      else
        let ipAddress := middleware.Header_Get r "X-Forwarded-For" in
        let ipAddress :=
          if bool_decide (ipAddress = "") then middleware.RemoteAddr r else ipAddress in
        let userAgent := middleware.Header_Get r "User-Agent" in
        match ClickRepository.RecordClick d clicks referralCode ipAddress userAgent None with
        | (Some _, clicks') =>
            (pkg.respondError handlers.StatusInternalServerError "failed to record click",
             clicks')
        | (None, clicks') =>
            ({| pkg.Code := handlers.StatusOK; pkg.Content := pkg.Message "click recorded" |},
             clicks')
        end
  end.

End StudentHandler.

(** *** [http.ResponseWriter]

    The header map a handler edits, and what has been sent: the status
    and the copy of the header map taken by the first [WriteHeader]
    (a later one is ignored, and so is a later change of the map), and
    the body.  The first [Write] without a status sends 200. *)
Record ResponseWriter := {
  handlerHeader : gmap string string;
  status : option Z;
  sentHeader : gmap string string;
  written : list (gmap string string)
}.


Definition Header_Set (w : ResponseWriter) (key value : string) : ResponseWriter :=
  {| handlerHeader := <[key := value]> (handlerHeader w); status := status w;
     sentHeader := sentHeader w; written := written w |}.

Definition WriteHeader (w : ResponseWriter) (statusCode : Z) : ResponseWriter :=
  match status w with
  | Some _ => w
  | None =>
      {| handlerHeader := handlerHeader w; status := Some statusCode;
         sentHeader := handlerHeader w; written := written w |}
  end.

(** [json.NewEncoder(w).Encode(data)] for a map of strings: one write
    of the JSON object. *)
Definition Encode (w : ResponseWriter) (data : gmap string string) : ResponseWriter :=
  let w := WriteHeader w 200 in
  {| handlerHeader := handlerHeader w; status := status w;
     sentHeader := sentHeader w; written := (written w ++ [data])%list |}.

(** [respondJSON] (response.go), on the writer *)
Definition respondJSON (w : ResponseWriter) (status : Z) (data : gmap string string)
    : ResponseWriter :=
  let w := Header_Set w "Content-Type" "application/json" in
  let w := WriteHeader w status in
  Encode w data.


(** *** HealthHandler (health_handler.go)

    [dbErr] and [cacheErr] say whether [h.db.Health] and
    [h.cache.Health] return an error. *)
Module HealthHandler.


End HealthHandler.



(** *** config.go

    [environ] is the environment of the process once [godotenv.Load]
    has added the variables of the .env file that were not set. *)

(** [time.ParseDuration] and [fmt.Sscanf] with the verb %d, [None]
    when they return an error. *)
Class Scanning := {
  ParseDuration : string → option Z;
  Sscanf_d : string → option Z
}.

Record ServerConfig := { Port : string; Env : string }.
Record DatabaseConfig := { URL : string; TestURL : string; MaxConns : Z }.
Record RedisConfig := { RedisURL : string }.
Record JWTConfig := {
  Secret : string;
  RefreshSecret : string;
  AccessExpiry : Z;
  RefreshExpiry : Z
}.
Record CORSConfig := { Origin : string }.
Record RateLimitConfig := { Requests : Z; Window : Z }.
Record PaystackConfig := { SecretKey : string; BaseURL : string }.
Record SMTPConfig := {
  Host : string;
  SMTPPort : Z;
  User : string;
  Password : string;
  FromName : string;
  FromEmail : string;
  FrontendURL : string
}.

Record Config := {
  Server : ServerConfig;
  Database : DatabaseConfig;
  Redis : RedisConfig;
  JWT : JWTConfig;
  CORS : CORSConfig;
  Admin : pkg.AdminConfig;
  RateLimit : RateLimitConfig;
  Paystack : PaystackConfig;
  SMTP : SMTPConfig
}.

Definition getEnv (environ : gmap string string) (key fallback : string) : string :=
  match environ !! key with
  | Some value => value
  | None => fallback
  end.

Definition getEnvInt `{Scanning} (environ : gmap string string) (key : string)
    (fallback : Z) : Z :=
  match environ !! key with
  | Some value =>
      match Sscanf_d value with
      | Some result => result
      | None => fallback
      end
  | None => fallback
  end.

Inductive loaded :=
  | Loaded (cfg : Config)
  | Failed (message : string).

Definition Load `{Scanning} (environ : gmap string string) : loaded :=
  let accessExpiry := default 0 (ParseDuration (getEnv environ "JWT_ACCESS_EXPIRY" "15m")) in
  let refreshExpiry :=
    default 0 (ParseDuration (getEnv environ "JWT_REFRESH_EXPIRY" "168h")) in
  let rateWindow := default 0 (ParseDuration (getEnv environ "RATE_LIMIT_WINDOW" "1m")) in
  let cfg :=
    {| Server := {| Port := getEnv environ "PORT" "8080";
                    Env := getEnv environ "ENV" "development" |};
       Database := {| URL := getEnv environ "DATABASE_URL" "";
                      TestURL := getEnv environ "DATABASE_TEST_URL" "";
                      MaxConns := getEnvInt environ "DB_MAX_CONNS" 25 |};
       Redis := {| RedisURL := getEnv environ "REDIS_URL" "redis://localhost:6379" |};
       JWT := {| Secret := getEnv environ "JWT_SECRET" "";
                 RefreshSecret := getEnv environ "JWT_REFRESH_SECRET" "";
                 AccessExpiry := accessExpiry;
                 RefreshExpiry := refreshExpiry |};
       CORS := {| Origin := getEnv environ "CORS_ORIGIN" "http://localhost:5173" |};
       Admin := {| pkg.AdminEmail := getEnv environ "ADMIN_EMAIL" "admin@cirvee.com";
                   pkg.AdminPassword := getEnv environ "ADMIN_PASSWORD" "";
                   pkg.AdminName := getEnv environ "ADMIN_NAME" "Super Admin" |};
       RateLimit := {| Requests := getEnvInt environ "RATE_LIMIT_REQUESTS" 100;
                       Window := rateWindow |};
       Paystack := {| SecretKey := getEnv environ "PAYSTACK_SECRET_KEY" "";
                      BaseURL := getEnv environ "PAYSTACK_BASE_URL"
                                   "https://api.paystack.co" |};
       SMTP := {| Host := getEnv environ "SMTP_HOST" "smtp.gmail.com";
                  SMTPPort := getEnvInt environ "SMTP_PORT" 587;
                  User := getEnv environ "SMTP_USER" "";
                  Password := getEnv environ "SMTP_PASSWORD" "";
                  FromName := getEnv environ "SMTP_FROM_NAME" "Cirvee";
                  FromEmail := getEnv environ "SMTP_FROM_EMAIL" "noreply@cirvee.com";
                  FrontendURL := getEnv environ "FRONTEND_URL" "http://localhost:5173" |} |} in
  if bool_decide (Secret (JWT cfg) = "") then Failed "JWT_SECRET is required"
  else if bool_decide (RefreshSecret (JWT cfg) = "")
  then Failed "JWT_REFRESH_SECRET is required"
  else if bool_decide (URL (Database cfg) = "") then Failed "DATABASE_URL is required"
  else Loaded cfg.

(** main.go: the token manager of a loaded configuration *)
Definition jwtManager (cfg : Config) : utils.JWTManager :=
  utils.NewJWTManager (Secret (JWT cfg)) (RefreshSecret (JWT cfg))
    (AccessExpiry (JWT cfg)) (RefreshExpiry (JWT cfg)).

End pkg.

(** ** Predicates used in the statements *)

(** Three characters, a dash, six upper-case hexadecimal digits *)
Definition code_shape (code : string) : Prop :=
  ∃ prefix suffix,
    code = prefix +:+ "-" +:+ suffix
    ∧ String.length prefix = 3%nat
    ∧ String.length suffix = 6%nat
    ∧ string_forallb is_upper_hex suffix = true.

(** The expiry instant carried by a token string has passed. *)
Definition expiry_passed (tok : utils.TokenString) (now : Z) : bool :=
  match tok with
  | utils.JWS _ c _ | utils.UnknownAlg _ c => utils.expired c now
  | utils.Unparsable _ => false
  end.

(** The token is signed with an HMAC method under [secret] and its
    expiry instant has passed. *)
Definition verified_and_expired (secret : string) (now : Z) (tok : utils.TokenString) : bool :=
  match tok with
  | utils.JWS (utils.SigningMethodHMAC _) c (Some k) =>
      bool_decide (k = secret) && utils.expired c now
  | _ => false
  end.



(** ** Sample data

    Concrete instances on which the statements below are exercised. *)
Module samples.

(** An instance of the interface for the samples: a few path ids
    written as decimal numerals parse, every string but one passes for
    an e-mail address, runes are bytes, and a password matches the hash
    that is equal to it. *)
Definition known_ids : gmap string UUID :=
  list_to_map [("1", 1%N); ("2", 2%N); ("3", 3%N); ("10", 10%N); ("11", 11%N);
               ("12", 12%N); ("13", 13%N); ("20", 20%N); ("21", 21%N); ("99", 99%N)].

Definition ext : External :=
  {| uuid_Parse := λ s, known_ids !! s;
     validator_email := λ s, bool_decide (s ≠ "not-an-email");
     RuneCountInString := String.length;
     CheckPassword := λ plain hash, bool_decide (plain = hash);
     unicode_ToUpper := λ s, s |}.

Definition entropy : list Byte.byte := [Byte.x1a; Byte.x2b; Byte.x3c; Byte.x4d].

Definition manager : utils.JWTManager :=
  utils.NewJWTManager "access-secret" "refresh-secret" (15 * time.Minute) (168 * time.Hour).

(** A token that expired at instant 50 and was signed under a key that
    is not the manager's. *)
Definition stale_claims : utils.Claims :=
  {| utils.UserID := 7%N; utils.Email := "ada@example.com"; utils.Role := "user";
     utils.Type_ := utils.AccessToken; utils.ExpiresAt := Some 50;
     utils.NotBefore := None; utils.IssuedAt := Some 0;
     utils.Issuer := "cirvee-referral" |}.

Definition forged_stale_token : utils.TokenString :=
  utils.JWS utils.SigningMethodHS256 stale_claims (Some "some-other-secret").

Import models repository.

Definition user (id : UUID) (email name code hash : string) (role : Role)
    (blocked : bool) : User :=
  {| ID := id; Email := email; PasswordHash := hash; Name := name;
     Phone := "08012345678"; UserRole := role; BankName := ""; AccountNumber := "";
     AccountName := ""; ReferralCode := code; IsBlocked := blocked;
     CreatedAt := 0; UpdatedAt := 0 |}.

Definition root_user : User :=
  user 1 "root@example.com" "Root" "ROO-0F0F0F" "root-password" RoleAdmin false.
Definition ada : User :=
  user 2 "ada@example.com" "Ada" "ADA-1A2B3C" "ada-password" RoleUser false.
Definition bob : User :=
  user 3 "bob@example.com" "Bob" "BOB-00AA11" "bob-password" RoleUser true.

Definition referral (id : UUID) (referrer : option UUID) (earnings : Z)
    (status : string) : Referral :=
  {| RefID := id; ReferrerID := referrer; ReferrerName := "";
     ReferredName := "Student"; ReferredEmail := "student@example.com";
     ReferredPhone := "0800"; Course := "Data Science"; CoursePrice := 400000;
     Earnings := earnings; Status := status; RefCreatedAt := 1 |}.

Definition payout (id : UUID) (status : PayoutStatus) (by_ : option UUID)
    (paid : option Z) : Payout :=
  {| PayoutID := id; PayoutUserID := 2; Amount := 20000; PStatus := status;
     ApprovedBy := by_; PayoutCreatedAt := 2; PaidAt := paid |}.

Definition db : DB :=
  {| up := true; clock := 100;
     users := [root_user; ada; bob];
     referrals := [referral 10 (Some 2%N) 10000 "pending";
                   referral 11 (Some 2%N) 10000 "paid";
                   referral 12 None 0 "pending";
                   referral 13 (Some 3%N) 10000 "rejected"];
     payouts := [payout 20 "pending" None None;
                 payout 21 "approved" (Some 1%N) (Some 5)];
     password_reset_tokens := [];
     dashboard_cached := true |}.


Definition root_claims : utils.Claims :=
  {| utils.UserID := 1%N; utils.Email := "root@example.com"; utils.Role := "admin";
     utils.Type_ := utils.AccessToken; utils.ExpiresAt := Some 1000;
     utils.NotBefore := None; utils.IssuedAt := Some 90;
     utils.Issuer := "cirvee-referral" |}.

End samples.

(** ** More sample data *)
Module more_samples.

Definition rt : Runtime :=
  {| HashPassword := λ salt password, Ok password;
     token_of_string := λ s,
       if bool_decide (s = "root-token")
       then utils.GenerateAccessToken samples.manager 0 1 "root@example.com" "admin"
       else if bool_decide (s = "ada-token")
       then utils.GenerateAccessToken samples.manager 0 2 "ada@example.com" "user"
       else utils.Unparsable s;
     by_created_desc := λ rows, reverse rows |}.

Definition newcomer : pkg.RegisterRequest :=
  {| pkg.RegEmail := "eve@example.com"; pkg.RegPassword := "eve-password";
     pkg.RegName := "Eve"; pkg.RegPhone := "0802"; pkg.RegBankName := "";
     pkg.RegAccountNumber := ""; pkg.RegAccountName := "" |}.

(** A request for an e-mail address that an account already carries. *)
Definition second_ada : pkg.RegisterRequest :=
  {| pkg.RegEmail := "ada@example.com"; pkg.RegPassword := "another-password";
     pkg.RegName := "Ada Again"; pkg.RegPhone := "0803"; pkg.RegBankName := "";
     pkg.RegAccountNumber := ""; pkg.RegAccountName := "" |}.

(** The sample store with two reset tokens, one of them expired. *)
Definition db_with_tokens : repository.DB :=
  repository.with_tokens samples.db
    [{| repository.TokID := 60; repository.TokUserID := 3;
        repository.TokenValue := "0000"; repository.TokExpiresAt := 90;
        repository.TokCreatedAt := 10 |};
     {| repository.TokID := 61; repository.TokUserID := 2;
        repository.TokenValue := "a1b2"; repository.TokExpiresAt := 3700;
        repository.TokCreatedAt := 100 |}].

Definition reset_request : pkg.ResetPasswordRequest :=
  {| pkg.ResetToken := "a1b2"; pkg.NewPassword := "new-password" |}.

(** A runtime whose one known token string is a refresh token of ada. *)
Definition refresh_rt : Runtime :=
  {| HashPassword := λ salt password, Ok password;
     token_of_string := λ s,
       if bool_decide (s = "ada-refresh")
       then utils.GenerateRefreshToken samples.manager 0 2 "ada@example.com" "user"
       else utils.Unparsable s;
     by_created_desc := λ rows, reverse rows |}.

End more_samples.

(** * Properties *)

Section referral_code.
Context `{External}.

Lemma rand_Read_length rnd n : length (utils.rand_Read rnd n) = n.
Proof.
  unfold utils.rand_Read. rewrite length_take, length_app, length_replicate. lia.
Qed.

Lemma hex_digit_upper n :
  (n < 16)%N →
  is_ascii_byte (utils.hex_digit n) = true
  ∧ is_ascii_byte (upper_byte (utils.hex_digit n)) = true
  ∧ is_upper_hex (upper_byte (utils.hex_digit n)) = true.
Proof.
  intros Hn.
  assert (Hcases : n ∈ (N.of_nat <$> seq 0 16)).
  { apply list_elem_of_fmap. exists (N.to_nat n). split; [lia|].
    apply list_elem_of_In, in_seq. lia. }
  cbn in Hcases.
  repeat (apply elem_of_cons in Hcases as [-> | Hcases]; [by vm_compute|]).
  by apply elem_of_nil in Hcases.
Qed.

Lemma byte_nibbles b :
  (Byte.to_N b / 16 < 16)%N ∧ (Byte.to_N b mod 16 < 16)%N.
Proof.
  pose proof (Byte.to_N_bounded b). split.
  - apply N.Div0.div_lt_upper_bound. lia.
  - apply N.mod_lt. lia.
Qed.

Lemma EncodeToString_ascii bs :
  string_forallb is_ascii_byte (utils.EncodeToString bs) = true.
Proof.
  induction bs as [|b bs IH]; [done|]. cbn [utils.EncodeToString string_forallb].
  destruct (byte_nibbles b) as [Hhi Hlo].
  destruct (hex_digit_upper _ Hhi) as (-> & _), (hex_digit_upper _ Hlo) as (-> & _).
  by rewrite IH.
Qed.

Lemma EncodeToString_upper_hex bs :
  string_forallb is_upper_hex (string_map upper_byte (utils.EncodeToString bs)) = true.
Proof.
  induction bs as [|b bs IH]; [done|].
  cbn [utils.EncodeToString string_map string_forallb].
  destruct (byte_nibbles b) as [Hhi Hlo].
  destruct (hex_digit_upper _ Hhi) as (_ & _ & ->), (hex_digit_upper _ Hlo) as (_ & _ & ->).
  by rewrite IH.
Qed.

Lemma EncodeToString_length bs :
  String.length (utils.EncodeToString bs) = (2 * length bs)%nat.
Proof. induction bs as [|b bs IH]; [done|]. cbn. rewrite IH. lia. Qed.

Lemma string_app_length (s1 s2 : string) :
  String.length (s1 +:+ s2) = (String.length s1 + String.length s2)%nat.
Proof. induction s1 as [|c s1 IH]; [done|]. simpl. by f_equal. Qed.

Lemma string_map_length f s : String.length (string_map f s) = String.length s.
Proof. induction s as [|c s IH]; [done|]. cbn. by rewrite IH. Qed.

Lemma slice_to_length n s : String.length (slice_to n s) = (n `min` String.length s)%nat.
Proof.
  unfold slice_to. revert n. induction s as [|c s IH]; intros [|n]; cbn; try done.
  by rewrite IH.
Qed.

Lemma slice_to_forallb p n s :
  string_forallb p s = true → string_forallb p (slice_to n s) = true.
Proof.
  unfold slice_to. revert n. induction s as [|c s IH]; intros [|n]; cbn; try done.
  intros [-> Hs]%andb_prop. by rewrite IH.
Qed.

Lemma slice_to_all n s : (String.length s ≤ n)%nat → slice_to n s = s.
Proof.
  unfold slice_to. revert n. induction s as [|c s IH]; intros [|n]; cbn; try done; try lia.
  intros Hn. rewrite IH; [done | lia].
Qed.

Lemma slice_to_map f n s : slice_to n (string_map f s) = string_map f (slice_to n s).
Proof.
  unfold slice_to. revert n. induction s as [|c s IH]; intros [|n]; cbn; try done.
  by rewrite IH.
Qed.

Lemma referral_prefix_slice name :
  utils.referral_prefix name = slice_to 3 (utils.ToUpper name).
Proof.
  unfold utils.referral_prefix. cbv zeta.
  destruct (3 <? _)%nat eqn:Hlen; [done|].
  apply Nat.ltb_ge in Hlen. by rewrite slice_to_all.
Qed.

Lemma referral_suffix_hex rnd :
  utils.referral_suffix rnd
  = slice_to 6 (string_map upper_byte (utils.EncodeToString (utils.rand_Read rnd 4))).
Proof.
  unfold utils.referral_suffix, utils.ToUpper. by rewrite EncodeToString_ascii.
Qed.

End referral_code.

(** C6, as stated, fails on a two-letter name: the code of "Al" is
    "AL-1A2B3C", nine characters long, so it is not three characters
    followed by a dash and six hexadecimal digits. *)
Lemma GenerateReferralCode_short_name :
  @utils.GenerateReferralCode samples.ext samples.entropy "Al" = "AL-1A2B3C"
  ∧ ¬ code_shape (@utils.GenerateReferralCode samples.ext samples.entropy "Al").
Proof.
  split; [by vm_compute|].
  intros (prefix & suffix & Hcode & Hp & Hs & _).
  apply (f_equal String.length) in Hcode.
  rewrite !string_app_length, Hp, Hs in Hcode. vm_compute in Hcode. lia.
Qed.

(** C6, amended: for every name and every output of the entropy source,
    the code is the first three bytes of the upper-cased name (the whole
    upper-cased name when it is shorter), a dash, and six upper-case
    hexadecimal digits; on an ASCII name the prefix is the upper-cased
    first three bytes of the name. *)
Theorem GenerateReferralCode_shape `{External} (rnd : list Byte.byte) (name : string) :
  ∃ suffix,
    utils.GenerateReferralCode rnd name = slice_to 3 (utils.ToUpper name) +:+ "-" +:+ suffix
    ∧ String.length (slice_to 3 (utils.ToUpper name))
      = (3 `min` String.length (utils.ToUpper name))%nat
    ∧ String.length suffix = 6%nat
    ∧ string_forallb is_upper_hex suffix = true
    ∧ (string_forallb is_ascii_byte name = true →
       slice_to 3 (utils.ToUpper name) = string_map upper_byte (slice_to 3 name)
       ∧ String.length (slice_to 3 (utils.ToUpper name))
         = (3 `min` String.length name)%nat).
Proof.
  exists (utils.referral_suffix rnd).
  split; [unfold utils.GenerateReferralCode; by rewrite referral_prefix_slice|].
  split; [apply slice_to_length|].
  rewrite referral_suffix_hex.
  split.
  { rewrite slice_to_length, string_map_length, EncodeToString_length, rand_Read_length.
    done. }
  split; [apply slice_to_forallb, EncodeToString_upper_hex|].
  intros Hascii. unfold utils.ToUpper. rewrite Hascii.
  split; [apply slice_to_map|].
  by rewrite slice_to_length, string_map_length.
Qed.

Section tokens.

Lemma Validate_nil c now :
  utils.Validate c now = [] ↔ utils.expired c now = false ∧ utils.not_valid_yet c now = false.
Proof.
  unfold utils.Validate.
  destruct (utils.expired c now), (utils.not_valid_yet c now); cbn;
    split; try done; by intros [??].
Qed.

Lemma Validate_expired c now :
  utils.errors_Is (utils.ErrTokenInvalidClaims :: utils.Validate c now)
    utils.jwt_ErrTokenExpired
  = utils.expired c now.
Proof.
  unfold utils.errors_Is, utils.Validate.
  destruct (utils.expired c now), (utils.not_valid_yet c now); by vm_compute.
Qed.

(** What [validateToken] returns, by the shape of the token. *)
Lemma validateToken_eq now tok secret expectedType :
  utils.validateToken now tok secret expectedType =
  match tok with
  | utils.JWS (utils.SigningMethodHMAC _) c (Some k) =>
      if bool_decide (k = secret) then
        if utils.expired c now then Err ErrExpiredToken
        else if utils.not_valid_yet c now then Err ErrInvalidToken
        else if bool_decide (utils.Type_ c = expectedType) then Ok c
        else Err ErrInvalidToken
      else Err ErrInvalidToken
  | _ => Err ErrInvalidToken
  end.
Proof.
  destruct tok as [raw | alg c | alg c mac]; [done | done |].
  destruct alg; try done.
  unfold utils.validateToken, utils.ParseWithClaims, utils.hmac_keyFunc, utils.Verify.
  destruct mac as [k|]; [|by rewrite bool_decide_eq_false_2].
  destruct (decide (k = secret)) as [->|Hk].
  - rewrite !bool_decide_eq_true_2 by done.
    pose proof (Validate_expired c now) as Hexp.
    pose proof (Validate_nil c now) as Hnil.
    destruct (utils.Validate c now) as [|e errs] eqn:Hv.
    + destruct Hnil as [[-> ->] _]; [done|]. cbn.
      by destruct (bool_decide (utils.Type_ c = expectedType)).
    + rewrite Hexp. destruct (utils.expired c now) eqn:He; [done|].
      destruct (utils.not_valid_yet c now) eqn:Hn; [done|].
      destruct Hnil as [_ Hnil]. by discriminate Hnil.
  - rewrite (bool_decide_eq_false_2 (Some k = Some secret)) by congruence.
    by rewrite (bool_decide_eq_false_2 (k = secret)).
Qed.

End tokens.

(** C2, as stated, fails on a token whose expiry has passed and whose
    signature does not verify: the signature is checked before the
    claims, so the answer is the generic error. *)
Lemma ValidateAccessToken_forged_stale :
  expiry_passed samples.forged_stale_token 100 = true
  ∧ utils.ValidateAccessToken samples.manager 100 samples.forged_stale_token
    = Err ErrInvalidToken.
Proof. by vm_compute. Qed.

(** C2, amended: each of the two validations fails with the expired-token
    error exactly when the token verifies as an HMAC token under the
    secret of its class and its expiry has passed; every other failure
    is the generic invalid-token error, in particular a verified,
    unexpired token of the other class; and a refresh token issued by
    the manager is refused as an access token with the generic error
    (and vice versa) whenever the two secrets differ or the token has
    not expired. *)
Theorem Validate_token_errors (j : utils.JWTManager) (now : Z) (tok : utils.TokenString) :
  (utils.ValidateAccessToken j now tok = Err ErrExpiredToken
     ↔ verified_and_expired (utils.accessSecret j) now tok = true)
  ∧ (utils.ValidateRefreshToken j now tok = Err ErrExpiredToken
     ↔ verified_and_expired (utils.refreshSecret j) now tok = true)
  ∧ (∀ e, utils.ValidateAccessToken j now tok = Err e →
          e ≠ ErrExpiredToken → e = ErrInvalidToken)
  ∧ (∀ e, utils.ValidateRefreshToken j now tok = Err e →
          e ≠ ErrExpiredToken → e = ErrInvalidToken)
  ∧ (∀ c, utils.ValidateAccessToken j now tok = Ok c → utils.Type_ c = utils.AccessToken)
  ∧ (∀ c, utils.ValidateRefreshToken j now tok = Ok c → utils.Type_ c = utils.RefreshToken)
  ∧ (∀ issued userID email role,
       utils.accessSecret j ≠ utils.refreshSecret j
       ∨ now < utils.NewNumericDate (issued + utils.refreshExpiry j) →
       utils.ValidateAccessToken j now (utils.GenerateRefreshToken j issued userID email role)
       = Err ErrInvalidToken)
  ∧ (∀ issued userID email role,
       utils.accessSecret j ≠ utils.refreshSecret j
       ∨ now < utils.NewNumericDate (issued + utils.accessExpiry j) →
       utils.ValidateRefreshToken j now (utils.GenerateAccessToken j issued userID email role)
       = Err ErrInvalidToken).
Proof.
  unfold utils.ValidateAccessToken, utils.ValidateRefreshToken.
  assert (Hexp : ∀ secret ty,
    utils.validateToken now tok secret ty = Err ErrExpiredToken
    ↔ verified_and_expired secret now tok = true).
  { intros secret ty. rewrite validateToken_eq. unfold verified_and_expired.
    destruct tok as [raw | alg c | [] c [k|]]; try (split; by intros ?).
    repeat case_bool_decide; cbn;
      destruct (utils.expired c now), (utils.not_valid_yet c now);
      split; by intros ?. }
  assert (Hother : ∀ secret ty e,
    utils.validateToken now tok secret ty = Err e →
    e ≠ ErrExpiredToken → e = ErrInvalidToken).
  { intros secret ty e. rewrite validateToken_eq.
    destruct tok as [raw | alg c | [] c [k|]]; try (intros [= <-]; done).
    repeat case_bool_decide;
      destruct (utils.expired c now), (utils.not_valid_yet c now);
      intros [= <-]; done. }
  assert (Hok : ∀ secret ty c,
    utils.validateToken now tok secret ty = Ok c → utils.Type_ c = ty).
  { intros secret ty c. rewrite validateToken_eq.
    destruct tok as [raw | alg c' | [] c' [k|]]; try done.
    repeat case_bool_decide; try done;
      destruct (utils.expired c' now), (utils.not_valid_yet c' now);
      try done; by intros [= <-]. }
  repeat split; try apply Hexp; eauto.
  - intros issued userID email role Hcase. rewrite validateToken_eq. cbn.
    case_bool_decide as Hk; [|done].
    unfold utils.expired; cbn.
    destruct Hcase as [Hne | Hlt]; [congruence|].
    by rewrite (proj2 (Z.ltb_lt _ _) Hlt).
  - intros issued userID email role Hcase. rewrite validateToken_eq. cbn.
    case_bool_decide as Hk; [|done].
    unfold utils.expired; cbn.
    destruct Hcase as [Hne | Hlt]; [congruence|].
    by rewrite (proj2 (Z.ltb_lt _ _) Hlt).
Qed.

Section admin_operations.
Context `{External}.
Import models repository handlers.

Lemma RequireRole_cases role ctx d next :
  (middleware.RequireRole role ctx d next = next
   ∧ ∃ claims, ctx = Some claims ∧ utils.Role claims = role)
  ∨ (store (middleware.RequireRole role ctx d next) = d
     ∧ ∃ code text, response (middleware.RequireRole role ctx d next)
                    = Respond code (PlainText text)
                    ∧ (code = StatusUnauthorized ∨ code = StatusForbidden)).
Proof.
  unfold middleware.RequireRole. destruct ctx as [claims|].
  - case_bool_decide as Hrole.
    + right. split; [done|]. eexists _, _. split; [done|]. by right.
    + left. split; [done|]. exists claims. split; [done|].
      by destruct (decide (utils.Role claims = role)).
  - right. split; [done|]. eexists _, _. split; [done|]. by left.
Qed.

Lemma RequireRole_admin role claims d next :
  utils.Role claims = role →
  middleware.RequireRole role (Some claims) d next = next.
Proof.
  intros Hrole. unfold middleware.RequireRole.
  by rewrite bool_decide_eq_false_2 by naive_solver.
Qed.

Lemma set_status_same (r : Referral) : set_status (Status r) r = r.
Proof. by destruct r. Qed.

(** The bulk update, row by row. *)
Lemma MarkReferralsAsPaid_lookup (d : DB) (referrerID : UUID) (i : nat) :
  referrals (ReferralRepository.MarkReferralsAsPaid d referrerID).2 !! i
  = (λ r, if up d && bool_decide (ReferrerID r = Some referrerID)
             && bool_decide (Status r = "pending")
          then set_status "paid" r else r) <$> referrals d !! i.
Proof.
  unfold ReferralRepository.MarkReferralsAsPaid. destruct (up d); cbn.
  - by rewrite list_lookup_fmap.
  - by destruct (referrals d !! i).
Qed.

Lemma UpdateStatus_lookup (d : DB) (id : UUID) (status : string) (i : nat) :
  referrals (ReferralRepository.UpdateStatus d id status).2 !! i
  = (λ r, if up d && referral_exists d id && referrals_status_check status
             && bool_decide (RefID r = id)
          then set_status status r else r) <$> referrals d !! i.
Proof.
  unfold ReferralRepository.UpdateStatus.
  destruct (up d), (referral_exists d id), (referrals_status_check status); cbn;
    try by destruct (referrals d !! i).
  by rewrite list_lookup_fmap.
Qed.

Lemma MarkReferrerPaid_store (d : DB) (id : string) :
  store (AdminHandler.MarkReferrerPaid d id)
  = match uuid_Parse id with
    | Some referrerID => (ReferralRepository.MarkReferralsAsPaid d referrerID).2
    | None => d
    end.
Proof.
  unfold AdminHandler.MarkReferrerPaid. destruct (uuid_Parse id) as [rid|]; [|done].
  by destruct (ReferralRepository.MarkReferralsAsPaid d rid) as [[e|] d'].
Qed.

Lemma MarkReferralPaid_store (d : DB) (id : string) :
  store (AdminHandler.MarkReferralPaid d id)
  = match uuid_Parse id with
    | Some referralID => (ReferralRepository.UpdateStatus d referralID "paid").2
    | None => d
    end.
Proof.
  unfold AdminHandler.MarkReferralPaid, ReferralRepository.MarkReferralAsPaid.
  destruct (uuid_Parse id) as [rid|]; [|done].
  destruct (ReferralRepository.UpdateStatus d rid "paid") as [[e|] d']; [|done].
  by case_bool_decide.
Qed.

Lemma UpdateReferralStatus_store (d : DB) (id : string)
    (body : option UpdateReferralStatusRequest) :
  store (AdminHandler.UpdateReferralStatus d id body)
  = match uuid_Parse id, body with
    | Some referralID, Some req => (ReferralRepository.UpdateStatus d referralID (NewStatus req)).2
    | _, _ => d
    end.
Proof.
  unfold AdminHandler.UpdateReferralStatus. destruct (uuid_Parse id) as [rid|]; [|done].
  destruct body as [req|]; [|done].
  destruct (ReferralRepository.UpdateStatus d rid (NewStatus req)) as [[e|] d']; [|done].
  by case_bool_decide.
Qed.

End admin_operations.

(** C1, as stated, fails on the update-referral-status endpoint: the
    second referral of the sample store is paid, and the request
    [{"status": "pending"}] for it is answered with 200 and turns it
    back to pending. *)
Lemma paid_referral_reopened :
  let out := @router.run_referral_op samples.ext (Some samples.root_claims) samples.db
               (router.OpUpdateStatus "11"
                  (Some {| models.NewStatus := "pending" |})) in
  models.Status <$> repository.referrals samples.db !! 1%nat = Some "paid"
  ∧ handlers.response out
    = handlers.respondJSON 200 [("message", "referral status updated")]
  ∧ models.Status <$> repository.referrals (handlers.store out) !! 1%nat = Some "pending".
Proof. by vm_compute. Qed.

(** C1, amended: a referral whose status is not pending is left as it is
    by the bulk mark-referrer-paid operation, and a paid referral is left
    as it is by mark-referral-paid; the update-referral-status endpoint,
    called by an administrator on a reachable store, sets the status of
    the referral it names to any requested status the table admits,
    whatever the current status. *)
Theorem referral_status_transitions `{External} (ctx : option utils.Claims)
    (d : repository.DB) (id : string) (i : nat) (r : models.Referral) :
  repository.referrals d !! i = Some r →
  (models.Status r ≠ "pending" →
     repository.referrals
       (handlers.store (router.run_referral_op ctx d (router.OpMarkReferrerPaid id))) !! i
     = Some r)
  ∧ (models.Status r = "paid" →
     repository.referrals
       (handlers.store (router.run_referral_op ctx d (router.OpMarkReferralPaid id))) !! i
     = Some r)
  ∧ (∀ claims status,
       ctx = Some claims → utils.Role claims = models.RoleAdmin →
       repository.up d = true → uuid_Parse id = Some (models.RefID r) →
       repository.referrals_status_check status = true →
       repository.referrals
         (handlers.store
            (router.run_referral_op ctx d
               (router.OpUpdateStatus id (Some {| models.NewStatus := status |})))) !! i
       = Some (repository.set_status status r)).
Proof.
  intros Hr. cbn [router.run_referral_op].
  unfold router.post_referrers_paid, router.post_referrals_paid,
    router.patch_referrals_status, router.admin.
  split; [|split].
  - intros Hstatus.
    destruct (RequireRole_cases models.RoleAdmin ctx d
                (handlers.AdminHandler.MarkReferrerPaid d id))
      as [[-> _] | [-> _]]; [|done].
    rewrite MarkReferrerPaid_store. destruct (uuid_Parse id) as [rid|]; [|done].
    rewrite MarkReferralsAsPaid_lookup, Hr. cbn.
    by rewrite (bool_decide_eq_false_2 (models.Status r = "pending")), andb_false_r.
  - intros Hstatus.
    destruct (RequireRole_cases models.RoleAdmin ctx d
                (handlers.AdminHandler.MarkReferralPaid d id))
      as [[-> _] | [-> _]]; [|done].
    rewrite MarkReferralPaid_store. destruct (uuid_Parse id) as [rid|]; [|done].
    rewrite UpdateStatus_lookup, Hr. cbn.
    destruct (_ && _); [|done]. by rewrite <- Hstatus, set_status_same.
  - intros claims status -> Hrole Hup Hid Hcheck.
    rewrite RequireRole_admin by done.
    rewrite UpdateReferralStatus_store, Hid. cbn.
    rewrite UpdateStatus_lookup, Hr, Hup, Hcheck. cbn.
    assert (repository.referral_exists d (models.RefID r) = true) as ->.
    { unfold repository.referral_exists. apply existsb_exists. exists r.
      split; [|by apply bool_decide_eq_true_2].
      apply list_elem_of_In, list_elem_of_lookup. eauto. }
    by rewrite bool_decide_eq_true_2.
Qed.

Lemma referral_status_transitions_sample :
  let d := samples.db in
  let r := samples.referral 11 (Some 2%N) 10000 "paid" in
  let ctx := Some samples.root_claims in
  repository.referrals d !! 1%nat = Some r
  ∧ repository.referrals
      (handlers.store
         (@router.run_referral_op samples.ext ctx d (router.OpMarkReferrerPaid "2"))) !! 1%nat
    = Some r.
Proof.
  split; [reflexivity|].
  apply (@referral_status_transitions samples.ext (Some samples.root_claims)
           samples.db "2" 1%nat (samples.referral 11 (Some 2%N) 10000 "paid"));
    [reflexivity | by vm_compute].
Defined.


Section payouts.
Context `{External}.
Import models repository handlers.


End payouts.





(** C10, as stated, fails on a request whose body does not decode: the
    administrator of the sample store names their own id in the path and
    sends no JSON, and the answer is the decoding error. *)
Lemma BlockUser_self_without_body :
  utils.UserID samples.root_claims = 1%N
  ∧ @uuid_Parse samples.ext "1" = Some 1%N
  ∧ @router.post_users_block samples.ext (Some samples.root_claims) samples.db "1" None
    = handlers.reply (handlers.respondError 400 "invalid request body") samples.db.
Proof. by vm_compute. Qed.

(** C10, amended: for every request of an administrator whose path id
    parses to the administrator's own user id and whose body decodes,
    the answer is 400 "cannot block yourself"; when the body does not
    decode it is 400 "invalid request body"; in both cases the store,
    and with it the blocked flag of the target, is unchanged. *)
Theorem BlockUser_self `{External} (d : repository.DB) (claims : utils.Claims)
    (id : string) (body : option models.BlockUserRequest) :
  utils.Role claims = models.RoleAdmin →
  uuid_Parse id = Some (utils.UserID claims) →
  router.post_users_block (Some claims) d id body
  = handlers.reply
      (handlers.respondError 400
         (match body with
          | Some _ => "cannot block yourself"
          | None => "invalid request body"
          end)) d.
Proof.
  intros Hrole Hid. unfold router.post_users_block, router.admin.
  rewrite RequireRole_admin by done.
  unfold handlers.AdminHandler.BlockUser. rewrite Hid. destruct body as [req|]; [|done].
  by rewrite bool_decide_eq_true_2.
Qed.

Lemma BlockUser_self_sample :
  @router.post_users_block samples.ext (Some samples.root_claims) samples.db "1"
    (Some {| models.ReqIsBlocked := true |})
  = handlers.reply (handlers.respondError 400 "cannot block yourself") samples.db.
Proof.
  exact (@BlockUser_self samples.ext samples.db samples.root_claims "1"
           (Some {| models.ReqIsBlocked := true |}) eq_refl eq_refl).
Defined.

(** C8: when the lookup by e-mail finds a user whose blocked flag is
    set, [Login] fails with the user-blocked error whatever password was
    supplied, and the handler turns it into 403 "user account is
    blocked" for every request that passes validation, leaving the store
    alone.  An unknown e-mail, and a wrong password on an account that is
    not blocked, fail with the invalid-credentials error instead, which
    the handler turns into 401 "invalid credentials". *)
Theorem Login_blocked `{External} (j : utils.JWTManager) (d : repository.DB)
    (email password : string) (user : models.User) :
  repository.UserRepository.GetByEmail d email = Ok user →
  models.IsBlocked user = true →
  let req := {| models.LoginEmail := email; models.LoginPassword := password |} in
  services.AuthService.Login j d req = Err ErrUserBlocked
  ∧ (handlers.validate_LoginRequest req = [] →
     handlers.AuthHandler.Login j d (Some req)
     = handlers.reply (handlers.respondError 403 "user account is blocked") d)
  ∧ (∀ d' req',
       repository.UserRepository.GetByEmail d' (models.LoginEmail req') = Err ErrUserNotFound
       ∨ (∃ u, repository.UserRepository.GetByEmail d' (models.LoginEmail req') = Ok u
               ∧ models.IsBlocked u = false
               ∧ CheckPassword (models.LoginPassword req') (models.PasswordHash u) = false) →
       services.AuthService.Login j d' req' = Err ErrInvalidCredentials
       ∧ (handlers.validate_LoginRequest req' = [] →
          handlers.AuthHandler.Login j d' (Some req')
          = handlers.reply (handlers.respondError 401 "invalid credentials") d')).
Proof.
  intros Hfound Hblocked req.
  assert (Hlogin : services.AuthService.Login j d req = Err ErrUserBlocked).
  { unfold services.AuthService.Login, req. cbn. by rewrite Hfound, Hblocked. }
  split; [done|]. split.
  - intros Hvalid. unfold handlers.AuthHandler.Login. by rewrite Hvalid, Hlogin.
  - intros d' req' Hcase.
    assert (Hbad : services.AuthService.Login j d' req' = Err ErrInvalidCredentials).
    { unfold services.AuthService.Login.
      destruct Hcase as [-> | (u & -> & -> & ->)]; done. }
    split; [done|]. intros Hvalid. unfold handlers.AuthHandler.Login. by rewrite Hvalid, Hbad.
Qed.

(** Bob is blocked in the sample store; a login with a wrong password is
    answered with 403. *)
Lemma Login_blocked_sample :
  @CheckPassword samples.ext "wrong-password" (models.PasswordHash samples.bob) = false
  ∧ @handlers.AuthHandler.Login samples.ext samples.manager samples.db
      (Some {| models.LoginEmail := "bob@example.com";
               models.LoginPassword := "wrong-password" |})
    = handlers.reply (handlers.respondError 403 "user account is blocked") samples.db.
Proof.
  split; [reflexivity|].
  apply (@Login_blocked samples.ext samples.manager samples.db "bob@example.com"
           "wrong-password" samples.bob eq_refl eq_refl).
  reflexivity.
Defined.

(** C7: take two runs of the forgot-password handler on requests that
    pass validation, the first on a store where the e-mail is found and
    the reset token can be created, the second on a store where the
    e-mail is not found.  Both answer 200 with the same message, so the
    two responses are equal. *)
Theorem ForgotPassword_same_response `{External} (d1 d2 : repository.DB)
    (id1 id2 : UUID) (rnd1 rnd2 : option (list Byte.byte))
    (req1 req2 : models.ForgotPasswordRequest) (user : models.User)
    (token : repository.PasswordResetToken) (d1' : repository.DB) :
  handlers.validate_ForgotPasswordRequest req1 = [] →
  handlers.validate_ForgotPasswordRequest req2 = [] →
  repository.UserRepository.GetByEmail d1 (models.ForgotEmail req1) = Ok user →
  repository.ResetTokenRepository.Create d1 id1 rnd1 (models.ID user) time.Hour
    = (Ok token, d1') →
  repository.UserRepository.GetByEmail d2 (models.ForgotEmail req2) = Err ErrUserNotFound →
  handlers.response (handlers.AuthHandler.ForgotPassword d1 id1 rnd1 (Some req1))
  = handlers.response (handlers.AuthHandler.ForgotPassword d2 id2 rnd2 (Some req2))
  ∧ handlers.response (handlers.AuthHandler.ForgotPassword d2 id2 rnd2 (Some req2))
    = handlers.respondJSON 200
        [("message", "If the email exists, a password reset link will be sent")].
Proof.
  intros Hv1 Hv2 Hfound Hcreate Hmissing.
  unfold handlers.AuthHandler.ForgotPassword.
  by rewrite Hv1, Hv2, Hfound, Hcreate, Hmissing.
Qed.

Lemma ForgotPassword_same_response_sample :
  handlers.response
    (@handlers.AuthHandler.ForgotPassword samples.ext samples.db 40 (Some samples.entropy)
       (Some {| models.ForgotEmail := "ada@example.com" |}))
  = handlers.response
      (@handlers.AuthHandler.ForgotPassword samples.ext samples.db 41 (Some samples.entropy)
         (Some {| models.ForgotEmail := "nobody@example.com" |})).
Proof.
  refine (proj1 (@ForgotPassword_same_response samples.ext samples.db samples.db 40 41
                   (Some samples.entropy) (Some samples.entropy)
                   {| models.ForgotEmail := "ada@example.com" |}
                   {| models.ForgotEmail := "nobody@example.com" |}
                   samples.ada _ _ eq_refl eq_refl eq_refl _ eq_refl)).
  vm_compute. reflexivity.
Defined.

Section limiter.
Import cache middleware.







End limiter.


Section registration.
Context `{External}.
Import models repository handlers.







End registration.



(** Three requests from one address through a global limiter of two
    requests per minute: the third is refused with Retry-After 60. *)
Example third_request_refused :
  let rl := {| middleware.requests := 2; middleware.window := time.Minute |} in
  let r := {| middleware.RemoteAddr := "10.0.0.9:4711"; middleware.Header := ∅;
              middleware.URLPath := "/api/v1/auth/login" |} in
  let c0 := {| cache.reachable := true; cache.counters := ∅; cache.ttl := ∅ |} in
  let c1 := (middleware.RateLimiter.Limit rl r c0).2 in
  let c2 := (middleware.RateLimiter.Limit rl r c1).2 in
  (middleware.RateLimiter.Limit rl r c0).1
    = middleware.Next [("X-RateLimit-Limit", "2"); ("X-RateLimit-Remaining", "1")]
  ∧ cache.ttl c1 !! "rate_limit:10.0.0.9:4711" = Some time.Minute
  ∧ (middleware.RateLimiter.Limit rl r c1).1
    = middleware.Next [("X-RateLimit-Limit", "2"); ("X-RateLimit-Remaining", "0")]
  ∧ ∃ body,
      (middleware.RateLimiter.Limit rl r c2).1
      = middleware.Answer 429
          [("Retry-After", "60"); ("Content-Type", "text/plain; charset=utf-8");
           ("X-Content-Type-Options", "nosniff")] body.
Proof. repeat split; try by vm_compute. eexists. by vm_compute. Qed.

(** ** Further behaviour at the edges of the statements above *)

(** With one secret for both token classes, an expired refresh token is
    reported as expired by the access validation: expiry is found
    during the parse, before the class tag is compared. *)
Example expired_refresh_token_shared_secret :
  let j := utils.NewJWTManager "shared" "shared" (15 * time.Minute) (168 * time.Hour) in
  utils.ValidateAccessToken j (200 * time.Hour)
    (utils.GenerateRefreshToken j 0 7 "ada@example.com" "user")
  = Err ErrExpiredToken.
Proof. by vm_compute. Qed.

(** Mark-referral-paid on a rejected referral is answered with 200 and
    makes the referral paid. *)
Example rejected_referral_marked_paid :
  let out := @router.post_referrals_paid samples.ext (Some samples.root_claims)
               samples.db "13" in
  models.Status <$> repository.referrals samples.db !! 3%nat = Some "rejected"
  ∧ handlers.response out
    = handlers.respondJSON 200 [("message", "referral marked as paid")]
  ∧ models.Status <$> repository.referrals (handlers.store out) !! 3%nat = Some "paid".
Proof. by vm_compute. Qed.

(** The payout endpoint decodes its body without validating it: the
    status "pending" is accepted and puts an approved payout back. *)
Example approved_payout_set_pending :
  let out := @router.patch_payouts samples.ext (Some samples.root_claims) samples.db "21"
               (Some {| models.NewPayoutStatus := "pending" |}) in
  handlers.response out
  = handlers.respondJSON 200 [("message", "payout status updated")]
  ∧ models.PStatus <$> repository.payouts (handlers.store out) !! 1%nat = Some "pending".
Proof. by vm_compute. Qed.

(** A status outside the table's CHECK constraint is refused by the
    store and surfaces as 500; a referral id that no row carries is 404. *)
Example referral_status_outside_check :
  handlers.response
    (@router.patch_referrals_status samples.ext (Some samples.root_claims) samples.db "10"
       (Some {| models.NewStatus := "PAID" |}))
  = handlers.respondError 500 "failed to update referral status"
  ∧ handlers.response
      (@router.patch_referrals_status samples.ext (Some samples.root_claims) samples.db "99"
         (Some {| models.NewStatus := "paid" |}))
    = handlers.respondError 404 "referral not found".
Proof. by vm_compute. Qed.

(** A registration whose referral code resolves: the referrer is
    recorded and earns the flat commission in one copy of the handler
    and ten percent of the course price in the other. *)
Example referred_registration_earnings :
  let req := {| models.StudentName := "Grace"; models.StudentEmail := "grace@example.com";
                models.StudentPhone := "0801"; models.StudentCourse := "Web Development";
                models.StudentReferralCode := "ADA-1A2B3C" |} in
  let row1 := repository.referrals
                (handlers.store (@handlers.flat.RegisterStudent samples.ext
                                   "root@example.com" samples.db 50 (Some req))) !! 4%nat in
  let row2 := repository.referrals
                (handlers.store (@handlers.percentage.RegisterStudent samples.ext
                                   "root@example.com" samples.db 50 (Some req))) !! 4%nat in
  (models.ReferrerID <$> row1) = Some (Some 2%N)
  ∧ (models.Earnings <$> row1) = Some 10000
  ∧ (models.CoursePrice <$> row1) = Some 750000
  ∧ (models.ReferrerID <$> row2) = Some (Some 2%N)
  ∧ (models.Earnings <$> row2) = Some 15000
  ∧ (models.CoursePrice <$> row2) = Some 150000.
Proof. by vm_compute. Qed.

(** * Properties of the further functions *)

Section issued_tokens.

Lemma issued_access_token (j : utils.JWTManager) (issued now : Z) (userID : UUID)
    (email role : string) :
  utils.ValidateAccessToken j now (utils.GenerateAccessToken j issued userID email role)
  = if now <? utils.NewNumericDate (issued + utils.accessExpiry j)
    then Ok {| utils.UserID := userID; utils.Email := email; utils.Role := role;
               utils.Type_ := utils.AccessToken;
               utils.ExpiresAt := Some (utils.NewNumericDate (issued + utils.accessExpiry j));
               utils.NotBefore := None;
               utils.IssuedAt := Some (utils.NewNumericDate issued);
               utils.Issuer := "cirvee-referral" |}
    else Err ErrExpiredToken.
Proof.
  unfold utils.ValidateAccessToken. rewrite validateToken_eq. cbn.
  rewrite bool_decide_eq_true_2 by done. unfold utils.expired. cbn.
  by destruct (now <? _).
Qed.

Lemma issued_refresh_token (j : utils.JWTManager) (issued now : Z) (userID : UUID)
    (email role : string) :
  utils.ValidateRefreshToken j now (utils.GenerateRefreshToken j issued userID email role)
  = if now <? utils.NewNumericDate (issued + utils.refreshExpiry j)
    then Ok {| utils.UserID := userID; utils.Email := email; utils.Role := role;
               utils.Type_ := utils.RefreshToken;
               utils.ExpiresAt := Some (utils.NewNumericDate (issued + utils.refreshExpiry j));
               utils.NotBefore := None;
               utils.IssuedAt := Some (utils.NewNumericDate issued);
               utils.Issuer := "cirvee-referral" |}
    else Err ErrExpiredToken.
Proof.
  unfold utils.ValidateRefreshToken. rewrite validateToken_eq. cbn.
  rewrite bool_decide_eq_true_2 by done. unfold utils.expired. cbn.
  by destruct (now <? _).
Qed.

End issued_tokens.


(** X2: an access token issued by a manager whose access secret differs
    from the validating manager's is refused with the generic
    invalid-token error at every instant, also after its expiry. *)
Theorem token_of_other_manager_refused (j1 j2 : utils.JWTManager) (issued now : Z)
    (userID : UUID) (email role : string) :
  utils.accessSecret j1 ≠ utils.accessSecret j2 →
  utils.ValidateAccessToken j2 now (utils.GenerateAccessToken j1 issued userID email role)
  = Err ErrInvalidToken.
Proof.
  intros Hne. unfold utils.ValidateAccessToken. rewrite validateToken_eq. cbn.
  by rewrite bool_decide_eq_false_2.
Qed.

Lemma token_of_other_manager_refused_sample :
  utils.ValidateAccessToken (utils.NewJWTManager "secret-2" "refresh-2" time.Hour time.Hour) 5
    (utils.GenerateAccessToken (utils.NewJWTManager "secret-1" "refresh-1" time.Hour time.Hour)
       0 7 "test@example.com" "user")
  = Err ErrInvalidToken.
Proof.
  apply (token_of_other_manager_refused
           (utils.NewJWTManager "secret-1" "refresh-1" time.Hour time.Hour)
           (utils.NewJWTManager "secret-2" "refresh-2" time.Hour time.Hour)).
  by vm_compute.
Defined.

Section random_strings.

Lemma rand_Read_take (rnd : list Byte.byte) (k n : nat) :
  (k ≤ n)%nat → take k (utils.rand_Read rnd n) = utils.rand_Read rnd k.
Proof.
  intros Hk. unfold utils.rand_Read. rewrite take_take, Nat.min_l by done.
  destruct (decide (k ≤ length rnd)%nat) as [Hlen | Hlen].
  - by rewrite !take_app_le.
  - rewrite !take_app_ge by lia. f_equal.
    rewrite !take_replicate. f_equal. lia.
Qed.

Lemma slice_encode_prefix (bs : list Byte.byte) (n : nat) :
  slice_to n (utils.EncodeToString bs)
  = slice_to n (utils.EncodeToString (take ((n + 1) / 2) bs)).
Proof.
  revert bs. induction (lt_wf n) as [n _ IH]. intros bs.
  destruct n as [|[|n]].
  - unfold slice_to. by destruct (utils.EncodeToString _), (utils.EncodeToString _).
  - destruct bs as [|b bs]; [done|]. cbn. unfold slice_to. cbn. done.
  - destruct bs as [|b bs].
    { by rewrite take_nil. }
    replace ((S (S n) + 1) / 2)%nat with (S ((n + 1) / 2)).
    2:{ replace (S (S n) + 1)%nat with ((n + 1) + 1 * 2)%nat by lia.
        rewrite Nat.div_add by done. lia. }
    cbn [take utils.EncodeToString]. unfold slice_to in *. cbn [substring].
    do 2 f_equal. apply IH. lia.
Qed.

Lemma lower_hex_digit n :
  (n < 16)%N → pkg.is_lower_hex (utils.hex_digit n) = true.
Proof.
  intros Hn.
  assert (Hcases : n ∈ (N.of_nat <$> seq 0 16)).
  { apply list_elem_of_fmap. exists (N.to_nat n). split; [lia|].
    apply list_elem_of_In, in_seq. lia. }
  cbn in Hcases.
  repeat (apply elem_of_cons in Hcases as [-> | Hcases]; [by vm_compute|]).
  by apply elem_of_nil in Hcases.
Qed.

Lemma EncodeToString_lower_hex bs :
  string_forallb pkg.is_lower_hex (utils.EncodeToString bs) = true.
Proof.
  induction bs as [|b bs IH]; [done|]. cbn [utils.EncodeToString string_forallb].
  destruct (byte_nibbles b) as [Hhi Hlo].
  by rewrite (lower_hex_digit _ Hhi), (lower_hex_digit _ Hlo), IH.
Qed.

End random_strings.

(** X3: for a length that is not negative, [GenerateRandomString]
    returns exactly that many characters, all of them lower-case
    hexadecimal digits, and the string is determined by the first
    half (rounded up) of the bytes it draws: two entropy sources that
    agree on that many bytes give the same string.  A negative length
    panics. *)
Theorem GenerateRandomString_shape (rnd : list Byte.byte) (length : Z) :
  (length < 0 → pkg.GenerateRandomString rnd length = None)
  ∧ (0 ≤ length →
     ∃ s, pkg.GenerateRandomString rnd length = Some s
          ∧ Z.of_nat (String.length s) = length
          ∧ string_forallb pkg.is_lower_hex s = true
          ∧ ∀ rnd',
              utils.rand_Read rnd' ((Z.to_nat length + 1) / 2)
              = utils.rand_Read rnd ((Z.to_nat length + 1) / 2) →
              pkg.GenerateRandomString rnd' length = Some s).
Proof.
  unfold pkg.GenerateRandomString. split.
  - intros Hneg. by rewrite (proj2 (Z.ltb_lt _ _) Hneg).
  - intros Hpos. rewrite (proj2 (Z.ltb_ge _ _) Hpos). eexists. split; [reflexivity|].
    set (n := Z.to_nat length).
    split.
    { rewrite slice_to_length, EncodeToString_length, rand_Read_length. lia. }
    split; [apply slice_to_forallb, EncodeToString_lower_hex|].
    intros rnd' Hsame. f_equal.
    rewrite (slice_encode_prefix (utils.rand_Read rnd' n)),
            (slice_encode_prefix (utils.rand_Read rnd n)).
    assert ((n + 1) / 2 ≤ n)%nat as Hhalf.
    { destruct n as [|n]; [done|]. apply Nat.Div0.div_le_upper_bound. lia. }
    by rewrite !rand_Read_take, Hsame.
Qed.

Lemma Split_space_nonempty (s : string) : pkg.Split_space s ≠ [].
Proof.
  destruct s as [|c s]; cbn; [done|].
  case_bool_decide; [done|]. by destruct (pkg.Split_space s).
Qed.

Lemma Split_space_one (s b : string) :
  pkg.Split_space s = [b] ↔ s = b ∧ pkg.no_space s = true.
Proof.
  revert b. induction s as [|c s IH]; intros b; cbn.
  - split; [by intros [= <-] | by intros [<- _]].
  - case_bool_decide as Hc; cbn.
    + split; [|by intros [_ ?]].
      intros [= _ Hs]. by destruct (Split_space_nonempty s).
    + pose proof (Split_space_nonempty s) as Hne.
      destruct (pkg.Split_space s) as [|h t] eqn:Hsplit; [done|].
      split.
      * intros [= <- ->]. destruct (IH h) as [[-> Hs] _]; done.
      * intros [<- Hs]. destruct (IH s) as [_ Hback].
        by specialize (Hback (conj eq_refl Hs)) as [= <- <-].
Qed.

Lemma Split_space_two (s a b : string) :
  pkg.Split_space s = [a; b]
  ↔ s = a +:+ " " +:+ b ∧ pkg.no_space a = true ∧ pkg.no_space b = true.
Proof.
  revert a. induction s as [|c s IH]; intros a; cbn.
  - split; [by intros [=]|]. intros [Hs _]. by destruct a.
  - case_bool_decide as Hc; cbn.
    + subst c. split.
      * intros [= <- Hs]. apply Split_space_one in Hs as [-> Hb]. done.
      * intros (Hs & Ha & Hb). destruct a as [|c a]; cbn in *.
        -- injection Hs as ->. f_equal. by apply Split_space_one.
        -- injection Hs as <- _. unfold pkg.no_space in Ha. cbn in Ha.
           by rewrite bool_decide_eq_true_2 in Ha.
    + pose proof (Split_space_nonempty s) as Hne.
      destruct (pkg.Split_space s) as [|h t] eqn:Hsplit; [done|].
      split.
      * intros [= <- ->]. destruct (IH h) as [(-> & Hh & Hb) _]; [done|].
        unfold pkg.no_space in *. cbn. by rewrite (bool_decide_eq_false_2 (c = _)), Hh.
      * intros (Hs & Ha & Hb). destruct a as [|c' a]; cbn in *.
        -- injection Hs as -> _. done.
        -- injection Hs as <- ->. destruct (IH a) as [_ Hback].
           apply andb_prop in Ha as [_ Ha].
           by specialize (Hback (conj eq_refl (conj Ha Hb))) as [= <- <-].
Qed.

Lemma Authenticate_cases `{Runtime} (j : utils.JWTManager) (now : Z)
    (authHeader : string) :
  (∀ claims,
     pkg.AuthMiddleware.Authenticate j now authHeader = pkg.Passed claims
     ↔ ∃ token, authHeader = "Bearer " +:+ token
                ∧ pkg.no_space token = true
                ∧ utils.ValidateAccessToken j now (token_of_string token) = Ok claims)
  ∧ (∀ r, pkg.AuthMiddleware.Authenticate j now authHeader = pkg.Denied r →
          ∃ text, r = handlers.Respond 401 (handlers.PlainText text)).
Proof.
  unfold pkg.AuthMiddleware.Authenticate. split.
  - intros claims. case_bool_decide as Hempty.
    { subst. split; [done|]. by intros (token & ? & _). }
    destruct (pkg.Split_space authHeader) as [|scheme [|token [|? ?]]] eqn:Hsplit.
    + split; [done|]. intros (token & -> & Htok & _).
      destruct (Split_space_two ("Bearer " +:+ token) "Bearer" token) as [_ Hback].
      rewrite Hback in Hsplit; done.
    + split; [done|]. intros (token & -> & Htok & _).
      destruct (Split_space_two ("Bearer " +:+ token) "Bearer" token) as [_ Hback].
      rewrite Hback in Hsplit; done.
    + apply Split_space_two in Hsplit as (-> & Hscheme & Htok).
      case_bool_decide as Hbearer.
      * split; [done|]. intros (token' & Heq & Htok' & _).
        destruct (Split_space_two (scheme +:+ " " +:+ token) "Bearer" token') as [_ Hback].
        specialize (Hback (conj Heq (conj eq_refl Htok'))).
        destruct (Split_space_two (scheme +:+ " " +:+ token) scheme token) as [_ Hfwd].
        specialize (Hfwd (conj eq_refl (conj Hscheme Htok))). congruence.
      * subst scheme. split.
        -- destruct (utils.ValidateAccessToken j now (token_of_string token)) as [c|e] eqn:Hv.
           ++ intros [= <-]. by exists token.
           ++ by case_bool_decide.
        -- intros (token' & Heq & Htok' & Hv).
           assert (token' = token) as -> by (simpl in Heq; by simplify_eq).
           by rewrite Hv.
    + split; [done|]. intros (token' & -> & Htok & _).
      destruct (Split_space_two ("Bearer " +:+ token') "Bearer" token') as [_ Hback].
      rewrite Hback in Hsplit; done.
  - intros r. unfold middleware.plain_error.
    repeat (case_bool_decide || case_match); intros [= <-]; by eexists.
Qed.

Lemma validateToken_Ok (now : Z) (tok : utils.TokenString) (secret : string)
    (ty : utils.TokenType) (c : utils.Claims) :
  utils.validateToken now tok secret ty = Ok c →
  utils.Type_ c = ty ∧ utils.expired c now = false.
Proof.
  rewrite validateToken_eq.
  destruct tok as [raw | alg c' | [] c' [k|]]; try done.
  repeat case_bool_decide; try done;
    destruct (utils.expired c' now) eqn:He, (utils.not_valid_yet c' now);
    try done; by intros [= <-].
Qed.

(** X4: the authentication stage lets a request through exactly when
    its Authorization header is the word Bearer, one space, and a token
    without a space that validates as an access token at that instant;
    the claims put in the context are those of the token.  Every other
    request is answered with 401. *)
Theorem Authenticate_passes_iff `{Runtime} (j : utils.JWTManager) (now : Z)
    (authHeader : string) :
  (∀ claims,
     pkg.AuthMiddleware.Authenticate j now authHeader = pkg.Passed claims
     ↔ ∃ token, authHeader = "Bearer " +:+ token
                ∧ pkg.no_space token = true
                ∧ utils.ValidateAccessToken j now (token_of_string token) = Ok claims)
  ∧ (∀ r, pkg.AuthMiddleware.Authenticate j now authHeader = pkg.Denied r →
          ∃ text, r = handlers.Respond 401 (handlers.PlainText text)).
Proof. apply Authenticate_cases. Qed.

(** X5: a handler mounted behind authentication and a role check runs
    only with claims of an unexpired access token whose role is exactly
    the required one.  A request that does not authenticate is answered
    with 401, one that authenticates with any other role (an
    administrator on a user route included) with 403 "forbidden", and in
    both cases the store is left as it was. *)
Theorem guarded_route_outcomes `{Runtime} (j : utils.JWTManager) (role : models.Role)
    (authHeader : string) (d : repository.DB)
    (next : utils.Claims → handlers.Outcome) :
  let out := pkg.AuthMiddleware.guarded j role authHeader d next in
  (∃ text, out = handlers.reply (handlers.Respond 401 (handlers.PlainText text)) d
           ∧ ∀ c, pkg.AuthMiddleware.Authenticate j (repository.clock d) authHeader
                  ≠ pkg.Passed c)
  ∨ (∃ c, pkg.AuthMiddleware.Authenticate j (repository.clock d) authHeader = pkg.Passed c
          ∧ utils.Role c ≠ role
          ∧ out = handlers.reply (middleware.plain_error 403 "forbidden") d)
  ∨ (∃ c, pkg.AuthMiddleware.Authenticate j (repository.clock d) authHeader = pkg.Passed c
          ∧ utils.Role c = role
          ∧ utils.Type_ c = utils.AccessToken
          ∧ utils.expired c (repository.clock d) = false
          ∧ out = next c).
Proof.
  intros out. unfold out, pkg.AuthMiddleware.guarded.
  destruct (pkg.AuthMiddleware.Authenticate j (repository.clock d) authHeader)
    as [r | c] eqn:Hauth.
  - left. destruct (Authenticate_cases j (repository.clock d) authHeader) as [_ Hden].
    destruct (Hden r Hauth) as [text ->]. by exists text.
  - right. unfold middleware.RequireRole. case_bool_decide as Hrole.
    + left. by exists c.
    + right. exists c.
      destruct (Authenticate_cases j (repository.clock d) authHeader) as [Hpass _].
      apply Hpass in Hauth as (token & _ & _ & Hv).
      apply validateToken_Ok in Hv as [Hty Hexp]. done.
Qed.

Example admin_token_on_user_route :
  @pkg.AuthMiddleware.guarded more_samples.rt samples.manager models.RoleUser
    "Bearer root-token" samples.db (λ c, handlers.reply handlers.Panic samples.db)
  = handlers.reply (middleware.plain_error 403 "forbidden") samples.db.
Proof.
  destruct (@guarded_route_outcomes more_samples.rt samples.manager models.RoleUser
              "Bearer root-token" samples.db (λ c, handlers.reply handlers.Panic samples.db))
    as [(text & _ & Hnone) | [(c & _ & _ & Hout) | (c & Hpass & Hrole & _)]].
  - exfalso. by eapply Hnone.
  - exact Hout.
  - exfalso. vm_compute in Hpass. injection Hpass as <-. by vm_compute in Hrole.
Defined.

Section substrings.

Lemma string_app_nil_r (t : string) : t +:+ EmptyString = t.
Proof.
  induction t as [|c t IH]; [done|].
  change (String c (t +:+ EmptyString) = String c t). by rewrite IH.
Qed.

Lemma substring_here (t post : string) :
  substring 0 (String.length t) (t +:+ post) = t.
Proof.
  induction t as [|c t IH]; [by destruct post|].
  change (String c (substring 0 (String.length t) (t +:+ post)) = String c t).
  by rewrite IH.
Qed.

Lemma substring_skip (pre s : string) (n : nat) :
  substring (String.length pre) n (pre +:+ s) = substring 0 n s.
Proof. induction pre as [|c pre IH]; [done | apply IH]. Qed.

Lemma substring_prefix (s t : string) :
  substring 0 (String.length t) s = t → ∃ post, s = t +:+ post.
Proof.
  revert s. induction t as [|c t IH]; intros s.
  - intros _. by exists s.
  - destruct s as [|c' s]; [done|].
    change (String c' (substring 0 (String.length t) s) = String c t → ∃ post,
              String c' s = String c (t +:+ post)).
    intros [= -> Hs]. destruct (IH s Hs) as [post ->]. by exists post.
Qed.

Lemma substring_found (s t : string) (i : nat) :
  (i + String.length t ≤ String.length s)%nat →
  substring i (String.length t) s = t →
  ∃ pre post, s = pre +:+ t +:+ post ∧ String.length pre = i.
Proof.
  revert s. induction i as [|i IH]; intros s Hlen Hsub.
  - destruct (substring_prefix s t Hsub) as [post ->]. by exists EmptyString, post.
  - destruct s as [|c s]; [simpl in Hlen; lia|].
    change (substring i (String.length t) s = t) in Hsub.
    destruct (IH s) as (pre & post & -> & Hpre); [simpl in Hlen; lia | done |].
    exists (String c pre), post. split; [done|]. simpl. by rewrite Hpre.
Qed.

Lemma containsHelper_loop_true (s t : string) (i steps : nat) :
  pkg.containsHelper_loop s t i steps = true
  ↔ ∃ k, (i ≤ k < i + steps)%nat ∧ substring k (String.length t) s = t.
Proof.
  revert i. induction steps as [|steps IH]; intros i; cbn.
  - split; [done|]. intros (k & ? & _). lia.
  - case_bool_decide as Hhere.
    + split; [|done]. intros _. exists i. split; [lia | done].
    + rewrite IH. split.
      * intros (k & Hk & Hsub). exists k. split; [lia | done].
      * intros (k & Hk & Hsub). exists k. split; [|done].
        destruct (decide (k = i)) as [-> | ?]; [done | lia].
Qed.

Lemma contains_true (s t : string) :
  pkg.contains s t = true ↔ ∃ pre post, s = pre +:+ t +:+ post.
Proof.
  unfold pkg.contains, pkg.containsHelper. split.
  - intros [Hlen Hrest]%andb_prop. apply Nat.leb_le in Hlen.
    apply orb_prop in Hrest as [Heq | [_ Hloop]%andb_prop].
    + apply bool_decide_eq_true in Heq as ->. exists EmptyString, EmptyString.
      change (t = t +:+ EmptyString). by rewrite string_app_nil_r.
    + destruct (_ <? 0) eqn:Hneg; [done|]. apply Z.ltb_ge in Hneg.
      apply containsHelper_loop_true in Hloop as (k & Hk & Hsub).
      destruct (substring_found s t k) as (pre & post & -> & _); [lia | done |].
      by exists pre, post.
  - intros (pre & post & ->).
    rewrite !string_app_length.
    apply andb_true_intro. split; [apply Nat.leb_le; lia|].
    destruct (decide (pre +:+ t +:+ post = t)) as [Heq | Hne].
    { by rewrite bool_decide_eq_true_2. }
    rewrite bool_decide_eq_false_2 by done. cbn [orb].
    apply andb_true_intro. split.
    { apply Nat.ltb_lt. destruct pre, t, post; simpl in *; try done; lia. }
    destruct (_ <? 0) eqn:Hneg; [apply Z.ltb_lt in Hneg; lia|].
    apply containsHelper_loop_true. exists (String.length pre). split; [lia|].
    by rewrite substring_skip, substring_here.
Qed.

End substrings.

(** X6: [contains] is the substring test: it answers true exactly when
    the second string occurs somewhere in the first, the empty string
    occurring in every string (the empty one included). *)
Theorem contains_iff_substring (s substr : string) :
  (pkg.contains s substr = true ↔ ∃ pre post, s = pre +:+ substr +:+ post)
  ∧ pkg.contains s "" = true.
Proof.
  split; [apply contains_true|]. apply contains_true. by exists EmptyString, s.
Qed.

(** X7: a driver error counts as a duplicate key exactly when its
    message contains "duplicate key" or "unique constraint" (the test
    for the one exact message adds nothing); a nil error never does,
    and the unique-constraint violations the store reports, whatever
    the constraint is called, always do. *)
Theorem isDuplicateKeyError_iff (msg constraint : string) :
  (pkg.isDuplicateKeyError (Some msg) = true
   ↔ (∃ pre post, msg = pre +:+ "duplicate key" +:+ post)
     ∨ (∃ pre post, msg = pre +:+ "unique constraint" +:+ post))
  ∧ pkg.isDuplicateKeyError None = false
  ∧ pkg.isDuplicateKeyError (Some (pkg.unique_violation constraint)) = true.
Proof.
  assert (Hiff : ∀ m, pkg.isDuplicateKeyError (Some m) = true
     ↔ (∃ pre post, m = pre +:+ "duplicate key" +:+ post)
       ∨ (∃ pre post, m = pre +:+ "unique constraint" +:+ post)).
  { intros m. unfold pkg.isDuplicateKeyError. rewrite !orb_true_iff, !contains_true.
    split; [|tauto]. intros [[Hexact | ?] | ?]; [|tauto..].
    apply bool_decide_eq_true in Hexact as ->. left.
    by exists "ERROR: ", " value violates unique constraint". }
  split; [apply Hiff|]. split; [done|].
  apply Hiff. left. exists "ERROR: ".
  by exists (" value violates unique constraint " +:+ dq +:+ constraint +:+ dq
             +:+ " (SQLSTATE 23505)").
Qed.

Section accounts.
Import models repository.
Context `{External} `{Runtime}.

Lemma existsb_bool_decide_false {A B} `{EqDecision B} (f : A → B) (b : B) (l : list A) :
  existsb (λ a, bool_decide (f a = b)) l = false ↔ b ∉ (f <$> l).
Proof.
  induction l as [|a l IH]; cbn.
  - split; [intros _; apply not_elem_of_nil|done].
  - rewrite orb_false_iff, IH, not_elem_of_cons, bool_decide_eq_false.
    split; intros [? ?]; split; congruence.
Qed.

Lemma existsb_bool_decide_true {A B} `{EqDecision B} (f : A → B) (b : B) (l : list A) :
  existsb (λ a, bool_decide (f a = b)) l = true ↔ b ∈ (f <$> l).
Proof.
  destruct (existsb _ l) eqn:E.
  - split; [intros _|done]. destruct (decide (b ∈ f <$> l)) as [|Hn]; [done|].
    apply existsb_bool_decide_false in Hn. congruence.
  - apply existsb_bool_decide_false in E. split; [done|]. intros; contradiction.
Qed.

Lemma find_bool_decide_fresh {A B} `{EqDecision B} (f : A → B) (a : A) (l : list A) :
  f a ∉ (f <$> l) →
  find (λ x, bool_decide (f x = f a)) (l ++ [a]) = Some a.
Proof.
  induction l as [|x l IH]; cbn; intros Hn.
  - by rewrite bool_decide_eq_true_2.
  - apply not_elem_of_cons in Hn as [Hx Hn].
    rewrite bool_decide_eq_false_2 by done. by apply IH.
Qed.

Lemma unique_code_eq (d : DB) (name referralCode : string)
    (samples : list (list Byte.byte)) :
  pkg.AuthService.unique_code d name referralCode samples
  = if up d
    then (λ c, if pkg.pg_text c then Ok c else Err (ErrDriver pkg.invalid_byte_sequence))
           <$> find (pkg.code_stops d)
                 (referralCode :: ((λ r, utils.GenerateReferralCode r name) <$> samples))
    else Some (Err unavailable).
Proof.
  revert referralCode. induction samples as [|rnd rest IH]; intros c;
    cbn [pkg.AuthService.unique_code fmap list_fmap find];
    unfold pkg.UserRepository.ExistsByReferralCode, pkg.code_stops;
    fold (pkg.code_taken d c); destruct (up d) eqn:Hup; cbn [negb]; try done.
  - destruct (pkg.pg_text c) eqn:Hc; cbn [negb orb]; [|by cbn; rewrite Hc].
    destruct (pkg.code_taken d c); cbn; [done|by rewrite Hc].
  - destruct (pkg.pg_text c) eqn:Hc; cbn [negb orb]; [|by cbn; rewrite Hc].
    destruct (pkg.code_taken d c); cbn [negb]; [|by cbn; rewrite Hc].
    by rewrite IH.
Qed.

(** What the coercion of a row leaves as it is. *)
Lemma users_row_Stored (u row : User) :
  pkg.users_row u = pkg.Stored row →
  ID row = ID u ∧ IsBlocked row = IsBlocked u
  ∧ CreatedAt row = CreatedAt u ∧ UpdatedAt row = UpdatedAt u
  ∧ pkg.varchar 255 (Email u) = pkg.Stored (Email row)
  ∧ pkg.varchar 255 (PasswordHash u) = pkg.Stored (PasswordHash row)
  ∧ pkg.varchar 20 (UserRole u) = pkg.Stored (UserRole row)
  ∧ pkg.varchar 50 (ReferralCode u) = pkg.Stored (ReferralCode row).
Proof.
  unfold pkg.users_row. destruct (negb _); [done|].
  destruct (pkg.varchar 255 (Email u)) as [email|]; [|done].
  destruct (pkg.varchar 255 (PasswordHash u)) as [hash|]; [|done].
  destruct (pkg.varchar 255 (Name u)) as [name|]; [|done].
  destruct (pkg.varchar 50 (Phone u)) as [phone|]; [|done].
  destruct (pkg.varchar 20 (UserRole u)) as [role|]; [|done].
  destruct (pkg.varchar 100 (BankName u)) as [bank|]; [|done].
  destruct (pkg.varchar 20 (AccountNumber u)) as [number|]; [|done].
  destruct (pkg.varchar 255 (AccountName u)) as [aname|]; [|done].
  destruct (pkg.varchar 50 (ReferralCode u)) as [code|]; [|done].
  cbn. by intros [= <-].
Qed.

Lemma users_row_times (u : User) (now : Z) :
  pkg.users_row (pkg.set_user_times u now)
  = match pkg.users_row u with
    | pkg.Stored row => pkg.Stored (pkg.set_user_times row now)
    | pkg.Refused msg => pkg.Refused msg
    end.
Proof.
  unfold pkg.users_row. cbn [pkg.set_user_times Email PasswordHash Name Phone UserRole
    BankName AccountNumber AccountName ReferralCode ID IsBlocked CreatedAt UpdatedAt].
  destruct (negb _); [done|].
  destruct (pkg.varchar 255 (Email u)) as [email|]; [|done].
  destruct (pkg.varchar 255 (PasswordHash u)) as [hash|]; [|done].
  destruct (pkg.varchar 255 (Name u)) as [name|]; [|done].
  destruct (pkg.varchar 50 (Phone u)) as [phone|]; [|done].
  destruct (pkg.varchar 20 (UserRole u)) as [role|]; [|done].
  destruct (pkg.varchar 100 (BankName u)) as [bank|]; [|done].
  destruct (pkg.varchar 20 (AccountNumber u)) as [number|]; [|done].
  destruct (pkg.varchar 255 (AccountName u)) as [aname|]; [|done].
  destruct (pkg.varchar 50 (ReferralCode u)) as [code|]; [|done].
  done.
Qed.

(** A value without trailing spaces is stored as it is or refused. *)
Lemma varchar_stripped (n : nat) (s s' : string) :
  pkg.strip_spaces s = s → pkg.varchar n s = pkg.Stored s' → s' = s.
Proof.
  unfold pkg.varchar. intros ->.
  destruct (RuneCountInString s <=? n)%nat; [|done]. by intros [= <-].
Qed.

Lemma Create_outcome (d : DB) (user : User) (r : result User) (d' : DB) :
  pkg.UserRepository.Create d user = (r, d') →
  (d' = d ∧ ∃ e, r = Err e)
  ∨ (∃ row,
       up d = true
       ∧ pkg.users_row user = pkg.Stored row
       ∧ r = Ok (pkg.set_user_times user (clock d))
       ∧ d' = with_users d (users d ++ [pkg.set_user_times row (clock d)])
       ∧ pkg.users_role_check (UserRole row) = true
       ∧ (ID row ∉ (ID <$> users d))
       ∧ (Email row ∉ (Email <$> users d))
       ∧ (ReferralCode row ∉ (ReferralCode <$> users d))).
Proof.
  unfold pkg.UserRepository.Create, user_exists.
  assert (Hfailed : ∀ msg : string,
            (if pkg.isDuplicateKeyError (Some msg)
             then (Err ErrUserExists, d) else (Err (ErrDriver msg), d)) = (r, d') →
            d' = d ∧ ∃ e, r = Err e).
  { intros msg. destruct (pkg.isDuplicateKeyError _); intros [= <- <-]; eauto. }
  cbv zeta.
  destruct (up d); cbn [negb]; [|intros Hr; left; by apply Hfailed in Hr].
  destruct (pkg.users_row user) as [row|msg]; [|intros Hr; left; by apply Hfailed in Hr].
  destruct (pkg.users_role_check _) eqn:Hrole; cbn [negb];
    [|intros Hr; left; by apply Hfailed in Hr].
  destruct (existsb (λ u, bool_decide (ID u = _)) _) eqn:E1;
    [intros Hr; left; by apply Hfailed in Hr|].
  destruct (existsb (λ u, bool_decide (Email u = _)) _) eqn:E2;
    [intros Hr; left; by apply Hfailed in Hr|].
  destruct (existsb (λ u, bool_decide (ReferralCode u = _)) _) eqn:E3;
    [intros Hr; left; by apply Hfailed in Hr|].
  intros [= <- <-]. right. exists row.
  apply existsb_bool_decide_false in E1, E2, E3. by repeat (split; [done|]).
Qed.

Lemma Create_Ok (d : DB) (user row : User) :
  up d = true →
  pkg.users_row user = pkg.Stored row →
  pkg.users_role_check (UserRole row) = true →
  ID row ∉ (ID <$> users d) →
  Email row ∉ (Email <$> users d) →
  ReferralCode row ∉ (ReferralCode <$> users d) →
  pkg.UserRepository.Create d user
  = (Ok (pkg.set_user_times user (clock d)),
     with_users d (users d ++ [pkg.set_user_times row (clock d)])).
Proof.
  intros Hup Hrow Hrole H1 H2 H3.
  apply existsb_bool_decide_false in H1, H2, H3.
  unfold pkg.UserRepository.Create, user_exists. cbv zeta.
  by rewrite Hup, Hrow, Hrole, H1, H2, H3.
Qed.

Lemma Register_Ok (j : utils.JWTManager) (d : DB) (salt rnd : list Byte.byte)
    (samples : list (list Byte.byte)) (newID : UUID) (req : pkg.RegisterRequest)
    (resp : AuthResponse) (d' : DB) :
  pkg.AuthService.Register j d salt rnd samples newID req = Some (Ok resp, d')
  ↔ ∃ hash code row,
      up d = true
      ∧ pkg.pg_text (pkg.RegEmail req) = true
      ∧ (pkg.RegEmail req ∉ (Email <$> users d))
      ∧ HashPassword salt (pkg.RegPassword req) = Ok hash
      ∧ find (pkg.code_stops d) (pkg.candidates (pkg.RegName req) rnd samples) = Some code
      ∧ pkg.pg_text code = true
      ∧ pkg.users_row (pkg.new_account req newID hash code (clock d)) = pkg.Stored row
      ∧ (newID ∉ (ID <$> users d))
      ∧ (Email row ∉ (Email <$> users d))
      ∧ (ReferralCode row ∉ (ReferralCode <$> users d))
      ∧ resp = {| AccessToken :=
                    utils.GenerateAccessToken j (clock d) newID (pkg.RegEmail req) RoleUser;
                  RefreshToken :=
                    utils.GenerateRefreshToken j (clock d) newID (pkg.RegEmail req) RoleUser;
                  AuthUser := pkg.new_account req newID hash code (clock d) |}
      ∧ d' = with_users d (users d ++ [row]).
Proof.
  unfold pkg.AuthService.Register, pkg.UserRepository.ExistsByEmail.
  rewrite unique_code_eq. unfold pkg.candidates. rewrite fmap_cons.
  destruct (up d) eqn:Hup; cbn [negb];
    [|split; [done|intros (? & ? & ? & ? & _); done]].
  destruct (pkg.pg_text (pkg.RegEmail req)) eqn:Htext; cbn [negb];
    [|split; [done|intros (? & ? & ? & _ & ? & _); done]].
  destruct (existsb _ (users d)) eqn:Hemail.
  { split; [done|]. intros (hash & code & row & _ & _ & Hn & _).
    apply existsb_bool_decide_false in Hn. congruence. }
  apply existsb_bool_decide_false in Hemail.
  destruct (HashPassword salt _) as [hash|e] eqn:Hhash;
    [|split; [done|intros (? & ? & ? & _ & _ & _ & ? & _); done]].
  destruct (find _ _) as [code|] eqn:Hfind; cbn [fmap option_fmap option_map];
    [|split; [done|intros (? & ? & ? & _ & _ & _ & _ & ? & _); done]].
  destruct (pkg.pg_text code) eqn:Hcode.
  2:{ split; [done|]. intros (? & code' & ? & _ & _ & _ & _ & [= <-] & ? & _). congruence. }
  match goal with |- context [pkg.UserRepository.Create d ?u] => set (user := u) end.
  assert (Hrows : ∀ row,
            pkg.users_row (pkg.new_account req newID hash code (clock d)) = pkg.Stored row
            ↔ ∃ row0, pkg.users_row user = pkg.Stored row0
                      ∧ row = pkg.set_user_times row0 (clock d)).
  { intros row.
    change (pkg.new_account req newID hash code (clock d))
      with (pkg.set_user_times user (clock d)).
    rewrite users_row_times. destruct (pkg.users_row user) as [row0|msg].
    - split; [intros [= <-]; eauto|]. by intros (? & [= <-] & ->).
    - split; [done|]. by intros (? & ? & _). }
  destruct (pkg.UserRepository.Create d user) as [r d1] eqn:Hcreate.
  split.
  - apply Create_outcome in Hcreate
      as [[-> [e ->]]|(row0 & _ & Hrow0 & -> & -> & _ & Hid & Hmail & Hcd)]; [done|].
    intros [= <- <-]. exists hash, code, (pkg.set_user_times row0 (clock d)).
    apply users_row_Stored in Hrow0 as Hkeep. destruct Hkeep as (Hid0 & _).
    rewrite Hid0 in Hid.
    split; [done|]. split; [done|]. split; [done|]. split; [done|]. split; [done|].
    split; [done|]. split; [apply Hrows; eauto|]. by repeat (split; [done|]).
  - intros (hash' & code' & row & _ & _ & _ & [= <-] & [= <-] & _ & Hrow & Hid & Hmail
            & Hcd & -> & ->).
    apply Hrows in Hrow as (row0 & Hrow0 & ->).
    apply users_row_Stored in Hrow0 as Hkeep.
    destruct Hkeep as (Hid0 & _ & _ & _ & _ & _ & Hrole & _).
    apply varchar_stripped in Hrole; [|done].
    rewrite (Create_Ok d user row0) in Hcreate; try done.
    + by injection Hcreate as <- <-.
    + by rewrite Hrole.
    + by rewrite Hid0.
Qed.

Lemma Register_store (j : utils.JWTManager) (d : DB) (salt rnd : list Byte.byte)
    (samples : list (list Byte.byte)) (newID : UUID) (req : pkg.RegisterRequest)
    (e : error) (d' : DB) :
  pkg.AuthService.Register j d salt rnd samples newID req = Some (Err e, d') → d' = d.
Proof.
  unfold pkg.AuthService.Register.
  destruct (pkg.UserRepository.ExistsByEmail _ _) as [[]|]; try by intros [= _ <-].
  destruct (HashPassword _ _); try by intros [= _ <-].
  destruct (pkg.AuthService.unique_code _ _ _ _) as [[code|]|]; try by intros [= _ <-].
  destruct (pkg.UserRepository.Create _ _) as [[u|e'] d1] eqn:Hcreate; [done|].
  intros [= _ <-]. by apply Create_outcome in Hcreate as [[-> _]|(? & _ & _ & ? & _)].
Qed.

Lemma keys_unique_snoc (d : DB) (u : User) :
  pkg.users_keys_unique d →
  ID u ∉ (ID <$> users d) →
  Email u ∉ (Email <$> users d) →
  ReferralCode u ∉ (ReferralCode <$> users d) →
  pkg.users_role_check (UserRole u) = true →
  pkg.users_keys_unique (with_users d (users d ++ [u])).
Proof.
  intros (H1 & H2 & H3 & H4) Hid Hemail Hcode Hrole.
  unfold pkg.users_keys_unique. cbn. rewrite !fmap_app. cbn.
  repeat split.
  - apply NoDup_app. split; [done|]. split; [|apply NoDup_singleton].
    intros x Hx ->%list_elem_of_singleton. done.
  - apply NoDup_app. split; [done|]. split; [|apply NoDup_singleton].
    intros x Hx ->%list_elem_of_singleton. done.
  - apply NoDup_app. split; [done|]. split; [|apply NoDup_singleton].
    intros x Hx ->%list_elem_of_singleton. done.
  - apply Forall_app. split; [done|]. apply Forall_singleton.
    unfold pkg.users_role_check in Hrole. apply bool_decide_eq_true in Hrole.
    rewrite !elem_of_cons in Hrole.
    destruct Hrole as [?|[?|?%elem_of_nil]]; [by left|by right|done].
Qed.

Lemma keys_unique_fmap (d : DB) (f : User → User) :
  (∀ u, ID (f u) = ID u ∧ Email (f u) = Email u ∧ ReferralCode (f u) = ReferralCode u
        ∧ UserRole (f u) = UserRole u) →
  pkg.users_keys_unique d → pkg.users_keys_unique (with_users d (f <$> users d)).
Proof.
  intros Hf (H1 & H2 & H3 & H4). unfold pkg.users_keys_unique. cbn.
  rewrite <- !list_fmap_compose.
  rewrite (list_fmap_ext (ID ∘ f) ID (users d)) by (intros; cbn; apply Hf).
  rewrite (list_fmap_ext (Email ∘ f) Email (users d)) by (intros; cbn; apply Hf).
  rewrite (list_fmap_ext (ReferralCode ∘ f) ReferralCode (users d))
    by (intros; cbn; apply Hf).
  repeat split; try done.
  apply Forall_fmap. eapply Forall_impl; [exact H4|].
  intros u Hu. cbn. by rewrite (proj2 (proj2 (proj2 (Hf u)))).
Qed.

Lemma Create_keeps_keys (d : DB) (user : User) (r : result User) (d' : DB) :
  pkg.users_keys_unique d →
  pkg.UserRepository.Create d user = (r, d') → pkg.users_keys_unique d'.
Proof.
  intros Hd [[-> _]|(row & _ & _ & _ & -> & Hrole & Hid & Hemail & Hcode)]%Create_outcome;
    [done|].
  by apply keys_unique_snoc.
Qed.

End accounts.

(** X8: the search for a referral code in Register stops at the first
    candidate, in the order the entropy source delivers them, that no
    account carries or that the store does not accept as text (the
    three-byte prefix can cut a character of the name in two): it
    returns the former and fails with the driver's error at the latter.
    It also fails when the store is unreachable, and it goes on exactly
    as long as every candidate so far is well-formed and taken. *)
Theorem unique_code_first_free `{External} (d : repository.DB) (name : string)
    (rnd : list Byte.byte) (samples : list (list Byte.byte)) :
  pkg.AuthService.unique_code d name (utils.GenerateReferralCode rnd name) samples
  = (if repository.up d
     then (λ c, if pkg.pg_text c then Ok c else Err (ErrDriver pkg.invalid_byte_sequence))
            <$> find (pkg.code_stops d) (pkg.candidates name rnd samples)
     else Some (Err repository.unavailable))
  ∧ (pkg.AuthService.unique_code d name (utils.GenerateReferralCode rnd name) samples = None
     ↔ repository.up d = true
       ∧ ∀ c, c ∈ pkg.candidates name rnd samples →
              pkg.pg_text c = true ∧ pkg.code_taken d c = true).
Proof.
  rewrite unique_code_eq. unfold pkg.candidates. rewrite fmap_cons.
  split; [done|]. destruct (repository.up d); [|split; [done|by intros [? _]]].
  set (l := _ :: _). clearbody l. split.
  - intros Hnone. split; [done|]. intros c Hc.
    destruct (find _ l) as [c'|] eqn:Hfind; [done|].
    apply list_elem_of_In in Hc.
    pose proof (find_none _ _ Hfind c Hc) as Hgoes. unfold pkg.code_stops in Hgoes.
    apply orb_false_iff in Hgoes as [Htext Htaken].
    by apply negb_false_iff in Htext, Htaken.
  - intros [_ Hall]. destruct (find _ l) as [c'|] eqn:Hfind; [|done].
    apply find_some in Hfind as [Hin Hstops]. apply list_elem_of_In in Hin.
    destruct (Hall c' Hin) as [Htext Htaken]. unfold pkg.code_stops in Hstops.
    by rewrite Htext, Htaken in Hstops.
Qed.

(** A name that begins with two two-byte characters: the prefix of its
    referral code ends inside the second one, the store refuses the
    code as text, and the registration fails. *)
Example Register_split_character :
  pkg.pg_text (@utils.GenerateReferralCode samples.ext samples.entropy "éé") = false
  ∧ @pkg.AuthService.Register samples.ext more_samples.rt samples.manager samples.db
      [] samples.entropy [] 50
      {| pkg.RegEmail := "eve@example.com"; pkg.RegPassword := "eve-password";
         pkg.RegName := "éé"; pkg.RegPhone := "0802"; pkg.RegBankName := "";
         pkg.RegAccountNumber := ""; pkg.RegAccountName := "" |}
    = Some (Err (ErrDriver pkg.invalid_byte_sequence), samples.db).
Proof. split; by vm_compute. Qed.

(** X9: registering with an e-mail address that an account already
    carries fails with the e-mail-exists error before any password is
    hashed or referral code drawn, whatever the randomness; the handler
    answers 409 with the message for it, sends no welcome mail, and the
    store is unchanged. *)
Theorem Register_email_taken `{External} `{Runtime} (j : utils.JWTManager)
    (d : repository.DB) (salt rnd : list Byte.byte) (samples : list (list Byte.byte))
    (newID : UUID) (req : pkg.RegisterRequest) :
  repository.up d = true →
  pkg.pg_text (pkg.RegEmail req) = true →
  pkg.RegEmail req ∈ (models.Email <$> repository.users d) →
  pkg.validate_RegisterRequest req = [] →
  pkg.AuthService.Register j d salt rnd samples newID req
  = Some (Err ErrEmailAlreadyExists, d)
  ∧ pkg.AuthHandler.Register j d salt rnd samples newID (Some req)
    = Some {| pkg.reply := pkg.respondError 409 "email already exists";
              pkg.tasks := []; pkg.db := d |}.
Proof.
  intros Hup Htext Hemail Hvalid.
  assert (Hreg : pkg.AuthService.Register j d salt rnd samples newID req
                 = Some (Err ErrEmailAlreadyExists, d)).
  { unfold pkg.AuthService.Register, pkg.UserRepository.ExistsByEmail.
    apply existsb_bool_decide_true in Hemail. by rewrite Hup, Htext, Hemail. }
  split; [done|]. unfold pkg.AuthHandler.Register. by rewrite Hvalid, Hreg.
Qed.

Lemma Register_email_taken_sample :
  @pkg.AuthService.Register samples.ext more_samples.rt samples.manager samples.db
    [] samples.entropy [] 50 more_samples.second_ada
  = Some (Err ErrEmailAlreadyExists, samples.db)
  ∧ @pkg.AuthHandler.Register samples.ext more_samples.rt samples.manager samples.db
      [] samples.entropy [] 50 (Some more_samples.second_ada)
    = Some {| pkg.reply := pkg.respondError 409 "email already exists";
              pkg.tasks := []; pkg.db := samples.db |}.
Proof.
  apply (@Register_email_taken samples.ext more_samples.rt samples.manager samples.db
           [] samples.entropy [] 50 more_samples.second_ada).
  - reflexivity.
  - reflexivity.
  - by vm_compute; repeat constructor.
  - by vm_compute.
Defined.

(** X10: Register succeeds exactly when the store is reachable, the
    e-mail address is well-formed text that no account carries, the
    password can be hashed, the search for a referral code ends at a
    well-formed free candidate, the columns can store the new row (a
    value is cut to the width of its column when only spaces are lost,
    and refused when more would be), the new id is fresh and the stored
    e-mail address and code collide with no account.  It then appends
    that one row and nothing else, an account of role user that is not
    blocked, and answers with the account as it was sent and tokens
    issued for it. *)
Theorem Register_new_account `{External} `{Runtime} (j : utils.JWTManager)
    (d : repository.DB) (salt rnd : list Byte.byte) (samples : list (list Byte.byte))
    (newID : UUID) (req : pkg.RegisterRequest) (resp : models.AuthResponse)
    (d' : repository.DB) :
  pkg.AuthService.Register j d salt rnd samples newID req = Some (Ok resp, d')
  ↔ ∃ hash code row,
      repository.up d = true
      ∧ pkg.pg_text (pkg.RegEmail req) = true
      ∧ (pkg.RegEmail req ∉ (models.Email <$> repository.users d))
      ∧ HashPassword salt (pkg.RegPassword req) = Ok hash
      ∧ find (pkg.code_stops d) (pkg.candidates (pkg.RegName req) rnd samples) = Some code
      ∧ pkg.pg_text code = true
      ∧ pkg.users_row (pkg.new_account req newID hash code (repository.clock d))
        = pkg.Stored row
      ∧ (newID ∉ (models.ID <$> repository.users d))
      ∧ (models.Email row ∉ (models.Email <$> repository.users d))
      ∧ (models.ReferralCode row ∉ (models.ReferralCode <$> repository.users d))
      ∧ resp = {| models.AccessToken :=
                    utils.GenerateAccessToken j (repository.clock d) newID
                      (pkg.RegEmail req) models.RoleUser;
                  models.RefreshToken :=
                    utils.GenerateRefreshToken j (repository.clock d) newID
                      (pkg.RegEmail req) models.RoleUser;
                  models.AuthUser :=
                    pkg.new_account req newID hash code (repository.clock d) |}
      ∧ d' = repository.with_users d (repository.users d ++ [row]).
Proof. apply Register_Ok. Qed.

(** X11: the registration handler answers 201 exactly when the service
    has created the account, and only then queues a welcome mail (one,
    to the new account); every other answer is 400, 409 or 500, queues
    nothing and leaves the store as it was. *)
Theorem Register_handler_outcomes `{External} `{Runtime} (j : utils.JWTManager)
    (d : repository.DB) (salt rnd : list Byte.byte) (samples : list (list Byte.byte))
    (newID : UUID) (body : option pkg.RegisterRequest) (out : pkg.Result) :
  pkg.AuthHandler.Register j d salt rnd samples newID body = Some out →
  (∃ req resp,
     body = Some req
     ∧ pkg.validate_RegisterRequest req = []
     ∧ pkg.AuthService.Register j d salt rnd samples newID req = Some (Ok resp, pkg.db out)
     ∧ pkg.reply out = {| pkg.Code := 201; pkg.Content := pkg.Auth resp |}
     ∧ pkg.tasks out = [pkg.SendWelcomeEmail (pkg.RegEmail req) (pkg.RegName req)])
  ∨ (pkg.Code (pkg.reply out) ∈ [400; 409; 500]
     ∧ (∃ message, pkg.Content (pkg.reply out) = pkg.ErrorMessage message)
     ∧ pkg.tasks out = []
     ∧ pkg.db out = d).
Proof.
  unfold pkg.AuthHandler.Register. destruct body as [req|].
  2:{ intros [= <-]. right. cbn. repeat split; [set_solver|eauto]. }
  destruct (pkg.validate_RegisterRequest req) eqn:Hvalid.
  2:{ intros [= <-]. right. cbn. repeat split; [set_solver|eauto]. }
  destruct (pkg.AuthService.Register _ _ _ _ _ _ _) as [[[resp|e] d']|] eqn:Hreg; [| |done].
  - intros [= <-]. left. exists req, resp. cbn. repeat split; try done.
    apply Register_Ok in Hreg
      as (hash & code & row & _ & _ & _ & _ & _ & _ & _ & _ & _ & _ & -> & _). done.
  - apply Register_store in Hreg as ->.
    destruct (bool_decide _); intros [= <-]; right; cbn;
      (repeat split; [set_solver|eauto]).
Qed.

Lemma Register_handler_outcomes_sample :
  ∃ out,
    @pkg.AuthHandler.Register samples.ext more_samples.rt samples.manager samples.db
      [] samples.entropy [] 50 (Some more_samples.newcomer) = Some out
    ∧ pkg.Code (pkg.reply out) = 201
    ∧ pkg.tasks out = [pkg.SendWelcomeEmail "eve@example.com" "Eve"]
    ∧ length (repository.users (pkg.db out)) = 4%nat.
Proof.
  eexists. split; [by vm_compute|].
  destruct (@Register_handler_outcomes samples.ext more_samples.rt samples.manager
              samples.db [] samples.entropy [] 50 (Some more_samples.newcomer) _ eq_refl)
    as [(req & resp & _ & _ & _ & _ & _)|(_ & _ & Htasks & _)].
  - by vm_compute.
  - by vm_compute in Htasks.
Defined.

(** X12: every write to the users table keeps what the table
    guarantees: ids, e-mail addresses and referral codes stay pairwise
    distinct and every role is admin or user, through the insertion (on
    its own, through Register and through the seeding of the
    administrator) and through the updates of profile, password and
    blocked flag. *)
Theorem users_keys_stay_unique `{External} `{Runtime} (d : repository.DB) :
  pkg.users_keys_unique d →
  (∀ user r d', pkg.UserRepository.Create d user = (r, d') → pkg.users_keys_unique d')
  ∧ (∀ j salt rnd samples newID req r d',
       pkg.AuthService.Register j d salt rnd samples newID req = Some (r, d') →
       pkg.users_keys_unique d')
  ∧ (∀ salt rnd newID cfg, pkg.users_keys_unique (pkg.ensureAdminExists d salt rnd newID cfg))
  ∧ (∀ user, pkg.users_keys_unique (pkg.UserRepository.Update d user).2)
  ∧ (∀ userID hash, pkg.users_keys_unique (pkg.UserRepository.UpdatePassword d userID hash).2)
  ∧ (∀ userID blocked,
       pkg.users_keys_unique (repository.UserRepository.UpdateStatus d userID blocked).2).
Proof.
  intros Hd. split; [|split; [|split; [|split; [|split]]]].
  - intros user r d'. by apply Create_keeps_keys.
  - intros j salt rnd samples newID req r d'. unfold pkg.AuthService.Register.
    destruct (pkg.UserRepository.ExistsByEmail _ _) as [[]|]; try by intros [= _ <-].
    destruct (HashPassword _ _); try by intros [= _ <-].
    destruct (pkg.AuthService.unique_code _ _ _ _) as [[code|]|]; try by intros [= _ <-].
    destruct (pkg.UserRepository.Create _ _) as [[u|e'] d1] eqn:Hcreate;
      intros [= _ <-]; by eapply Create_keeps_keys.
  - intros salt rnd newID cfg. unfold pkg.ensureAdminExists, pkg.AuthService.CreateAdmin.
    destruct (_ || _); [done|].
    destruct (pkg.UserRepository.ExistsByEmail _ _) as [[]|]; try done.
    destruct (HashPassword _ _); [|done].
    destruct (pkg.UserRepository.Create _ _) as [r d1] eqn:Hcreate.
    by eapply Create_keeps_keys.
  - intros user. unfold pkg.UserRepository.Update.
    destruct (negb (repository.up d)); [done|].
    destruct (pkg.profile_row user) as [row|]; [|done].
    destruct (negb (repository.user_exists _ _)); [done|]. cbn.
    apply keys_unique_fmap; [|done]. intros u. by destruct (bool_decide _).
  - intros userID hash. unfold pkg.UserRepository.UpdatePassword.
    destruct (negb (repository.up d)); [done|].
    destruct (negb (pkg.pg_text hash)); [done|].
    destruct (pkg.varchar 255 hash) as [stored|]; [|done].
    destruct (negb (repository.user_exists _ _)); [done|]. cbn.
    apply keys_unique_fmap; [|done]. intros u. by destruct (bool_decide _).
  - intros userID blocked. unfold repository.UserRepository.UpdateStatus.
    destruct (negb (repository.up d)); [done|].
    destruct (negb (repository.user_exists _ _)); [done|]. cbn.
    apply keys_unique_fmap; [|done]. intros u. by destruct (bool_decide _).
Qed.

Lemma users_keys_stay_unique_sample :
  pkg.users_keys_unique samples.db
  ∧ ∃ d',
      snd <$> @pkg.AuthService.Register samples.ext more_samples.rt samples.manager
                samples.db [] samples.entropy [] 50 more_samples.newcomer = Some d'
      ∧ length (repository.users d') = 4%nat
      ∧ pkg.users_keys_unique d'.
Proof.
  assert (Hdb : pkg.users_keys_unique samples.db).
  { unfold pkg.users_keys_unique. cbn.
    repeat split; [apply (bool_decide_unpack _); by vm_compute ..|].
    repeat constructor; by vm_compute. }
  split; [exact Hdb|]. eexists. split; [by vm_compute|]. split; [reflexivity|].
  destruct (@users_keys_stay_unique samples.ext more_samples.rt samples.db Hdb)
    as (_ & Hregister & _).
  eapply (Hregister samples.manager [] samples.entropy [] 50%N more_samples.newcomer).
  by vm_compute.
Defined.

(** X13: an account that has just been registered can log in: when the
    row has been stored as it was sent (no column has cut a value) and
    the password check accepts a password against the hash made from
    it, Login with the e-mail address and password of a successful
    Register finds the new account, and at the same instant returns the
    very answer Register gave. *)
Theorem Register_then_Login `{External} `{Runtime} (j : utils.JWTManager)
    (d : repository.DB) (salt rnd : list Byte.byte) (samples : list (list Byte.byte))
    (newID : UUID) (req : pkg.RegisterRequest) (resp : models.AuthResponse)
    (d' : repository.DB) :
  (∀ hash, HashPassword salt (pkg.RegPassword req) = Ok hash →
           CheckPassword (pkg.RegPassword req) hash = true) →
  pkg.AuthService.Register j d salt rnd samples newID req = Some (Ok resp, d') →
  repository.users d' = (repository.users d ++ [models.AuthUser resp])%list →
  services.AuthService.Login j d'
    {| models.LoginEmail := pkg.RegEmail req; models.LoginPassword := pkg.RegPassword req |}
  = Ok resp.
Proof.
  intros Hcheck (hash & code & row & Hup & _ & Hemail & Hhash & _ & _ & _ & _ & _ & _
                 & -> & ->)%Register_Ok Hsent.
  cbn in Hsent. apply app_inj_tail in Hsent as [_ ->].
  unfold services.AuthService.Login, repository.UserRepository.GetByEmail. cbn.
  rewrite Hup. cbn.
  set (u := pkg.new_account req newID hash code (repository.clock d)).
  rewrite (find_bool_decide_fresh models.Email u (repository.users d) Hemail). cbn.
  by rewrite (Hcheck hash Hhash).
Qed.

Lemma Register_then_Login_sample :
  ∃ resp d',
    @pkg.AuthService.Register samples.ext more_samples.rt samples.manager samples.db
      [] samples.entropy [] 50 more_samples.newcomer = Some (Ok resp, d')
    ∧ @services.AuthService.Login samples.ext samples.manager d'
        {| models.LoginEmail := "eve@example.com";
           models.LoginPassword := "eve-password" |}
      = Ok resp.
Proof.
  eexists _, _. split; [by vm_compute|].
  apply (@Register_then_Login samples.ext more_samples.rt samples.manager samples.db
           [] samples.entropy [] 50 more_samples.newcomer).
  - intros hash [= <-]. reflexivity.
  - by vm_compute.
  - reflexivity.
Defined.

Section reset_tokens.
Import models repository.

Lemma reset_Create_Ok (d : DB) (newID : UUID) (rnd : option (list Byte.byte))
    (userID : UUID) (expiry : Z) (t : PasswordResetToken) (d' : DB) :
  ResetTokenRepository.Create d newID rnd userID expiry = (Ok t, d')
  ↔ ∃ bs,
      rnd = Some bs ∧ up d = true
      ∧ (newID ∉ (TokID <$> filter (λ x, TokUserID x ≠ userID) (password_reset_tokens d)))
      ∧ t = {| TokID := newID; TokUserID := userID;
               TokenValue := utils.EncodeToString (utils.rand_Read bs 32);
               TokExpiresAt := clock d + expiry; TokCreatedAt := clock d |}
      ∧ d' = with_tokens d
               (filter (λ x, TokUserID x ≠ userID) (password_reset_tokens d) ++ [t]).
Proof.
  unfold ResetTokenRepository.Create, GenerateToken, token_exists.
  destruct rnd as [bs|]; [|split; [done|by intros (? & ? & _)]].
  destruct (up d) eqn:Hup; cbn; [|split; [by rewrite Hup|by intros (? & _ & ? & _)]].
  rewrite Hup. cbn.
  destruct (existsb _ _) eqn:Hex.
  - split; [done|]. intros (bs' & _ & _ & Hfresh & _).
    apply existsb_bool_decide_false in Hfresh. congruence.
  - apply existsb_bool_decide_false in Hex. split.
    + intros [= <- <-]. by exists bs.
    + intros (bs' & [= <-] & _ & _ & -> & ->). done.
Qed.

Lemma filter_filter_neg {A} (P : A → Prop) `{∀ x, Decision (P x)} (l : list A) :
  filter P (filter (λ x, ¬ P x) l) = [].
Proof.
  induction l as [|a l IH]; [done|].
  rewrite (filter_cons (λ x, ¬ P x)). destruct (decide (¬ P a)) as [Hn|Hn]; [|done].
  rewrite filter_cons. by destruct (decide (P a)).
Qed.


Lemma filter_idemp {A} (P : A → Prop) `{∀ x, Decision (P x)} (l : list A) :
  filter P (filter P l) = filter P l.
Proof.
  induction l as [|a l IH]; [done|].
  rewrite (filter_cons P a l). destruct (decide (P a)) as [Hp|Hn]; [|done].
  rewrite filter_cons. destruct (decide (P a)); [by f_equal|done].
Qed.

Lemma find_filtered_out {A B} `{EqDecision B} (f : A → B) (b : B) (l : list A) :
  find (λ x, bool_decide (f x = b)) (filter (λ x, f x ≠ b) l) = None.
Proof.
  induction l as [|a l IH]; [done|].
  rewrite filter_cons. destruct (decide (f a ≠ b)) as [Hn|Hn]; [|done].
  cbn. by rewrite bool_decide_eq_false_2.
Qed.

Lemma find_filter_keeps {A} (p : A → bool) (Q : A → Prop) `{∀ x, Decision (Q x)}
    (l : list A) (a : A) :
  find p l = Some a → Q a → find p (filter Q l) = Some a.
Proof.
  induction l as [|x l IH]; [done|]. cbn [find]. intros Hf Hq.
  destruct (p x) eqn:Hp.
  - injection Hf as ->. rewrite filter_cons, decide_True by done. cbn [find].
    by rewrite Hp.
  - rewrite filter_cons. destruct (decide (Q x)); [cbn [find]; rewrite Hp|]; by apply IH.
Qed.

Lemma GetByToken_Ok (d : DB) (token : string) (t : PasswordResetToken) :
  pkg.ResetTokenRepository.GetByToken d token = Ok t
  ↔ up d = true
    ∧ pkg.pg_text token = true
    ∧ find (λ x, bool_decide (TokenValue x = token)) (password_reset_tokens d) = Some t
    ∧ clock d ≤ TokExpiresAt t.
Proof.
  unfold pkg.ResetTokenRepository.GetByToken.
  destruct (up d); cbn [negb]; [|split; [done|by intros [? _]]].
  destruct (pkg.pg_text token); cbn [negb]; [|split; [done|by intros (_ & ? & _)]].
  destruct (find _ _) as [x|]; [|split; [done|by intros (_ & _ & ? & _)]].
  destruct (Z.ltb_spec (TokExpiresAt x) (clock d)).
  - split; [done|]. intros (_ & _ & [= ->] & ?). lia.
  - split; [intros [= ->]; by repeat split|by intros (_ & _ & [= ->] & _)].
Qed.




End reset_tokens.

(** X14: a password-reset token that has been created is the only one
    of its user: the tokens the user had before are gone, those of
    other users are as they were.  The token expires [expiry] after the
    instant of its creation and its value is 64 lower-case hexadecimal
    digits. *)
Theorem reset_token_one_per_user (d : repository.DB) (newID : UUID)
    (rnd : option (list Byte.byte)) (userID : UUID) (expiry : Z)
    (t : repository.PasswordResetToken) (d' : repository.DB) :
  repository.ResetTokenRepository.Create d newID rnd userID expiry = (Ok t, d') →
  filter (λ x, repository.TokUserID x = userID) (repository.password_reset_tokens d') = [t]
  ∧ filter (λ x, repository.TokUserID x ≠ userID) (repository.password_reset_tokens d')
    = filter (λ x, repository.TokUserID x ≠ userID) (repository.password_reset_tokens d)
  ∧ repository.TokExpiresAt t = repository.clock d + expiry
  ∧ String.length (repository.TokenValue t) = 64%nat
  ∧ string_forallb pkg.is_lower_hex (repository.TokenValue t) = true.
Proof.
  intros (bs & _ & _ & _ & -> & ->)%reset_Create_Ok. cbn.
  rewrite !filter_app, !filter_cons, !filter_nil. cbn.
  rewrite decide_True by done. rewrite decide_False by (by intros ?).
  rewrite (filter_filter_neg (λ x, repository.TokUserID x = userID)).
  rewrite (filter_idemp (λ x, repository.TokUserID x ≠ userID)), app_nil_r.
  repeat split; try done.
  - by rewrite EncodeToString_length, rand_Read_length.
  - apply EncodeToString_lower_hex.
Qed.

Lemma reset_token_one_per_user_sample :
  ∃ t d',
    repository.ResetTokenRepository.Create samples.db 70 (Some samples.entropy) 2 time.Hour
    = (Ok t, d')
    ∧ repository.password_reset_tokens d' = [t]
    ∧ repository.TokExpiresAt t = 100 + time.Hour.
Proof.
  eexists _, _. split; [reflexivity|].
  destruct (reset_token_one_per_user samples.db 70 (Some samples.entropy) 2 time.Hour
              _ _ eq_refl) as (_ & _ & Hexp & _).
  split; [reflexivity|exact Hexp].
Defined.




Section reset_password.
Import models repository.
Context `{External} `{Runtime}.

Lemma ResetPassword_accepted (d : DB) (salt : list Byte.byte)
    (req : pkg.ResetPasswordRequest) (t : PasswordResetToken) (hashed hash : string) :
  pkg.validate_ResetPasswordRequest req = [] →
  pkg.ResetTokenRepository.GetByToken d (pkg.ResetToken req) = Ok t →
  user_exists d (TokUserID t) = true →
  HashPassword salt (pkg.NewPassword req) = Ok hashed →
  pkg.pg_text hashed = true →
  pkg.varchar 255 hashed = pkg.Stored hash →
  pkg.AuthHandler.ResetPassword d salt (Some req)
  = pkg.answer
      {| pkg.Code := 200; pkg.Content := pkg.Message "Password has been reset successfully" |}
      (with_tokens
         (with_users d
            ((λ u, if bool_decide (ID u = TokUserID t)
                   then pkg.set_password (clock d) hash u else u) <$> users d))
         (filter (λ x, TokenValue x ≠ pkg.ResetToken req) (password_reset_tokens d))).
Proof.
  intros Hvalid Hget Hexists Hhash Htext Hfits.
  unfold pkg.AuthHandler.ResetPassword. rewrite Hvalid, Hget.
  unfold pkg.AuthService.UpdatePassword. rewrite Hhash.
  unfold pkg.UserRepository.UpdatePassword. rewrite Htext, Hfits, Hexists.
  apply GetByToken_Ok in Hget as (Hup & Htoken & _). rewrite Hup. cbn [negb].
  unfold pkg.ResetTokenRepository.DeleteByToken.
  cbn [repository.up repository.with_users]. rewrite Hup, Htoken. by cbn.
Qed.

Lemma ResetPassword_unknown_token (d : DB) (salt : list Byte.byte)
    (req : pkg.ResetPasswordRequest) :
  pkg.validate_ResetPasswordRequest req = [] →
  up d = true →
  pkg.pg_text (pkg.ResetToken req) = true →
  find (λ x, bool_decide (TokenValue x = pkg.ResetToken req)) (password_reset_tokens d)
  = None →
  pkg.AuthHandler.ResetPassword d salt (Some req)
  = pkg.answer (pkg.respondError 400 "invalid or expired reset token") d.
Proof.
  intros Hvalid Hup Htext Hfind. unfold pkg.AuthHandler.ResetPassword.
  rewrite Hvalid. unfold pkg.ResetTokenRepository.GetByToken.
  by rewrite Hup, Htext, Hfind.
Qed.

End reset_password.

(** X16: a reset token works once.  A validated request whose token is
    found and has not expired, for a user that exists, is answered with
    200 when the hash of the new password is text the column can store:
    the password hash of that user, and of no other, becomes the stored
    hash, and every token with that value is deleted.  The same request
    sent again is answered with 400 "invalid or expired reset token"
    and changes nothing. *)
Theorem ResetPassword_single_use `{External} `{Runtime} (d : repository.DB)
    (salt salt' : list Byte.byte) (req : pkg.ResetPasswordRequest)
    (t : repository.PasswordResetToken) (hashed hash : string) :
  pkg.validate_ResetPasswordRequest req = [] →
  pkg.ResetTokenRepository.GetByToken d (pkg.ResetToken req) = Ok t →
  repository.user_exists d (repository.TokUserID t) = true →
  HashPassword salt (pkg.NewPassword req) = Ok hashed →
  pkg.pg_text hashed = true →
  pkg.varchar 255 hashed = pkg.Stored hash →
  let out := pkg.AuthHandler.ResetPassword d salt (Some req) in
  pkg.reply out
  = {| pkg.Code := 200; pkg.Content := pkg.Message "Password has been reset successfully" |}
  ∧ repository.users (pkg.db out)
    = ((λ u, if bool_decide (models.ID u = repository.TokUserID t)
             then pkg.set_password (repository.clock d) hash u else u)
         <$> repository.users d)
  ∧ repository.password_reset_tokens (pkg.db out)
    = filter (λ x, repository.TokenValue x ≠ pkg.ResetToken req)
        (repository.password_reset_tokens d)
  ∧ pkg.AuthHandler.ResetPassword (pkg.db out) salt' (Some req)
    = pkg.answer (pkg.respondError 400 "invalid or expired reset token") (pkg.db out).
Proof.
  intros Hvalid Hget Hexists Hhash Htext Hfits out. subst out.
  rewrite (ResetPassword_accepted d salt req t hashed hash) by done. cbn.
  repeat split. apply ResetPassword_unknown_token; [done| | |].
  - by apply GetByToken_Ok in Hget as (Hup & _ & _).
  - by apply GetByToken_Ok in Hget as (_ & Htoken & _).
  - cbn. apply (find_filtered_out repository.TokenValue).
Qed.

Lemma ResetPassword_single_use_sample :
  pkg.reply (@pkg.AuthHandler.ResetPassword samples.ext more_samples.rt
               more_samples.db_with_tokens [] (Some more_samples.reset_request))
  = {| pkg.Code := 200; pkg.Content := pkg.Message "Password has been reset successfully" |}
  ∧ models.PasswordHash
      <$> repository.users
            (pkg.db (@pkg.AuthHandler.ResetPassword samples.ext more_samples.rt
                       more_samples.db_with_tokens [] (Some more_samples.reset_request)))
    = ["root-password"; "new-password"; "bob-password"]
  ∧ length (repository.password_reset_tokens
              (pkg.db (@pkg.AuthHandler.ResetPassword samples.ext more_samples.rt
                         more_samples.db_with_tokens [] (Some more_samples.reset_request))))
    = 1%nat.
Proof.
  destruct (@ResetPassword_single_use samples.ext more_samples.rt
              more_samples.db_with_tokens [] [] more_samples.reset_request
              {| repository.TokID := 61; repository.TokUserID := 2;
                 repository.TokenValue := "a1b2"; repository.TokExpiresAt := 3700;
                 repository.TokCreatedAt := 100 |}
              "new-password" "new-password" eq_refl eq_refl eq_refl eq_refl eq_refl eq_refl)
    as (Hreply & Husers & Htokens & _).
  split; [exact Hreply|]. split; [by rewrite Husers|by rewrite Htokens].
Defined.



(** X18: on a reachable store the clean-up of reset tokens keeps
    exactly the tokens whose expiry has not passed, in their order;
    every token the lookup accepted before is accepted after, no lookup
    reports an expired token any more, and no other table changes. *)
Theorem CleanupExpired_keeps_live (d : repository.DB) :
  repository.up d = true →
  (∀ t, t ∈ repository.password_reset_tokens (pkg.ResetTokenRepository.CleanupExpired d).2
        ↔ t ∈ repository.password_reset_tokens d
          ∧ repository.clock d ≤ repository.TokExpiresAt t)
  ∧ (∀ token t,
       pkg.ResetTokenRepository.GetByToken d token = Ok t →
       pkg.ResetTokenRepository.GetByToken (pkg.ResetTokenRepository.CleanupExpired d).2 token
       = Ok t)
  ∧ (∀ token,
       pkg.ResetTokenRepository.GetByToken (pkg.ResetTokenRepository.CleanupExpired d).2 token
       ≠ Err ErrTokenExpired)
  ∧ repository.users (pkg.ResetTokenRepository.CleanupExpired d).2 = repository.users d
  ∧ repository.referrals (pkg.ResetTokenRepository.CleanupExpired d).2
    = repository.referrals d
  ∧ repository.payouts (pkg.ResetTokenRepository.CleanupExpired d).2 = repository.payouts d.
Proof.
  intros Hup. unfold pkg.ResetTokenRepository.CleanupExpired. rewrite Hup. cbn [negb snd].
  split; [|split; [|split]]; [| | |done].
  - intros t. cbn. rewrite list_elem_of_filter. split.
    + intros [Hlive Hin]. split; [done|lia].
    + intros [Hin Hlive]. split; [lia|done].
  - intros token t (_ & Htext & Hfind & Hlive)%GetByToken_Ok. apply GetByToken_Ok. cbn.
    split; [done|]. split; [done|]. split; [|done].
    apply (find_filter_keeps _ (λ x, ¬ repository.TokExpiresAt x < repository.clock d));
      [done|lia].
  - intros token. unfold pkg.ResetTokenRepository.GetByToken.
    cbn [repository.up repository.clock repository.password_reset_tokens
         repository.with_tokens].
    rewrite Hup. cbn [negb]. destruct (negb (pkg.pg_text token)); [done|].
    destruct (find _ _) as [t|] eqn:Hfind; [|done].
    apply find_some in Hfind as [Hin _].
    apply list_elem_of_In, list_elem_of_filter in Hin as [Hlive _].
    destruct (Z.ltb_spec (repository.TokExpiresAt t) (repository.clock d)); [lia|done].
Qed.

Lemma CleanupExpired_keeps_live_sample :
  repository.TokID
    <$> repository.password_reset_tokens
          (pkg.ResetTokenRepository.CleanupExpired more_samples.db_with_tokens).2
  = [61%N]
  ∧ pkg.ResetTokenRepository.GetByToken
      (pkg.ResetTokenRepository.CleanupExpired more_samples.db_with_tokens).2 "0000"
    ≠ Err ErrTokenExpired.
Proof.
  destruct (CleanupExpired_keeps_live more_samples.db_with_tokens eq_refl)
    as (_ & _ & Hnever & _).
  split; [reflexivity|apply Hnever].
Defined.

Section keyed_rows.

Lemma find_key_fmap {A B} `{EqDecision B} (f : A → B) (g : A → A) (l : list A) (a : A) :
  NoDup (f <$> l) → a ∈ l → (∀ x, f (g x) = f x) →
  find (λ x, bool_decide (f x = f a)) (g <$> l) = Some (g a).
Proof.
  intros Hnd Hin Hg. induction l as [|x l IH]; [by apply elem_of_nil in Hin|].
  rewrite fmap_cons in Hnd. apply NoDup_cons in Hnd as [Hx Hnd].
  cbn. rewrite Hg. apply elem_of_cons in Hin as [->|Hin].
  - by rewrite bool_decide_eq_true_2.
  - rewrite bool_decide_eq_false_2; [by apply IH|].
    intros Heq. apply Hx. rewrite Heq. apply list_elem_of_fmap. eauto.
Qed.

Lemma user_exists_elem (d : repository.DB) (u : models.User) :
  u ∈ repository.users d → repository.user_exists d (models.ID u) = true.
Proof.
  intros Hin. apply existsb_bool_decide_true, list_elem_of_fmap. eauto.
Qed.

End keyed_rows.

(** X19: blocking an account closes the login but not the refresh: for
    an account of a store with distinct keys that has just been
    blocked, Login is refused with the blocked-user error whatever the
    password, while RefreshToken with an unexpired refresh token of
    that account still answers with new tokens, issued for the e-mail
    address and role the store has for the account, and with the
    account shown as blocked; the handler answers 200. *)
Theorem refresh_survives_block `{External} `{Runtime} (j : utils.JWTManager)
    (d : repository.DB) (u : models.User) (issued : Z) (password body : string) :
  repository.up d = true →
  pkg.users_keys_unique d →
  u ∈ repository.users d →
  repository.clock d < utils.NewNumericDate (issued + utils.refreshExpiry j) →
  body ≠ "" →
  token_of_string body
  = utils.GenerateRefreshToken j issued (models.ID u) (models.Email u) (models.UserRole u) →
  let d' := (repository.UserRepository.UpdateStatus d (models.ID u) true).2 in
  let resp :=
    {| models.AccessToken :=
         utils.GenerateAccessToken j (repository.clock d) (models.ID u) (models.Email u)
           (models.UserRole u);
       models.RefreshToken :=
         utils.GenerateRefreshToken j (repository.clock d) (models.ID u) (models.Email u)
           (models.UserRole u);
       models.AuthUser := repository.set_blocked (repository.clock d) true u |} in
  services.AuthService.Login j d'
    {| models.LoginEmail := models.Email u; models.LoginPassword := password |}
  = Err ErrUserBlocked
  ∧ pkg.AuthService.RefreshToken j d' (token_of_string body) = Ok resp
  ∧ pkg.AuthHandler.RefreshToken j d' (Some {| pkg.RefreshTokenString := body |})
    = pkg.answer {| pkg.Code := 200; pkg.Content := pkg.Auth resp |} d'.
Proof.
  intros Hup (Hids & Hemails & _) Hin Hlive Hbody Htok d' resp.
  assert (Hd' : d' = repository.with_users d
                       ((λ v, if bool_decide (models.ID v = models.ID u)
                              then repository.set_blocked (repository.clock d) true v
                              else v) <$> repository.users d)).
  { subst d'. unfold repository.UserRepository.UpdateStatus.
    by rewrite Hup, (user_exists_elem d u Hin). }
  assert (Hrefresh : pkg.AuthService.RefreshToken j d' (token_of_string body) = Ok resp).
  { unfold pkg.AuthService.RefreshToken. rewrite Htok, issued_refresh_token.
    rewrite Hd'. cbn [repository.clock repository.with_users].
    destruct (Z.ltb_spec (repository.clock d)
                (utils.NewNumericDate (issued + utils.refreshExpiry j))); [|lia].
    cbn [utils.UserID]. unfold pkg.UserRepository.GetByID.
    cbn [repository.up repository.users repository.with_users]. rewrite Hup. cbn [negb].
    rewrite (find_key_fmap models.ID _ _ u Hids Hin)
      by (intros x; by destruct (bool_decide _)).
    by rewrite bool_decide_eq_true_2. }
  split; [|split; [done|]].
  - unfold services.AuthService.Login, repository.UserRepository.GetByEmail.
    rewrite Hd'. cbn [repository.up repository.users repository.with_users
                      models.LoginEmail].
    rewrite Hup. cbn [negb].
    rewrite (find_key_fmap models.Email _ _ u Hemails Hin)
      by (intros x; by destruct (bool_decide _)).
    by rewrite bool_decide_eq_true_2.
  - unfold pkg.AuthHandler.RefreshToken, pkg.validate_RefreshRequest, handlers.required.
    cbn [pkg.RefreshTokenString]. rewrite bool_decide_eq_false_2 by done. cbn.
    by rewrite Hrefresh.
Qed.

Lemma refresh_survives_block_sample :
  @services.AuthService.Login samples.ext samples.manager
    (repository.UserRepository.UpdateStatus samples.db 2 true).2
    {| models.LoginEmail := "ada@example.com"; models.LoginPassword := "ada-password" |}
  = Err ErrUserBlocked
  ∧ pkg.Code
      (pkg.reply
         (@pkg.AuthHandler.RefreshToken samples.ext more_samples.refresh_rt samples.manager
            (repository.UserRepository.UpdateStatus samples.db 2 true).2
            (Some {| pkg.RefreshTokenString := "ada-refresh" |})))
    = 200.
Proof.
  assert (Hdb : pkg.users_keys_unique samples.db).
  { unfold pkg.users_keys_unique. cbn.
    repeat split; [apply (bool_decide_unpack _); by vm_compute ..|].
    repeat constructor; by vm_compute. }
  assert (Hada : samples.ada ∈ repository.users samples.db).
  { cbn. apply list_elem_of_further, list_elem_of_here. }
  destruct (@refresh_survives_block samples.ext more_samples.refresh_rt samples.manager
              samples.db samples.ada 0 "ada-password" "ada-refresh"
              eq_refl Hdb Hada eq_refl) as (Hlogin & _ & Hhandler); [done|reflexivity|].
  split; [exact Hlogin|].
  exact (f_equal (λ out, pkg.Code (pkg.reply out)) Hhandler).
Defined.

Section balances.
Import models repository.

Lemma filter_fmap_stable {A} (P : A → Prop) `{∀ x, Decision (P x)} (g : A → A)
    (l : list A) :
  (∀ x, P (g x) ↔ P x) → filter P (g <$> l) = g <$> filter P l.
Proof.
  intros Hg. induction l as [|a l IH]; [done|].
  rewrite fmap_cons, !filter_cons.
  destruct (decide (P (g a))) as [Hp|Hn], (decide (P a)) as [Hp'|Hn'].
  - by rewrite fmap_cons, IH.
  - destruct Hn'. by apply Hg.
  - destruct Hn. by apply Hg.
  - done.
Qed.

Lemma filter_fmap_fixed {A} (P : A → Prop) `{∀ x, Decision (P x)} (g : A → A)
    (l : list A) :
  (∀ x, P (g x) ↔ P x) → (∀ x, P x → g x = x) → filter P (g <$> l) = filter P l.
Proof.
  intros Hg Hfix. rewrite filter_fmap_stable by done.
  induction l as [|a l IH]; [done|]. rewrite filter_cons.
  destruct (decide (P a)) as [Hp|Hn]; [|done]. by rewrite fmap_cons, IH, Hfix.
Qed.

Lemma settle_referrer (referrerID : UUID) (r : Referral) :
  ReferrerID (pkg.settle referrerID r) = ReferrerID r.
Proof. unfold pkg.settle. by destruct (_ && _). Qed.

Lemma settled_earnings (referrerID : UUID) (rows : list Referral) :
  Forall (λ r, ReferrerID r = Some referrerID) rows →
  pkg.earnings_in "paid" (pkg.settle referrerID <$> rows)
  = pkg.earnings_in "paid" rows + pkg.earnings_in "pending" rows
  ∧ pkg.earnings_in "pending" (pkg.settle referrerID <$> rows) = 0.
Proof.
  induction 1 as [|r rows Hr _ [IHpaid IHpending]]; [done|].
  rewrite fmap_cons. cbn [pkg.earnings_in foldr].
  fold (pkg.earnings_in "paid" (pkg.settle referrerID <$> rows)).
  fold (pkg.earnings_in "pending" (pkg.settle referrerID <$> rows)).
  fold (pkg.earnings_in "paid" rows). fold (pkg.earnings_in "pending" rows).
  rewrite IHpaid, IHpending. unfold pkg.settle.
  rewrite (bool_decide_eq_true_2 _ Hr). cbn [andb].
  destruct (decide (Status r = "pending")) as [Hp|Hp].
  - rewrite (bool_decide_eq_true_2 _ Hp). cbn [set_status Status Earnings].
    rewrite (bool_decide_eq_true_2 ("paid" = "paid")) by done.
    rewrite (bool_decide_eq_false_2 ("paid" = "pending")) by done.
    rewrite (bool_decide_eq_false_2 (Status r = "paid")) by (by rewrite Hp).
    split; lia.
  - rewrite !(bool_decide_eq_false_2 _ Hp).
    destruct (bool_decide (Status r = "paid")); split; lia.
Qed.

End balances.

(** X20: the bulk payment moves the pending balance of a referrer to
    the paid one: when the statistics of the referrer were a count, a
    paid sum and a pending sum, they are afterwards the same count, the
    two sums added up, and zero pending (the query fails instead when
    the new paid sum leaves the range of int64); the statistics of
    every other referrer are as before. *)
Theorem bulk_payment_moves_balance (d : repository.DB) (referrerID other : UUID)
    (count paid pending : Z) :
  pkg.ReferralRepository.GetStatsByReferrer d referrerID = Ok (count, paid, pending) →
  pkg.ReferralRepository.GetStatsByReferrer
    (repository.ReferralRepository.MarkReferralsAsPaid d referrerID).2 referrerID
  = (if pkg.in_int64 (paid + pending) then Ok (count, paid + pending, 0)
     else Err (ErrDriver "numeric value out of range for int64"))
  ∧ (other ≠ referrerID →
     pkg.ReferralRepository.GetStatsByReferrer
       (repository.ReferralRepository.MarkReferralsAsPaid d referrerID).2 other
     = pkg.ReferralRepository.GetStatsByReferrer d other).
Proof.
  unfold pkg.ReferralRepository.GetStatsByReferrer,
    repository.ReferralRepository.MarkReferralsAsPaid.
  destruct (repository.up d) eqn:Hup; [|done]. cbn [negb snd repository.up
    repository.referrals repository.with_referrals]. rewrite Hup. cbn [negb].
  change (λ r, if bool_decide (models.ReferrerID r = Some referrerID)
                  && bool_decide (models.Status r = "pending")
               then repository.set_status "paid" r else r) with (pkg.settle referrerID).
  destruct (pkg.in_int64 (pkg.earnings_in "paid" _) && _) eqn:Hfits; [|done].
  intros [= <- <- <-]. split.
  - unfold pkg.referred_by.
    rewrite (filter_fmap_stable (λ r, models.ReferrerID r = Some referrerID))
      by (intros r; by rewrite settle_referrer).
    rewrite length_fmap.
    destruct (settled_earnings referrerID
                (filter (λ r, models.ReferrerID r = Some referrerID)
                   (repository.referrals d))) as [-> ->].
    { apply Forall_forall. by intros r [? _]%list_elem_of_filter. }
    change (pkg.in_int64 0) with true. by rewrite andb_true_r.
  - intros Hother. unfold pkg.referred_by.
    rewrite (filter_fmap_fixed (λ r, models.ReferrerID r = Some other)).
    + done.
    + intros r. by rewrite settle_referrer.
    + intros r Hr. unfold pkg.settle. rewrite bool_decide_eq_false_2; [done|].
      rewrite Hr. by intros [= ->].
Qed.

Lemma bulk_payment_moves_balance_sample :
  pkg.ReferralRepository.GetStatsByReferrer samples.db 2 = Ok (2, 10000, 10000)
  ∧ pkg.ReferralRepository.GetStatsByReferrer
      (repository.ReferralRepository.MarkReferralsAsPaid samples.db 2).2 2
    = Ok (2, 20000, 0).
Proof.
  split; [reflexivity|].
  apply (bulk_payment_moves_balance samples.db 2 3 2 10000 10000 eq_refl).
Defined.

Section clicks.
Import models repository.
Context `{External}.

Lemma click_count_snoc (clicks : list pkg.ReferralClick) (c : pkg.ReferralClick)
    (code : string) :
  pkg.click_count (clicks ++ [c]) code
  = pkg.click_count clicks code
    + (if bool_decide (pkg.ClickReferralCode c = code) then 1 else 0).
Proof.
  unfold pkg.click_count. rewrite filter_app, length_app, filter_cons, filter_nil.
  case_bool_decide as Hc.
  - rewrite decide_True by done. cbn. lia.
  - rewrite decide_False by done. cbn. lia.
Qed.

Lemma TrackClick_ip (r : middleware.Request) :
  (if bool_decide (middleware.Header_Get r "X-Forwarded-For" = "")
   then middleware.RemoteAddr r else middleware.Header_Get r "X-Forwarded-For")
  = middleware.clientIP r.
Proof.
  unfold middleware.clientIP. cbv zeta.
  by destruct (decide (middleware.Header_Get r "X-Forwarded-For" = ""));
    [rewrite bool_decide_eq_true_2, bool_decide_eq_false_2 by auto
    |rewrite bool_decide_eq_false_2, bool_decide_eq_true_2 by auto].
Qed.

Lemma TrackClick_cases (d : DB) (clicks : list pkg.ReferralClick)
    (r : middleware.Request) (body : option string) :
  (∃ sent code ip,
     body = Some sent ∧ sent ≠ "" ∧ up d = true
     ∧ forallb pkg.pg_text
         [sent; middleware.clientIP r; middleware.Header_Get r "User-Agent"] = true
     ∧ pkg.varchar 50 sent = pkg.Stored code
     ∧ pkg.varchar 45 (middleware.clientIP r) = pkg.Stored ip
     ∧ pkg.StudentHandler.TrackClick d clicks r body
       = ({| pkg.Code := 200; pkg.Content := pkg.Message "click recorded" |},
          (clicks ++ [{| pkg.ClickReferralCode := code; pkg.ClickUserID := None;
                         pkg.ClickIPAddress := ip;
                         pkg.ClickUserAgent := middleware.Header_Get r "User-Agent";
                         pkg.ClickCreatedAt := clock d |}])%list))
  ∨ (∃ code message,
       code ∈ [400; 500]
       ∧ pkg.StudentHandler.TrackClick d clicks r body
         = (pkg.respondError code message, clicks)).
Proof.
  unfold pkg.StudentHandler.TrackClick. destruct body as [sent|].
  2:{ right. eexists _, _. split; [|done]. set_solver. }
  case_bool_decide as Hsent.
  { right. eexists _, _. split; [|done]. set_solver. }
  cbv zeta. rewrite TrackClick_ip. unfold pkg.ClickRepository.RecordClick.
  destruct (up d) eqn:Hup; cbn [negb].
  2:{ right. eexists _, _. split; [|done]. set_solver. }
  destruct (forallb _ _) eqn:Htext; cbn [negb].
  2:{ right. eexists _, _. split; [|done]. set_solver. }
  destruct (pkg.varchar 50 sent) as [code|] eqn:Hcode.
  2:{ right. eexists _, _. split; [|done]. set_solver. }
  destruct (pkg.varchar 45 _) as [ip|] eqn:Hip.
  2:{ right. eexists _, _. split; [|done]. set_solver. }
  left. by exists sent, code, ip.
Qed.

Lemma TrackClick_accepted (d : DB) (clicks : list pkg.ReferralClick)
    (r : middleware.Request) (sent code ip : string) :
  sent ≠ "" → up d = true →
  forallb pkg.pg_text
    [sent; middleware.clientIP r; middleware.Header_Get r "User-Agent"] = true →
  pkg.varchar 50 sent = pkg.Stored code →
  pkg.varchar 45 (middleware.clientIP r) = pkg.Stored ip →
  pkg.StudentHandler.TrackClick d clicks r (Some sent)
  = ({| pkg.Code := 200; pkg.Content := pkg.Message "click recorded" |},
     (clicks ++ [{| pkg.ClickReferralCode := code; pkg.ClickUserID := None;
                    pkg.ClickIPAddress := ip;
                    pkg.ClickUserAgent := middleware.Header_Get r "User-Agent";
                    pkg.ClickCreatedAt := clock d |}])%list).
Proof.
  intros Hsent Hup Htext Hcode Hip. unfold pkg.StudentHandler.TrackClick.
  rewrite bool_decide_eq_false_2 by done. cbv zeta. rewrite TrackClick_ip.
  unfold pkg.ClickRepository.RecordClick. by rewrite Hup, Htext, Hcode, Hip.
Qed.

End clicks.

(** X21: a click is recorded for any referral code that is not empty,
    whether or not an account carries it: the handler answers 200 and
    appends exactly one row, with the address of the X-Forwarded-For
    header (the peer address when there is none) and the user agent, so
    that the count of that code grows by one and no other count
    changes.  It does so exactly when the store is reachable, the three
    values are well-formed text, and the code and the address fit
    their columns of 50 and 45 characters; every other request is
    answered with 400 or 500 and records nothing. *)
Theorem TrackClick_records_one `{External} (d : repository.DB)
    (clicks : list pkg.ReferralClick) (r : middleware.Request) (body : option string) :
  (pkg.Code (pkg.StudentHandler.TrackClick d clicks r body).1 = 200
   ↔ ∃ sent code ip,
       body = Some sent ∧ sent ≠ "" ∧ repository.up d = true
       ∧ forallb pkg.pg_text
           [sent; middleware.clientIP r; middleware.Header_Get r "User-Agent"] = true
       ∧ pkg.varchar 50 sent = pkg.Stored code
       ∧ pkg.varchar 45 (middleware.clientIP r) = pkg.Stored ip)
  ∧ (pkg.Code (pkg.StudentHandler.TrackClick d clicks r body).1 = 200 →
     ∃ click,
       (pkg.StudentHandler.TrackClick d clicks r body).2 = (clicks ++ [click])%list
       ∧ pkg.varchar 50 (default "" body) = pkg.Stored (pkg.ClickReferralCode click)
       ∧ pkg.varchar 45 (middleware.clientIP r) = pkg.Stored (pkg.ClickIPAddress click)
       ∧ pkg.ClickUserAgent click = middleware.Header_Get r "User-Agent"
       ∧ pkg.ClickUserID click = None
       ∧ ∀ code,
           pkg.click_count (pkg.StudentHandler.TrackClick d clicks r body).2 code
           = pkg.click_count clicks code
             + (if bool_decide (pkg.ClickReferralCode click = code) then 1 else 0))
  ∧ (pkg.Code (pkg.StudentHandler.TrackClick d clicks r body).1 ≠ 200 →
     pkg.Code (pkg.StudentHandler.TrackClick d clicks r body).1 ∈ [400; 500]
     ∧ (pkg.StudentHandler.TrackClick d clicks r body).2 = clicks).
Proof.
  destruct (TrackClick_cases d clicks r body)
    as [(sent & code & ip & -> & Hsent & Hup & Htext & Hcode & Hip & Heq)
       |(code & message & Hin & Heq)]; rewrite Heq;
    cbn [fst snd pkg.Code pkg.respondError default].
  - split; [|split].
    + split; [intros _; by exists sent, code, ip|done].
    + intros _. eexists. split; [done|]. cbn. repeat split; try done.
      intros c. apply click_count_snoc.
    + done.
  - assert (Hcode : code ≠ 200).
    { intros ->. apply elem_of_cons in Hin as [?|Hin]; [done|].
      apply elem_of_cons in Hin as [?|Hin]; [done|]. by apply elem_of_nil in Hin. }
    split; [|split]; [|done|done].
    split; [done|].
    intros (sent & code' & ip & -> & Hsent & Hup & Htext & Hcode' & Hip).
    rewrite (TrackClick_accepted d clicks r sent code' ip) in Heq by done.
    by injection Heq as <- _.
Qed.

(** A click that arrives through three proxies: the list of addresses
    in X-Forwarded-For is longer than the 45 characters of the column,
    and the click is lost with a 500. *)
Example click_through_proxies :
  @pkg.StudentHandler.TrackClick samples.ext samples.db []
    {| middleware.RemoteAddr := "10.0.0.9:4711";
       middleware.Header :=
         {[ "X-Forwarded-For" := "203.0.113.195, 198.51.100.178, 192.0.2.44, 10.0.0.1" ]};
       middleware.URLPath := "/api/v1/students/track-click" |}
    (Some "ADA-1A2B3C")
  = (pkg.respondError 500 "failed to record click", []).
Proof. by vm_compute. Qed.

(** X22: a recorded click shows on the dashboard of the account that
    carries the code, and on no other: when a click has been accepted
    and stored under the referral code of the caller, the dashboard of
    the caller is the one before with one more click; the dashboard of
    an account with another code does not change. *)
Theorem tracked_click_on_dashboard `{External} (d : repository.DB)
    (clicks : list pkg.ReferralClick) (r : middleware.Request) (sent : string)
    (claims : utils.Claims) (u : models.User) (stats : pkg.DashboardStats) :
  pkg.Code (pkg.StudentHandler.TrackClick d clicks r (Some sent)).1 = 200 →
  pkg.UserRepository.GetByID d (utils.UserID claims) = Ok u →
  pkg.UserHandler.GetDashboard d clicks (Some claims)
  = {| pkg.Code := 200; pkg.Content := pkg.Stats stats |} →
  pkg.UserHandler.GetDashboard d
    (pkg.StudentHandler.TrackClick d clicks r (Some sent)).2 (Some claims)
  = {| pkg.Code := 200;
       pkg.Content :=
         pkg.Stats
           {| pkg.TotalEarnings := pkg.TotalEarnings stats;
              pkg.PendingBalance := pkg.PendingBalance stats;
              pkg.TotalPaidEarnings := pkg.TotalPaidEarnings stats;
              pkg.PaidCount := pkg.PaidCount stats;
              pkg.TotalReferrals := pkg.TotalReferrals stats;
              pkg.TotalClicks :=
                pkg.TotalClicks stats
                + match pkg.varchar 50 sent with
                  | pkg.Stored code =>
                      if bool_decide (code = models.ReferralCode u) then 1 else 0
                  | pkg.Refused _ => 0
                  end;
              pkg.TotalPayouts := pkg.TotalPayouts stats;
              pkg.ActiveCodes := pkg.ActiveCodes stats;
              pkg.TotalCodes := pkg.TotalCodes stats;
              pkg.TotalStudents := pkg.TotalStudents stats;
              pkg.TotalUniqueCourses := pkg.TotalUniqueCourses stats;
              pkg.MonthlyRevenue := pkg.MonthlyRevenue stats |} |}.
Proof.
  intros Haccepted Hget.
  destruct (TrackClick_cases d clicks r (Some sent))
    as [(sent' & code & ip & [= <-] & Hsent & Hup & Htext & Hcode & Hip & Heq)
       |(code & message & Hin & Heq)]; rewrite Heq in *; cbn [fst snd] in *.
  2:{ cbn in Haccepted. subst code. exfalso.
      apply elem_of_cons in Hin as [?|Hin]; [done|].
      apply elem_of_cons in Hin as [?|Hin]; [done|]. by apply elem_of_nil in Hin. }
  unfold pkg.UserHandler.GetDashboard, pkg.ClickRepository.GetClickCountByUserID.
  unfold pkg.UserRepository.GetByID in Hget. rewrite Hup in *. cbn [negb] in *.
  destruct (find _ _) as [v|]; [|done]. injection Hget as ->.
  destruct (pkg.ReferralRepository.GetStatsByReferrer _ _) as [[[n paid] pending]|];
    [|done].
  intros [= <-]. cbn. do 3 f_equal. rewrite click_count_snoc. cbn. f_equal.
  by rewrite Hcode.
Qed.

Lemma tracked_click_on_dashboard_sample :
  @pkg.UserHandler.GetDashboard samples.db
    (@pkg.StudentHandler.TrackClick samples.ext samples.db []
       {| middleware.RemoteAddr := "10.0.0.9:4711"; middleware.Header := ∅;
          middleware.URLPath := "/api/v1/students/track-click" |}
       (Some "ADA-1A2B3C")).2
    (Some {| utils.UserID := 2%N; utils.Email := "ada@example.com"; utils.Role := "user";
             utils.Type_ := utils.AccessToken; utils.ExpiresAt := Some 1000;
             utils.NotBefore := None; utils.IssuedAt := Some 90;
             utils.Issuer := "cirvee-referral" |})
  = {| pkg.Code := 200;
       pkg.Content :=
         pkg.Stats {| pkg.TotalEarnings := 10000; pkg.PendingBalance := 10000;
                      pkg.TotalPaidEarnings := 0; pkg.PaidCount := 0;
                      pkg.TotalReferrals := 2; pkg.TotalClicks := 1;
                      pkg.TotalPayouts := 0; pkg.ActiveCodes := 0; pkg.TotalCodes := 0;
                      pkg.TotalStudents := 0; pkg.TotalUniqueCourses := 0;
                      pkg.MonthlyRevenue := 0 |} |}.
Proof.
  exact (@tracked_click_on_dashboard samples.ext samples.db []
           {| middleware.RemoteAddr := "10.0.0.9:4711"; middleware.Header := ∅;
              middleware.URLPath := "/api/v1/students/track-click" |}
           "ADA-1A2B3C"
           {| utils.UserID := 2%N; utils.Email := "ada@example.com"; utils.Role := "user";
              utils.Type_ := utils.AccessToken; utils.ExpiresAt := Some 1000;
              utils.NotBefore := None; utils.IssuedAt := Some 90;
              utils.Issuer := "cirvee-referral" |}
           samples.ada
           {| pkg.TotalEarnings := 10000; pkg.PendingBalance := 10000;
              pkg.TotalPaidEarnings := 0; pkg.PaidCount := 0;
              pkg.TotalReferrals := 2; pkg.TotalClicks := 0;
              pkg.TotalPayouts := 0; pkg.ActiveCodes := 0; pkg.TotalCodes := 0;
              pkg.TotalStudents := 0; pkg.TotalUniqueCourses := 0;
              pkg.MonthlyRevenue := 0 |}
           eq_refl eq_refl eq_refl).
Defined.

Section profiles.
Import models repository.
Context `{External}.

Lemma profile_row_Stored (u row : User) :
  pkg.profile_row u = pkg.Stored row →
  ID row = ID u ∧ Email row = Email u ∧ PasswordHash row = PasswordHash u
  ∧ UserRole row = UserRole u ∧ ReferralCode row = ReferralCode u
  ∧ IsBlocked row = IsBlocked u ∧ CreatedAt row = CreatedAt u
  ∧ pkg.varchar 255 (Name u) = pkg.Stored (Name row)
  ∧ pkg.varchar 50 (Phone u) = pkg.Stored (Phone row)
  ∧ pkg.varchar 100 (BankName u) = pkg.Stored (BankName row)
  ∧ pkg.varchar 20 (AccountNumber u) = pkg.Stored (AccountNumber row)
  ∧ pkg.varchar 255 (AccountName u) = pkg.Stored (AccountName row).
Proof.
  unfold pkg.profile_row. destruct (negb _); [done|].
  destruct (pkg.varchar 255 (Name u)) as [name|]; [|done].
  destruct (pkg.varchar 50 (Phone u)) as [phone|]; [|done].
  destruct (pkg.varchar 100 (BankName u)) as [bank|]; [|done].
  destruct (pkg.varchar 20 (AccountNumber u)) as [number|]; [|done].
  destruct (pkg.varchar 255 (AccountName u)) as [aname|]; [|done].
  cbn. by intros [= <-].
Qed.

Lemma Update_rows (d : DB) (user : User) :
  (pkg.UserRepository.Update d user).2 = d
  ∨ ∃ row, pkg.profile_row user = pkg.Stored row
           ∧ (pkg.UserRepository.Update d user).2
             = with_users d
                 ((λ u, if bool_decide (ID u = ID user)
                        then pkg.set_profile (clock d) row u else u) <$> users d).
Proof.
  unfold pkg.UserRepository.Update. destruct (negb (up d)); [by left|].
  destruct (pkg.profile_row user) as [row|]; [|by left].
  destruct (negb (user_exists _ _)); [by left|]. right. by exists row.
Qed.

Lemma GetByID_Ok (d : DB) (id : UUID) (u : User) :
  pkg.UserRepository.GetByID d id = Ok u → up d = true ∧ u ∈ users d ∧ ID u = id.
Proof.
  unfold pkg.UserRepository.GetByID. destruct (up d); [|done]. cbn.
  destruct (find _ _) as [v|] eqn:Hfind; [|done]. intros [= ->].
  apply find_some in Hfind as [Hin Hid]. apply list_elem_of_In in Hin.
  by apply bool_decide_eq_true in Hid.
Qed.

End profiles.

(** X23: whatever the request, the profile update changes no table but
    users, and there only the name, phone, bank and account fields and
    the time stamp of the caller's own row: the rows stay in place,
    every row keeps its id, e-mail address, password hash, role,
    referral code, blocked flag and creation time, and the row of every
    other account is left exactly as it was. *)
Theorem UpdateProfile_own_profile_only `{External} (d : repository.DB)
    (ctx : option utils.Claims) (body : option pkg.UpdateProfileRequest) :
  Forall2
    (λ before after,
       models.ID after = models.ID before
       ∧ models.Email after = models.Email before
       ∧ models.PasswordHash after = models.PasswordHash before
       ∧ models.UserRole after = models.UserRole before
       ∧ models.ReferralCode after = models.ReferralCode before
       ∧ models.IsBlocked after = models.IsBlocked before
       ∧ models.CreatedAt after = models.CreatedAt before
       ∧ (Some (models.ID before) ≠ utils.UserID <$> ctx → after = before))
    (repository.users d)
    (repository.users (pkg.UserHandler.UpdateProfile d ctx body).2)
  ∧ repository.referrals (pkg.UserHandler.UpdateProfile d ctx body).2
    = repository.referrals d
  ∧ repository.payouts (pkg.UserHandler.UpdateProfile d ctx body).2 = repository.payouts d
  ∧ repository.password_reset_tokens (pkg.UserHandler.UpdateProfile d ctx body).2
    = repository.password_reset_tokens d.
Proof.
  assert (Hsame : ∀ l : list models.User,
            Forall2
              (λ before after,
                 models.ID after = models.ID before
                 ∧ models.Email after = models.Email before
                 ∧ models.PasswordHash after = models.PasswordHash before
                 ∧ models.UserRole after = models.UserRole before
                 ∧ models.ReferralCode after = models.ReferralCode before
                 ∧ models.IsBlocked after = models.IsBlocked before
                 ∧ models.CreatedAt after = models.CreatedAt before
                 ∧ (Some (models.ID before) ≠ utils.UserID <$> ctx → after = before))
              l l).
  { intros l. apply Forall_Forall2_diag, Forall_forall. by intros. }
  unfold pkg.UserHandler.UpdateProfile.
  destruct ctx as [claims|]; [|by split].
  destruct body as [req|]; [|by split].
  destruct (pkg.validate_UpdateProfileRequest req); [|by split].
  destruct (pkg.UserRepository.GetByID d (utils.UserID claims)) as [u|] eqn:Hget; [|by split].
  apply GetByID_Ok in Hget as (_ & _ & Hid).
  destruct (pkg.UserRepository.Update d (pkg.merge_profile req u)) as [r d'] eqn:Hupdate.
  assert (Hd' : (pkg.UserRepository.Update d (pkg.merge_profile req u)).2 = d')
    by (by rewrite Hupdate).
  assert (Hrows : d' = d
                  ∨ ∃ row, d' = repository.with_users d
                                  ((λ v, if bool_decide (models.ID v = utils.UserID claims)
                                         then pkg.set_profile (repository.clock d) row v
                                         else v) <$> repository.users d)).
  { destruct (Update_rows d (pkg.merge_profile req u)) as [Heq|(row & _ & Heq)];
      rewrite Hd' in Heq; [by left|right]. exists row. rewrite Heq. by rewrite <- Hid. }
  assert (Hgoal : Forall2
            (λ before after,
               models.ID after = models.ID before
               ∧ models.Email after = models.Email before
               ∧ models.PasswordHash after = models.PasswordHash before
               ∧ models.UserRole after = models.UserRole before
               ∧ models.ReferralCode after = models.ReferralCode before
               ∧ models.IsBlocked after = models.IsBlocked before
               ∧ models.CreatedAt after = models.CreatedAt before
               ∧ (Some (models.ID before) ≠ utils.UserID <$> Some claims → after = before))
            (repository.users d) (repository.users d')
          ∧ repository.referrals d' = repository.referrals d
          ∧ repository.payouts d' = repository.payouts d
          ∧ repository.password_reset_tokens d' = repository.password_reset_tokens d).
  { destruct Hrows as [->|(row & ->)]; [by split|]. split; [|done].
    cbn [repository.users repository.with_users].
    apply Forall2_fmap_r, Forall_Forall2_diag, Forall_forall. intros v _.
    unfold compose. cbv beta.
    destruct (decide (models.ID v = utils.UserID claims)) as [Hv|Hv].
    - rewrite bool_decide_eq_true_2 by done. cbn. repeat split.
      intros Hne. by rewrite Hv in Hne.
    - by rewrite bool_decide_eq_false_2 by done. }
  by destruct r.
Qed.

(** X24: a profile update is partial.  For a caller whose account is
    found, a body that validates and values the columns can store, the
    answer is 200 with the account in which every field of the body
    that is not empty has replaced the stored one and every empty field
    has kept it, stamped with the time of the update; the rows with the
    caller's id receive the stored form of those five fields and the
    time stamp. *)
Theorem UpdateProfile_partial `{External} (d : repository.DB) (claims : utils.Claims)
    (req : pkg.UpdateProfileRequest) (u row : models.User) :
  pkg.UserRepository.GetByID d (utils.UserID claims) = Ok u →
  pkg.validate_UpdateProfileRequest req = [] →
  pkg.profile_row (pkg.merge_profile req u) = pkg.Stored row →
  let pick (new old : string) := if bool_decide (new ≠ "") then new else old in
  pkg.UserHandler.UpdateProfile d (Some claims) (Some req)
  = ({| pkg.Code := 200;
        pkg.Content :=
          pkg.Profile
            {| models.ID := models.ID u; models.Email := models.Email u;
               models.PasswordHash := models.PasswordHash u;
               models.Name := pick (pkg.NewName req) (models.Name u);
               models.Phone := pick (pkg.NewPhone req) (models.Phone u);
               models.UserRole := models.UserRole u;
               models.BankName := pick (pkg.NewBankName req) (models.BankName u);
               models.AccountNumber :=
                 pick (pkg.NewAccountNumber req) (models.AccountNumber u);
               models.AccountName := pick (pkg.NewAccountName req) (models.AccountName u);
               models.ReferralCode := models.ReferralCode u;
               models.IsBlocked := models.IsBlocked u;
               models.CreatedAt := models.CreatedAt u;
               models.UpdatedAt := repository.clock d |} |},
     repository.with_users d
       ((λ v, if bool_decide (models.ID v = utils.UserID claims)
              then pkg.set_profile (repository.clock d) row v else v)
          <$> repository.users d))
  ∧ pkg.varchar 255 (pick (pkg.NewName req) (models.Name u)) = pkg.Stored (models.Name row)
  ∧ pkg.varchar 50 (pick (pkg.NewPhone req) (models.Phone u))
    = pkg.Stored (models.Phone row)
  ∧ pkg.varchar 100 (pick (pkg.NewBankName req) (models.BankName u))
    = pkg.Stored (models.BankName row)
  ∧ pkg.varchar 20 (pick (pkg.NewAccountNumber req) (models.AccountNumber u))
    = pkg.Stored (models.AccountNumber row)
  ∧ pkg.varchar 255 (pick (pkg.NewAccountName req) (models.AccountName u))
    = pkg.Stored (models.AccountName row).
Proof.
  intros Hget Hvalid Hrow pick.
  pose proof (GetByID_Ok _ _ _ Hget) as (Hup & Hin & Hid).
  split.
  - unfold pkg.UserHandler.UpdateProfile. rewrite Hvalid, Hget.
    unfold pkg.UserRepository.Update. rewrite Hup, Hrow. cbn [negb].
    replace (repository.user_exists d (models.ID (pkg.merge_profile req u))) with true.
    + cbn [negb]. by rewrite <- Hid.
    + symmetry. apply existsb_bool_decide_true, list_elem_of_fmap. by exists u.
  - by apply profile_row_Stored in Hrow as (_ & _ & _ & _ & _ & _ & _ & Hrest).
Qed.

Lemma UpdateProfile_partial_sample :
  models.Phone
    <$> repository.users
          (@pkg.UserHandler.UpdateProfile samples.ext samples.db
             (Some {| utils.UserID := 2%N; utils.Email := "ada@example.com";
                      utils.Role := "user"; utils.Type_ := utils.AccessToken;
                      utils.ExpiresAt := Some 1000; utils.NotBefore := None;
                      utils.IssuedAt := Some 90; utils.Issuer := "cirvee-referral" |})
             (Some {| pkg.NewName := ""; pkg.NewPhone := "0809"; pkg.NewBankName := "";
                      pkg.NewAccountNumber := ""; pkg.NewAccountName := "" |})).2
  = ["08012345678"; "0809"; "08012345678"]
  ∧ models.Name
      <$> repository.users
            (@pkg.UserHandler.UpdateProfile samples.ext samples.db
               (Some {| utils.UserID := 2%N; utils.Email := "ada@example.com";
                        utils.Role := "user"; utils.Type_ := utils.AccessToken;
                        utils.ExpiresAt := Some 1000; utils.NotBefore := None;
                        utils.IssuedAt := Some 90; utils.Issuer := "cirvee-referral" |})
               (Some {| pkg.NewName := ""; pkg.NewPhone := "0809";
                        pkg.NewBankName := ""; pkg.NewAccountNumber := "";
                        pkg.NewAccountName := "" |})).2
    = ["Root"; "Ada"; "Bob"].
Proof.
  destruct (@UpdateProfile_partial samples.ext samples.db
              {| utils.UserID := 2%N; utils.Email := "ada@example.com";
                 utils.Role := "user"; utils.Type_ := utils.AccessToken;
                 utils.ExpiresAt := Some 1000; utils.NotBefore := None;
                 utils.IssuedAt := Some 90; utils.Issuer := "cirvee-referral" |}
              {| pkg.NewName := ""; pkg.NewPhone := "0809"; pkg.NewBankName := "";
                 pkg.NewAccountNumber := ""; pkg.NewAccountName := "" |}
              samples.ada _ eq_refl eq_refl eq_refl) as [Hout _].
  rewrite Hout. split; reflexivity.
Defined.

Section numerals.

Lemma pretty_N_char_digit (x : N) :
  (x < 10)%N → N_of_ascii (pretty_N_char x) = (48 + x)%N.
Proof.
  intros Hx.
  assert (Hcases : x ∈ (N.of_nat <$> seq 0 10)).
  { apply list_elem_of_fmap. exists (N.to_nat x). split; [lia|].
    apply list_elem_of_In, in_seq. lia. }
  cbn in Hcases.
  repeat (apply elem_of_cons in Hcases as [-> | Hcases]; [done|]).
  by apply elem_of_nil in Hcases.
Qed.

Lemma digits_value_pretty_go (x : N) :
  ∃ k, ∀ (acc : Z) (s : string),
    pkg.digits_value acc (pretty_N_go x s) = pkg.digits_value (acc * k + Z.of_N x) s.
Proof.
  induction (N.lt_wf_0 x) as [x _ IH].
  destruct (decide (x = 0%N)) as [->|Hx].
  - exists 1. intros acc s. rewrite pretty_N_go_0. f_equal. lia.
  - destruct (IH (x `div` 10)%N) as [k Hk].
    { apply N.div_lt; lia. }
    exists (k * 10). intros acc s. rewrite pretty_N_go_step by lia. rewrite Hk.
    cbn [pkg.digits_value].
    assert (Hmod : (x `mod` 10 < 10)%N) by (apply N.mod_lt; lia).
    rewrite (pretty_N_char_digit _ Hmod).
    pose proof (N.div_mod x 10 ltac:(lia)) as Hdm.
    revert Hmod Hdm. generalize (x `div` 10)%N (x `mod` 10)%N. intros q m Hm Hdm.
    replace ((48 <=? 48 + m)%N && (48 + m <=? 57)%N) with true.
    2:{ symmetry. apply andb_true_iff. split; apply N.leb_le; lia. }
    f_equal. replace (48 + m - 48)%N with m by lia. lia.
Qed.

Lemma digits_value_pretty (x : N) :
  pkg.digits_value 0 (pretty x) = Some (Z.of_N x).
Proof.
  unfold pretty, pretty_N. destruct (decide (x = 0%N)) as [->|Hx]; [done|].
  destruct (digits_value_pretty_go x) as [k Hk]. by rewrite Hk.
Qed.

Lemma pretty_N_head (x : N) :
  ∃ c rest, pretty x = String c rest ∧ c ≠ "-"%char ∧ c ≠ "+"%char.
Proof.
  destruct (pretty x) as [|c rest] eqn:Hp.
  - pose proof (digits_value_pretty x) as Hd. rewrite Hp in Hd. cbn in Hd.
    injection Hd as Hd. assert (x = 0%N) as -> by lia. done.
  - exists c, rest. split; [done|].
    pose proof (digits_value_pretty x) as Hd. rewrite Hp in Hd. cbn in Hd.
    split; intros ->; done.
Qed.

Lemma Atoi_pretty (n : Z) :
  pkg.in_int64 n = true → pkg.Atoi (pretty n) = (n, true).
Proof.
  unfold pkg.in_int64. intros [Hlo Hhi]%andb_true_iff.
  apply Z.leb_le in Hlo. apply Z.ltb_lt in Hhi.
  assert (Hdigits : ∀ (x : N) (negative : bool),
            - 2 ^ 63 ≤ (if negative then - Z.of_N x else Z.of_N x) < 2 ^ 63 →
            pkg.Atoi_digits negative (pretty x)
            = ((if negative then - Z.of_N x else Z.of_N x), true)).
  { intros x negative Hx. unfold pkg.Atoi_digits. rewrite digits_value_pretty.
    destruct (pretty_N_head x) as (c & rest & -> & _). cbv zeta.
    destruct (Z.leb_spec (2 ^ 63) (if negative then - Z.of_N x else Z.of_N x)); [lia|].
    destruct (Z.ltb_spec (if negative then - Z.of_N x else Z.of_N x) (- 2 ^ 63));
      [lia|done]. }
  destruct n as [|p|p].
  - done.
  - change (pretty (Z.pos p)) with (pretty (Npos p)).
    destruct (pretty_N_head (Npos p)) as (c & rest & Hp & Hminus & Hplus).
    unfold pkg.Atoi. rewrite Hp.
    assert (Hrest : pkg.Atoi_digits false (String c rest) = (Z.pos p, true)).
    { rewrite <- Hp. apply (Hdigits (Npos p) false). cbn. lia. }
    destruct c as [[] [] [] [] [] [] [] []]; try exact Hrest; done.
  - change (pretty (Z.neg p)) with ("-" +:+ pretty (Npos p)).
    cbn [String.append]. unfold pkg.Atoi.
    apply (Hdigits (Npos p) true). cbn. lia.
Qed.

End numerals.

(** X25: [getQueryInt] reads back every integer of the range of int
    that is written in decimal, and answers with the default for a
    parameter that is absent, is not an optional sign followed by
    digits, or is out of range.  The parse it rests on reports no error
    only with a value within the range, and with an error the value is
    0 or one of the two bounds. *)
Theorem getQueryInt_decimal (n : Z) (val : string) (defaultVal : Z) :
  (pkg.in_int64 n = true →
   pkg.Atoi (pretty n) = (n, true) ∧ pkg.getQueryInt (pretty n) defaultVal = n)
  ∧ pkg.getQueryInt val defaultVal
    = (if bool_decide (val = "") || negb (pkg.Atoi val).2 then defaultVal
       else (pkg.Atoi val).1)
  ∧ ((pkg.Atoi val).2 = true → pkg.in_int64 (pkg.Atoi val).1 = true)
  ∧ ((pkg.Atoi val).2 = false → (pkg.Atoi val).1 ∈ [0; 2 ^ 63 - 1; - 2 ^ 63]).
Proof.
  assert (Hdigits : ∀ negative digits,
            ((pkg.Atoi_digits negative digits).2 = true →
             pkg.in_int64 (pkg.Atoi_digits negative digits).1 = true)
            ∧ ((pkg.Atoi_digits negative digits).2 = false →
               (pkg.Atoi_digits negative digits).1 ∈ [0; 2 ^ 63 - 1; - 2 ^ 63])).
  { intros negative digits. unfold pkg.Atoi_digits.
    assert (H0 : (0 : Z) ∈ [0; 2 ^ 63 - 1; - 2 ^ 63]) by apply list_elem_of_here.
    destruct digits as [|c rest]; [done|].
    destruct (pkg.digits_value 0 _) as [m|]; [|done]. cbv zeta.
    destruct (Z.leb_spec (2 ^ 63) (if negative then - m else m)).
    { split; [done|]. intros _. apply list_elem_of_further, list_elem_of_here. }
    destruct (Z.ltb_spec (if negative then - m else m) (- 2 ^ 63)).
    { split; [done|]. intros _. do 2 apply list_elem_of_further. apply list_elem_of_here. }
    split; [|done]. intros _. unfold pkg.in_int64. cbn [fst].
    apply andb_true_iff. split; [apply Z.leb_le|apply Z.ltb_lt]; lia. }
  assert (Hatoi : ((pkg.Atoi val).2 = true → pkg.in_int64 (pkg.Atoi val).1 = true)
                  ∧ ((pkg.Atoi val).2 = false →
                     (pkg.Atoi val).1 ∈ [0; 2 ^ 63 - 1; - 2 ^ 63])).
  { unfold pkg.Atoi. destruct val as [|c rest]; [apply Hdigits|].
    destruct c as [[] [] [] [] [] [] [] []]; apply Hdigits. }
  split; [|split; [|exact Hatoi]].
  - intros Hn. pose proof (Atoi_pretty n Hn) as Hback. split; [done|].
    unfold pkg.getQueryInt. rewrite Hback.
    rewrite bool_decide_eq_false_2; [done|]. intros Hempty. by rewrite Hempty in Hback.
  - unfold pkg.getQueryInt. case_bool_decide; [done|]. cbn [orb].
    by destruct (pkg.Atoi val) as [v []].
Qed.

Section pages.
Import models repository.
Context `{Runtime}.


End pages.





(** X28: the seeding of the administrator at start-up adds at most one
    account and touches nothing else.  The account it adds is an
    administrator that is not blocked, under the configured e-mail
    address, and it is added only when e-mail address and password are
    configured and no account carries the address.  An account that
    already carries the address, whatever its role, is left as it is
    (its password and role do not follow the configuration), so that a
    further start after a successful seeding changes nothing. *)
Theorem ensureAdminExists_seeds_once `{External} `{Runtime} (d : repository.DB)
    (salt rnd : list Byte.byte) (newID : UUID) (cfg : pkg.AdminConfig) :
  (pkg.ensureAdminExists d salt rnd newID cfg = d
   ∨ ∃ row,
       pkg.ensureAdminExists d salt rnd newID cfg
       = repository.with_users d (repository.users d ++ [row])
       ∧ models.ID row = newID
       ∧ models.UserRole row = models.RoleAdmin
       ∧ models.IsBlocked row = false
       ∧ pkg.varchar 255 (pkg.AdminEmail cfg) = pkg.Stored (models.Email row)
       ∧ pkg.AdminEmail cfg ≠ "" ∧ pkg.AdminPassword cfg ≠ ""
       ∧ (pkg.AdminEmail cfg ∉ (models.Email <$> repository.users d))
       ∧ (models.Email row = pkg.AdminEmail cfg →
          ∀ salt' rnd' newID',
            pkg.ensureAdminExists
              (repository.with_users d (repository.users d ++ [row])) salt' rnd' newID' cfg
            = repository.with_users d (repository.users d ++ [row])))
  ∧ (pkg.AdminEmail cfg ∈ (models.Email <$> repository.users d) →
     pkg.ensureAdminExists d salt rnd newID cfg = d).
Proof.
  assert (Hexists : ∀ d0 salt0 rnd0 newID0,
            pkg.AdminEmail cfg ∈ (models.Email <$> repository.users d0) →
            pkg.ensureAdminExists d0 salt0 rnd0 newID0 cfg = d0).
  { intros d0 salt0 rnd0 newID0 Hin. unfold pkg.ensureAdminExists.
    destruct (_ || _); [done|]. unfold pkg.UserRepository.ExistsByEmail.
    destruct (negb (repository.up d0)); [done|].
    destruct (negb (pkg.pg_text _)); [done|].
    apply existsb_bool_decide_true in Hin. by rewrite Hin. }
  split; [|apply Hexists].
  assert (Hshape :
    pkg.ensureAdminExists d salt rnd newID cfg = d
    ∨ ∃ row,
        pkg.ensureAdminExists d salt rnd newID cfg
        = repository.with_users d (repository.users d ++ [row])
        ∧ models.ID row = newID
        ∧ models.UserRole row = models.RoleAdmin
        ∧ models.IsBlocked row = false
        ∧ pkg.varchar 255 (pkg.AdminEmail cfg) = pkg.Stored (models.Email row)
        ∧ pkg.AdminEmail cfg ≠ "" ∧ pkg.AdminPassword cfg ≠ ""
        ∧ (pkg.AdminEmail cfg ∉ (models.Email <$> repository.users d))).
  { unfold pkg.ensureAdminExists.
    destruct (decide (pkg.AdminEmail cfg = "")) as [Hemail|Hemail].
    { rewrite (bool_decide_eq_true_2 _ Hemail). by left. }
    destruct (decide (pkg.AdminPassword cfg = "")) as [Hpassword|Hpassword].
    { rewrite (bool_decide_eq_true_2 _ Hpassword), orb_true_r. by left. }
    rewrite (bool_decide_eq_false_2 _ Hemail), (bool_decide_eq_false_2 _ Hpassword).
    cbn [orb]. unfold pkg.AuthService.CreateAdmin.
    destruct (pkg.UserRepository.ExistsByEmail d (pkg.AdminEmail cfg)) as [[]|] eqn:Hfree;
      [by left| |by left].
    assert (Hnew : pkg.AdminEmail cfg ∉ (models.Email <$> repository.users d)).
    { unfold pkg.UserRepository.ExistsByEmail in Hfree.
      destruct (negb (repository.up d)); [done|].
      destruct (negb (pkg.pg_text _)); [done|].
      injection Hfree as Hfree. by apply existsb_bool_decide_false in Hfree. }
    destruct (HashPassword salt _) as [hash|]; [|by left].
    destruct (pkg.UserRepository.Create d _) as [r d'] eqn:Hcreate. cbn [snd].
    apply Create_outcome in Hcreate
      as [[-> _]|(row & _ & Hrow & _ & -> & _)]; [by left|].
    right. exists (pkg.set_user_times row (repository.clock d)).
    apply users_row_Stored in Hrow
      as (Hid & Hblocked & _ & _ & Hmail & _ & Hrole & _).
    cbn [models.ID models.IsBlocked models.Email models.UserRole] in *.
    apply varchar_stripped in Hrole; [|reflexivity].
    by repeat (split; [done|]). }
  destruct Hshape as [?|(row & Heq & Hid & Hrole & Hblocked & Hmail & He & Hp & Hnew)];
    [by left|right].
  exists row. repeat (split; [done|]).
  intros Hsame salt' rnd' newID'. apply Hexists.
  cbn [repository.users repository.with_users]. rewrite fmap_app.
  apply elem_of_app. right. cbn. rewrite <- Hsame. apply list_elem_of_here.
Qed.

Section budgets.
Import middleware cache.



End budgets.



Section settings.

Lemma getEnv_default (environ : gmap string string) (key : string) :
  default "" (environ !! key) = pkg.getEnv environ key "".
Proof. unfold pkg.getEnv. by destruct (environ !! key). Qed.

Lemma getEnv_set (environ : gmap string string) (key : string) :
  pkg.getEnv environ key "" ≠ "" → environ !! key = Some (pkg.getEnv environ key "").
Proof. unfold pkg.getEnv. by destruct (environ !! key). Qed.

End settings.

(** X30: the configuration is refused exactly when the access secret,
    the refresh secret or the database URL is unset or empty, with a
    message that names the first of them in this order.  A
    configuration that loads carries these three as they are set.  The
    errors of the duration parser are dropped: an access expiry that
    does not parse becomes zero, and the token manager then issues
    access tokens that are expired from the instant they are issued.
    Without a password for the administrator (the default), the
    seeding at start-up creates no account. *)
Theorem Load_required_settings `{pkg.Scanning} `{External} `{Runtime}
    (environ : gmap string string) :
  (∀ message,
     pkg.Load environ = pkg.Failed message
     ↔ (default "" (environ !! "JWT_SECRET") = "" ∧ message = "JWT_SECRET is required")
       ∨ (default "" (environ !! "JWT_SECRET") ≠ ""
          ∧ default "" (environ !! "JWT_REFRESH_SECRET") = ""
          ∧ message = "JWT_REFRESH_SECRET is required")
       ∨ (default "" (environ !! "JWT_SECRET") ≠ ""
          ∧ default "" (environ !! "JWT_REFRESH_SECRET") ≠ ""
          ∧ default "" (environ !! "DATABASE_URL") = ""
          ∧ message = "DATABASE_URL is required"))
  ∧ ∀ cfg,
      pkg.Load environ = pkg.Loaded cfg →
      environ !! "JWT_SECRET" = Some (pkg.Secret (pkg.JWT cfg))
      ∧ environ !! "JWT_REFRESH_SECRET" = Some (pkg.RefreshSecret (pkg.JWT cfg))
      ∧ environ !! "DATABASE_URL" = Some (pkg.URL (pkg.Database cfg))
      ∧ (pkg.ParseDuration (pkg.getEnv environ "JWT_ACCESS_EXPIRY" "15m") = None →
         ∀ issued now userID email role,
           issued ≤ now →
           utils.ValidateAccessToken (pkg.jwtManager cfg) now
             (utils.GenerateAccessToken (pkg.jwtManager cfg) issued userID email role)
           = Err ErrExpiredToken)
      ∧ (default "" (environ !! "ADMIN_PASSWORD") = "" →
         ∀ d salt rnd newID,
           pkg.ensureAdminExists d salt rnd newID (pkg.Admin cfg) = d).
Proof.
  rewrite !getEnv_default. unfold pkg.Load. cbv zeta.
  cbn [pkg.JWT pkg.Secret pkg.RefreshSecret pkg.Database pkg.URL].
  destruct (decide (pkg.getEnv environ "JWT_SECRET" "" = "")) as [Hs|Hs].
  { rewrite (bool_decide_eq_true_2 _ Hs). split; [|done]. intros message. split.
    - intros [= <-]. by left.
    - by intros [[_ ->]|[(? & _)|(? & _)]]. }
  rewrite (bool_decide_eq_false_2 _ Hs).
  destruct (decide (pkg.getEnv environ "JWT_REFRESH_SECRET" "" = "")) as [Hr|Hr].
  { rewrite (bool_decide_eq_true_2 _ Hr). split; [|done]. intros message. split.
    - intros [= <-]. right. by left.
    - by intros [[? _]|[(_ & _ & ->)|(_ & ? & _)]]. }
  rewrite (bool_decide_eq_false_2 _ Hr).
  destruct (decide (pkg.getEnv environ "DATABASE_URL" "" = "")) as [Hu|Hu].
  { rewrite (bool_decide_eq_true_2 _ Hu). split; [|done]. intros message. split.
    - intros [= <-]. right. by right.
    - by intros [[? _]|[(_ & ? & _)|(_ & _ & _ & ->)]]. }
  rewrite (bool_decide_eq_false_2 _ Hu). split.
  - intros message. split; [done|]. by intros [[? _]|[(_ & ? & _)|(_ & _ & ? & _)]].
  - intros cfg [= <-].
    cbn [pkg.JWT pkg.Secret pkg.RefreshSecret pkg.Database pkg.URL pkg.Admin].
    split; [by apply getEnv_set|]. split; [by apply getEnv_set|].
    split; [by apply getEnv_set|]. split.
    + intros Hparse issued now userID email role Hnow.
      rewrite issued_access_token. unfold pkg.jwtManager.
      cbn [pkg.JWT pkg.AccessExpiry utils.accessExpiry utils.NewJWTManager].
      rewrite Hparse. cbn [default].
      unfold utils.NewNumericDate, time.Truncate_Second.
      destruct (Z.ltb_spec now ((issued + 0) `div` time.Second * time.Second)); [|done].
      pose proof (Z.mul_div_le (issued + 0) time.Second ltac:(done)). lia.
    + intros Hpassword d salt rnd newID. unfold pkg.ensureAdminExists.
      cbn [pkg.AdminPassword].
      rewrite (bool_decide_eq_true_2 _ Hpassword). by rewrite orb_true_r.
Qed.
